(** * neon-evm test client: the iterative Ethereum-transaction protocol

    A shallow embedding of [evm_loader/solana_utils.py]: the binary layouts
    ([CREATE_ACCOUNT_LAYOUT], [ACCOUNT_INFO_LAYOUT]), the seeded address
    derivation, the three instruction builders of [NeonEvmClient] and the
    single-shot and iterative submission paths, followed by the properties
    the specification states about them. *)

From Stdlib Require Import ZArith List Bool Lia.
From Stdlib.Strings Require Import String Ascii Byte.
From Stdlib Require DecimalString.
Import ListNotations.

Local Open Scope Z_scope.

(** ** Python values the module works on *)

Definition bytes := list byte.

(** The exceptions the modelled code can raise.  [ExternalError] stands for
    whatever a collaborator outside the module (RPC client, subprocess)
    raises. *)
Inductive exn : Type :=
| OverflowError
| IndexError
| ValueError
| StreamError
| FormatFieldError
| Exception (msg : string)
| ExternalError (name : string).

(** What a call gives: a value or an exception. *)
Inductive result (A : Type) : Type :=
| Ok (a : A)
| Raise (e : exn).

Arguments Ok {A} a.
Arguments Raise {A} e.

Definition rbind {A B} (r : result A) (k : A -> result B) : result B :=
  match r with
  | Ok a => k a
  | Raise e => Raise e
  end.

(** Outcome of running a piece of code that may loop: it finished, with a
    value or an exception, or the bounded unrolling of [while True] in
    [continue_loop] ran out of fuel. *)
Inductive outcome (A : Type) : Type :=
| Finished (r : result A)
| OutOfFuel.

Arguments Finished {A} r.
Arguments OutOfFuel {A}.

(** *** Bytes and integers *)

Definition byte_to_Z (b : byte) : Z := Z.of_N (Byte.to_N b).

Definition byte_of_Z (z : Z) : byte :=
  match Byte.of_N (Z.to_N (z mod 256)) with
  | Some b => b
  | None => x00
  end.

(** The [len] low-order base-256 digits of [z], least significant first. *)
Fixpoint le_digits (len : nat) (z : Z) : bytes :=
  match len with
  | O => []
  | S n => byte_of_Z z :: le_digits n (z / 256)
  end.

(** [z.to_bytes(len, 'little')]: unsigned, raises [OverflowError] when [z] is
    negative or does not fit. *)
Definition to_bytes (z : Z) (len : nat) : result bytes :=
  if (0 <=? z) && (z <? 256 ^ Z.of_nat len)
  then Ok (le_digits len z)
  else Raise OverflowError.

(** [int.from_bytes(bs, 'little')]. *)
Fixpoint from_bytes (bs : bytes) : Z :=
  match bs with
  | [] => 0
  | b :: rest => byte_to_Z b + 256 * from_bytes rest
  end.

(** *** [bytes.hex()] and [bytes.fromhex] *)

Definition hex_digit (n : Z) : ascii :=
  if n <? 10 then ascii_of_N (Z.to_N (48 + n)) else ascii_of_N (Z.to_N (87 + n)).

Fixpoint hex (bs : bytes) : string :=
  match bs with
  | [] => EmptyString
  | b :: rest =>
      String (hex_digit (byte_to_Z b / 16))
        (String (hex_digit (byte_to_Z b mod 16)) (hex rest))
  end.

Definition hex_value (c : ascii) : option Z :=
  let n := Z.of_N (N_of_ascii c) in
  if (48 <=? n) && (n <=? 57) then Some (n - 48)
  else if (97 <=? n) && (n <=? 102) then Some (n - 87)
  else if (65 <=? n) && (n <=? 70) then Some (n - 55)
  else None.

Definition is_space (c : ascii) : bool :=
  let n := Z.of_N (N_of_ascii c) in
  (n =? 32) || ((9 <=? n) && (n <=? 13)).

(** [bytes.fromhex(s)]: two adjacent hexadecimal digits per byte, ASCII
    whitespace between bytes skipped, [ValueError] otherwise. *)
Fixpoint fromhex (s : string) : result bytes :=
  match s with
  | EmptyString => Ok []
  | String c s' =>
      if is_space c then fromhex s'
      else
        match s' with
        | EmptyString => Raise ValueError
        | String d s'' =>
            match hex_value c, hex_value d with
            | Some h, Some l =>
                rbind (fromhex s'') (fun rest => Ok (byte_of_Z (16 * h + l) :: rest))
            | _, _ => Raise ValueError
            end
        end
  end.

(** [bytes(s, 'utf8')]: strings are kept as their UTF-8 byte sequences. *)
Definition utf8 (s : string) : bytes := list_byte_of_string s.

(** [len(s)] where the count of code points matters: the bytes of the UTF-8
    form that do not continue a character (those not of the form 10xxxxxx). *)
Definition len_str (s : string) : Z :=
  Z.of_nat
    (List.length
       (filter (fun b => negb (Z.land (byte_to_Z b) 192 =? 128)) (list_byte_of_string s))).

(** [str(n)] for an integer. *)
Definition str (n : Z) : string := DecimalString.NilZero.string_of_int (Z.to_int n).

(** [s.startswith(p)]. *)
Definition startswith (p s : string) : bool := String.prefix p s.

(** [s[n:]]. *)
Definition drop_chars (n : nat) (s : string) : string :=
  String.substring n (String.length s - n) s.

(** ** The [construct] layouts

    A construct of the [construct] library is a pair of a builder and a
    parser; the parser consumes a prefix of its input and hands back the
    rest.  [sizeof] is the fixed size of the serialization. *)

Record Construct (A : Type) : Type := MkConstruct {
  c_build : A -> result bytes;
  c_parse : bytes -> result (A * bytes);
  c_sizeof : nat
}.

Arguments MkConstruct {A}.
Arguments c_build {A}.
Arguments c_parse {A}.
Arguments c_sizeof {A}.

(** Unsigned little-endian integer of [len] bytes ([Int8ul], [Int64ul]). *)
Definition FormatField (len : nat) : Construct Z :=
  MkConstruct
    (fun z => match to_bytes z len with
              | Ok bs => Ok bs
              | _ => Raise FormatFieldError
              end)
    (fun bs => if (List.length bs <? len)%nat then Raise StreamError
               else Ok (from_bytes (firstn len bs), skipn len bs))
    len.

Definition Int8ul : Construct Z := FormatField 1.
Definition Int64ul : Construct Z := FormatField 8.

(** [Bytes(n)]: exactly [n] raw bytes. *)
Definition Bytes (n : nat) : Construct bytes :=
  MkConstruct
    (fun b => if (List.length b =? n)%nat then Ok b else Raise StreamError)
    (fun bs => if (List.length bs <? n)%nat then Raise StreamError
               else Ok (firstn n bs, skipn n bs))
    n.

(** ["name" / c]: a named field; the name does not reach the wire. *)
Definition Renamed {A} (name : string) (c : Construct A) : Construct A := c.

(** [Struct] is built field by field: [StructEnd] is the empty struct and
    [StructField f rest] puts field [f] in front of [rest]; a container is
    the nested pair of the field values, in declaration order. *)
Definition StructEnd : Construct unit :=
  MkConstruct (fun _ => Ok []) (fun bs => Ok (tt, bs)) 0.

Definition StructField {A B} (f : Construct A) (rest : Construct B) : Construct (A * B) :=
  MkConstruct
    (fun v => rbind (c_build f (fst v)) (fun x =>
              rbind (c_build rest (snd v)) (fun y => Ok (x ++ y))))
    (fun bs => rbind (c_parse f bs) (fun r1 =>
               rbind (c_parse rest (snd r1)) (fun r2 =>
               Ok ((fst r1, fst r2), snd r2))))
    (c_sizeof f + c_sizeof rest).

Declare Scope construct_scope.
Delimit Scope construct_scope with construct.
Notation "n / c" := (Renamed n%string c) : construct_scope.
Notation "f ;; rest" := (StructField f rest)
  (at level 61, right associativity) : construct_scope.

(** [layout.build(v)] and [layout.parse(data)] as the module calls them. *)
Definition build {A} (c : Construct A) (v : A) : result bytes := c_build c v.
Definition parse {A} (c : Construct A) (data : bytes) : result A :=
  rbind (c_parse c data) (fun r => Ok (fst r)).
Definition sizeof {A} (c : Construct A) : nat := c_sizeof c.

(** The create-account record: lamports, space, ether, nonce. *)
Definition CREATE_ACCOUNT_LAYOUT : Construct (Z * (Z * (bytes * (Z * unit)))) :=
  ("lamports" / Int64ul ;;
   "space" / Int64ul ;;
   "ether" / Bytes 20 ;;
   "nonce" / Int8ul ;;
   StructEnd)%construct.

(** The account-state record read back from the chain. *)
Definition ACCOUNT_INFO_LAYOUT
  : Construct (Z * (bytes * (Z * (bytes * (bytes * (Z * (bytes * (bytes * unit)))))))) :=
  ("type" / Int8ul ;;
   "eth_acc" / Bytes 20 ;;
   "nonce" / Int8ul ;;
   "trx_count" / Bytes 8 ;;
   "code_acc" / Bytes 32 ;;
   "is_blocked" / Int8ul ;;
   "blocked_by" / Bytes 32 ;;
   "eth_token" / Bytes 32 ;;
   StructEnd)%construct.

(** ** Solana values

    A key is its 32 bytes.  The module also passes base58 strings where
    solana-py expects a key; such a string denotes the key it decodes to. *)

Definition PublicKey := bytes.
Definition PublicKey_of_bytes (b : bytes) : PublicKey := b.
Definition bytes_of_key (k : PublicKey) : bytes := k.

(** [AccountMeta(pubkey, is_signer, is_writable)] stores what it is given;
    solana-py looks at the key only when the transaction is serialised.  An
    attribute that is still [None] therefore ends up in a key list as it
    is. *)
Record AccountMeta : Type := AccountMeta_with {
  pubkey : option PublicKey;
  is_signer : bool;
  is_writable : bool
}.

(** The usual case: a key that is there. *)
Definition MkAccountMeta (key : PublicKey) (signer writable : bool) : AccountMeta :=
  AccountMeta_with (Some key) signer writable.

Record TransactionInstruction : Type := MkTransactionInstruction {
  keys : list AccountMeta;
  program_id : PublicKey;
  data : bytes
}.

Record Transaction : Type := MkTransaction {
  instructions : list TransactionInstruction
}.

Definition Transaction_new : Transaction := MkTransaction [].

(** [trx.add(instr)]. *)
Definition add (trx : Transaction) (instr : TransactionInstruction) : Transaction :=
  MkTransaction (instructions trx ++ [instr]).

Record Account : Type := MkAccount {
  public_key : PublicKey;
  secret_key : bytes
}.

(** The part of a confirmed-transaction response the module reads:
    [result['result']['meta']['innerInstructions']], a possibly null list of
    groups, each with the list of its instructions, of which only the base58
    [data] string is looked at. *)
Record InnerInstruction : Type := MkInnerInstruction {
  inner_data : string
}.

Record InnerInstructionGroup : Type := MkInnerInstructionGroup {
  inner_index : Z;
  inner_instructions : list InnerInstruction
}.

Record RPCResponse : Type := MkRPCResponse {
  rpc_id : Z;
  innerInstructions : option (list InnerInstructionGroup)
}.

(** ** The transaction object and the client *)

(** An Ethereum address as the module accepts it: a hex string, with or
    without the [0x] prefix, or raw bytes. *)
Inductive ether_t : Type :=
| EtherStr (s : string)
| EtherBytes (b : bytes).

(** [_NeonEvmClient__storage] is the attribute that the assignment
    [ethereum_transaction.__storage = None], written inside the class
    [NeonEvmClient], creates: Python mangles a double-underscore name in a
    class body with the class name.  [None] here means the attribute does
    not exist; [Some None] that it exists and holds Python's [None]. *)
Record EthereumTransaction : Type := MkEthereumTransaction {
  ether_caller : ether_t;
  contract_account : PublicKey;
  contract_code_account : PublicKey;
  trx_data : bytes;
  trx_account_metas : option (list AccountMeta);
  iterative_steps : Z;
  _solana_ether_caller : option PublicKey;
  _storage : option PublicKey;
  _NeonEvmClient__storage : option (option PublicKey)
}.

(** [EthereumTransaction.__init__]. *)
Definition EthereumTransaction_init (ether_caller : ether_t)
    (contract_account contract_code_account : PublicKey) (trx_data : bytes)
    (account_metas : option (list AccountMeta)) (steps : Z) : EthereumTransaction :=
  MkEthereumTransaction ether_caller contract_account contract_code_account
    trx_data account_metas steps None None None.

Definition default_steps : Z := 500.

Inductive ExecuteMode : Type := SINGLE | ITERATIVE.

Definition ExecuteMode_of_value (v : Z) : result ExecuteMode :=
  if v =? 0 then Ok SINGLE
  else if v =? 1 then Ok ITERATIVE
  else Raise ValueError.

Record RandomAccount : Type := MkRandomAccount {
  path : string;
  acc : Account
}.

Definition get_acc (a : RandomAccount) : Account := acc a.

Record EvmLoader : Type := MkEvmLoader {
  loader_id : string;
  loader_acc : RandomAccount
}.

Record NeonEvmClient : Type := MkNeonEvmClient {
  mode : ExecuteMode;
  solana_wallet : Account;
  evm_loader : EvmLoader;
  collateral_pool_address : PublicKey;
  collateral_pool_index_buf : bytes
}.

(** The dictionary handed to [make_instruction_data_from_tx]. *)
Record trx_raw_t : Type := MkTrxRaw {
  raw_to : bytes;
  raw_value : Z;
  raw_gas : Z;
  raw_gasPrice : Z;
  raw_nonce : Z;
  raw_data : bytes;
  raw_chainId : Z
}.

(** Arguments of the system program's create-account-with-seed layout. *)
Record CreateAccountWithSeedArgs : Type := MkCreateAccountWithSeedArgs {
  cas_base : bytes;
  cas_seed_length : Z;
  cas_seed_chars : string;
  cas_lamports : Z;
  cas_space : Z;
  cas_program_id : bytes
}.

Record AccountInfo : Type := MkAccountInfo {
  eth_acc : bytes;
  trx_count : bytes
}.

(** [AccountInfo.frombytes]. *)
Definition AccountInfo_frombytes (d : bytes) : result AccountInfo :=
  rbind (parse ACCOUNT_INFO_LAYOUT d) (fun cont =>
    Ok (MkAccountInfo (fst (snd cont)) (fst (snd (snd (snd cont)))))).

(** Module constants. *)
Definition system : string := "11111111111111111111111111111111".
Definition tokenkeg : string := "TokenkegQfeZyiNwAJbNbGKPFXCWuBvf9Ss623VQ5DA".
Definition sysvarclock : string := "SysvarC1ock11111111111111111111111111111111".
Definition sysinstruct : string := "Sysvar1nstructions1111111111111111111111111".
Definition keccakprog : string := "KeccakSecp256k11111111111111111111111111111".
Definition rentid : string := "SysvarRent111111111111111111111111111111111".
Definition incinerator : string := "1nc1nerator11111111111111111111111111111111".
Definition collateral_pool_base : string := "4sW3SZDJB7qXUyCYKA7pFL8eCTfm3REr8oSiKkww7MaT".
Definition EVM_LOADER : string := "DZs4oh51XqbgneUKcHgLxES4f1LfME5oTndzcU8qxHvi".
Definition ETH_TOKEN_MINT : string := "HPsV9Deocecw3GeZv1FkAPNCBRfuVyfw9MMwjwRe1xaU".

(** ** Collaborators

    Everything the module imports or reaches over the network: base58 and
    base64, the hash functions, the token-program helpers, the signer of
    [eth_tx_utils], and the calls that talk to the validator or spawn a
    command-line tool.  The latter take and return the state [World] of the
    outside. *)
Record Collaborators (World : Type) : Type := MkCollaborators {
  b58decode : string -> bytes;
  b64decode : string -> bytes;
  sha256 : bytes -> bytes;
  keccak : bytes -> bytes;
  TOKEN_PROGRAM_ID : PublicKey;
  ASSOCIATED_TOKEN_PROGRAM_ID : PublicKey;
  get_associated_token_address : PublicKey -> PublicKey -> PublicKey;
  make_keccak_instruction_data : Z -> Z -> Z -> bytes;
  make_instruction_data_from_tx : trx_raw_t -> bytes -> result (bytes * bytes * bytes);
  SYSTEM_INSTRUCTIONS_LAYOUT_build : CreateAccountWithSeedArgs -> bytes;
  (* client.send_transaction, confirm_transaction, get_confirmed_transaction *)
  rpc_send_transaction : World -> Transaction -> Account -> result RPCResponse * World;
  (* client.get_balance(account)['result']['value'] *)
  rpc_get_balance : World -> PublicKey -> result Z * World;
  (* client.get_account_info(account)['result']['value'], its data string *)
  rpc_get_account_info : World -> PublicKey -> result (option string) * World;
  (* neon-cli create-program-address, output split into address and nonce *)
  neon_cli_create_program_address : World -> string -> string -> result (PublicKey * Z) * World;
  (* spl-token transfer mint amount recipient *)
  spl_token_transfer : World -> PublicKey -> Z -> PublicKey -> result unit * World
}.

Arguments b58decode {World}.
Arguments b64decode {World}.
Arguments sha256 {World}.
Arguments keccak {World}.
Arguments TOKEN_PROGRAM_ID {World}.
Arguments ASSOCIATED_TOKEN_PROGRAM_ID {World}.
Arguments get_associated_token_address {World}.
Arguments make_keccak_instruction_data {World}.
Arguments make_instruction_data_from_tx {World}.
Arguments SYSTEM_INSTRUCTIONS_LAYOUT_build {World}.
Arguments rpc_send_transaction {World}.
Arguments rpc_get_balance {World}.
Arguments rpc_get_account_info {World}.
Arguments neon_cli_create_program_address {World}.
Arguments spl_token_transfer {World}.

(** ** Running the module

    The state threaded through the code: the outside world, the one
    [EthereumTransaction] object the client mutates, and the trace of the
    transactions handed to [send_transaction] with the signing account. *)
Record state (World : Type) : Type := MkState {
  world : World;
  etx : EthereumTransaction;
  sent : list (Transaction * Account)
}.

Arguments MkState {World}.
Arguments world {World}.
Arguments etx {World}.
Arguments sent {World}.

Definition M (World A : Type) : Type := state World -> outcome A * state World.

Definition ret {World A} (a : A) : M World A := fun st => (Finished (Ok a), st).

Definition raise {World A} (e : exn) : M World A := fun st => (Finished (Raise e), st).

Definition bind {World A B} (m : M World A) (k : A -> M World B) : M World B :=
  fun st =>
    match m st with
    | (Finished (Ok a), st') => k a st'
    | (Finished (Raise e), st') => (Finished (Raise e), st')
    | (OutOfFuel, st') => (OutOfFuel, st')
    end.

(** A pure computation that may raise. *)
Definition lift {World A} (r : result A) : M World A := fun st => (Finished r, st).

Notation "x <- c1 ;; c2" := (bind c1 (fun x => c2))
  (at level 61, c1 at next level, right associativity).
Notation "' pat <- c1 ;; c2" := (bind c1 (fun x => match x with pat => c2 end))
  (at level 61, pat pattern, c1 at next level, right associativity).
Notation "c1 ;;; c2" := (bind c1 (fun _ => c2))
  (at level 61, right associativity).

Definition get_etx {World} : M World EthereumTransaction :=
  fun st => (Finished (Ok (etx st)), st).

Definition put_etx {World} (tx : EthereumTransaction) : M World unit :=
  fun st => (Finished (Ok tt), MkState (world st) tx (sent st)).

(** Attribute assignments on the transaction object. *)
Definition set_solana_ether_caller (v : option PublicKey) (tx : EthereumTransaction)
  : EthereumTransaction :=
  MkEthereumTransaction (ether_caller tx) (contract_account tx) (contract_code_account tx)
    (trx_data tx) (trx_account_metas tx) (iterative_steps tx)
    v (_storage tx) (_NeonEvmClient__storage tx).

Definition set_storage (v : option PublicKey) (tx : EthereumTransaction)
  : EthereumTransaction :=
  MkEthereumTransaction (ether_caller tx) (contract_account tx) (contract_code_account tx)
    (trx_data tx) (trx_account_metas tx) (iterative_steps tx)
    (_solana_ether_caller tx) v (_NeonEvmClient__storage tx).

Definition set_NeonEvmClient__storage (v : option PublicKey) (tx : EthereumTransaction)
  : EthereumTransaction :=
  MkEthereumTransaction (ether_caller tx) (contract_account tx) (contract_code_account tx)
    (trx_data tx) (trx_account_metas tx) (iterative_steps tx)
    (_solana_ether_caller tx) (_storage tx) (Some v).

(** A key attribute of the transaction object that is still [None] cannot be
    turned into a key: [PublicKey(None)] raises [TypeError]. *)
Definition require_key (v : option PublicKey) : result PublicKey :=
  match v with
  | Some k => Ok k
  | None => Raise (ExternalError "TypeError")
  end.

Definition key_eqb (a b : PublicKey) : bool :=
  if list_eq_dec Byte.byte_eq_dec a b then true else false.

Section Client.

Context {World : Type} (env : Collaborators World).

Definition PublicKey_of_str (s : string) : PublicKey := b58decode env s.

Definition ETH_TOKEN_MINT_ID : PublicKey := PublicKey_of_str ETH_TOKEN_MINT.

(** A collaborator call that changes the world. *)
Definition call {A} (f : World -> result A * World) : M World A :=
  fun st => let (r, w) := f (world st) in (Finished r, MkState w (etx st) (sent st)).

Definition send_transaction (trx : Transaction) (a : Account) : M World RPCResponse :=
  fun st =>
    let (r, w) := rpc_send_transaction env (world st) trx a in
    (Finished r, MkState w (etx st) (sent st ++ [(trx, a)])).

Definition getBalance (account : PublicKey) : M World Z :=
  call (fun w => rpc_get_balance env w account).

Definition accountWithSeed (base : PublicKey) (seed : string) (program : PublicKey)
  : PublicKey :=
  PublicKey_of_bytes
    (sha256 env (bytes_of_key base ++ utf8 seed ++ bytes_of_key program)).

Definition create_collateral_pool_address (collateral_pool_index : Z) : PublicKey :=
  let COLLATERAL_SEED_PREFIX := "collateral_seed_"%string in
  let seed := (COLLATERAL_SEED_PREFIX ++ str collateral_pool_index)%string in
  accountWithSeed (PublicKey_of_str collateral_pool_base) seed (PublicKey_of_str EVM_LOADER).

(** [createAccountWithSeed].  The layout is handed [len(seed)], the number
    of characters; for the seeds this module passes, hex digits, that is
    also the number of bytes the layout finds in [chars]. *)
Definition createAccountWithSeed (funding base : PublicKey) (seed : string)
    (lamports space : Z) (program : PublicKey) : TransactionInstruction :=
  let data :=
    SYSTEM_INSTRUCTIONS_LAYOUT_build env
      (MkCreateAccountWithSeedArgs (bytes_of_key base)
         (len_str seed) seed lamports space (bytes_of_key program)) in
  let created := accountWithSeed base seed program in
  MkTransactionInstruction
    [ MkAccountMeta funding true true;
      MkAccountMeta created false true;
      MkAccountMeta base true false ]
    (PublicKey_of_str system)
    data.

(** [solana2ether]. *)
Definition solana2ether (key : PublicKey) : bytes :=
  let h := keccak env (bytes_of_key key) in
  skipn (List.length h - 20) h.

Definition getAccountData (account : PublicKey) (expected_length : nat) : M World bytes :=
  info <- call (fun w => rpc_get_account_info env w account) ;;
  match info with
  | None => raise (Exception "Can't get information about the account")
  | Some d =>
      let data := b64decode env d in
      if (List.length data <? expected_length)%nat
      then raise (Exception "Wrong data length for account data")
      else ret data
  end.

Definition getTransactionCount (sol_account : PublicKey) : M World Z :=
  info <- getAccountData sol_account (sizeof ACCOUNT_INFO_LAYOUT) ;;
  acc_info <- lift (AccountInfo_frombytes info) ;;
  ret (from_bytes (trx_count acc_info)).

(** *** EvmLoader *)

(** The normalisation every [EvmLoader] method starts with. *)
Definition ether_hex (ether : ether_t) : string :=
  match ether with
  | EtherStr s => if startswith "0x" s then drop_chars 2 s else s
  | EtherBytes b => hex b
  end.

Definition ether2program (loader : EvmLoader) (ether : ether_t) : M World (PublicKey * Z) :=
  let ether := ether_hex ether in
  call (fun w => neon_cli_create_program_address env w (loader_id loader) ether).

Definition createEtherAccount (loader : EvmLoader) (ether : ether_t) : M World PublicKey :=
  let ether := ether_hex ether in
  '(sol, nonce) <- ether2program loader (EtherStr ether) ;;
  let associated_token := get_associated_token_address env sol ETH_TOKEN_MINT_ID in
  let trx := Transaction_new in
  let base := public_key (get_acc (loader_acc loader)) in
  ether_bytes <- lift (fromhex ether) ;;
  layout <- lift (build CREATE_ACCOUNT_LAYOUT (10 ^ 9, (0, (ether_bytes, (nonce, tt))))) ;;
  let trx :=
    add trx
      (MkTransactionInstruction
         [ MkAccountMeta base true false;
           MkAccountMeta sol false true;
           MkAccountMeta associated_token false true;
           MkAccountMeta (PublicKey_of_str system) false false;
           MkAccountMeta ETH_TOKEN_MINT_ID false false;
           MkAccountMeta (TOKEN_PROGRAM_ID env) false false;
           MkAccountMeta (ASSOCIATED_TOKEN_PROGRAM_ID env) false false;
           MkAccountMeta (PublicKey_of_str rentid) false false ]
         (PublicKey_of_str (loader_id loader))
         ([x02; x00; x00; x00] ++ layout)) in
  result <- send_transaction trx (get_acc (loader_acc loader)) ;;
  ret sol.

(** *** NeonEvmClient *)

(** [NeonEvmClient.__init__]. *)
Definition NeonEvmClient_init (solana_wallet : Account) (evm_loader : EvmLoader)
  : result NeonEvmClient :=
  let collateral_pool_index := 2 in
  rbind (to_bytes collateral_pool_index 4) (fun buf =>
    Ok (MkNeonEvmClient SINGLE solana_wallet evm_loader
          (create_collateral_pool_address collateral_pool_index) buf)).

Definition set_execute_mode (self : NeonEvmClient) (new_mode : Z) : result NeonEvmClient :=
  rbind (ExecuteMode_of_value new_mode) (fun m =>
    Ok (MkNeonEvmClient m (solana_wallet self) (evm_loader self)
          (collateral_pool_address self) (collateral_pool_index_buf self))).

Definition create_solana_ether_caller (self : NeonEvmClient) : M World unit :=
  ethereum_transaction <- get_etx ;;
  '(caller, _) <- ether2program (evm_loader self) (ether_caller ethereum_transaction) ;;
  (if match _solana_ether_caller ethereum_transaction with
      | None => true
      | Some current => negb (key_eqb current caller)
      end
   then put_etx (set_solana_ether_caller (Some caller) ethereum_transaction)
   else ret tt) ;;;
  ethereum_transaction <- get_etx ;;
  current <- lift (require_key (_solana_ether_caller ethereum_transaction)) ;;
  balance <- getBalance current ;;
  (if balance =? 0 then
     created <- createEtherAccount (evm_loader self) (ether_caller ethereum_transaction) ;;
     ethereum_transaction <- get_etx ;;
     put_etx (set_solana_ether_caller (Some created) ethereum_transaction) ;;;
     call (fun w => spl_token_transfer env w ETH_TOKEN_MINT_ID 2000
                      (get_associated_token_address env caller ETH_TOKEN_MINT_ID))
   else ret tt).

Definition create_storage_account (self : NeonEvmClient) (seed : string) : M World PublicKey :=
  let storage :=
    PublicKey_of_bytes
      (sha256 env (bytes_of_key (public_key (solana_wallet self))
                   ++ utf8 seed
                   ++ bytes_of_key (PublicKey_of_str (loader_id (evm_loader self))))) in
  balance <- getBalance storage ;;
  if balance =? 0 then
    let trx :=
      add Transaction_new
        (createAccountWithSeed (public_key (solana_wallet self))
           (public_key (solana_wallet self))
           seed (10 ^ 9) (128 * 1024)
           (PublicKey_of_str EVM_LOADER)) in
    send_transaction trx (solana_wallet self) ;;;
    ret storage
  else ret storage.

Definition create_instruction_data_from_tx (self : NeonEvmClient)
  : M World (bytes * bytes * bytes) :=
  create_solana_ether_caller self ;;;
  ethereum_transaction <- get_etx ;;
  caller <- lift (require_key (_solana_ether_caller ethereum_transaction)) ;;
  caller_trx_cnt <- getTransactionCount caller ;;
  let trx_raw :=
    MkTrxRaw (solana2ether (contract_account ethereum_transaction))
      0 9999999 1000000000 caller_trx_cnt
      (trx_data ethereum_transaction) 111 in
  lift (make_instruction_data_from_tx env trx_raw (secret_key (solana_wallet self))).

Definition sol_instr_keccak (keccak_data : bytes) : TransactionInstruction :=
  MkTransactionInstruction
    [ MkAccountMeta (PublicKey_of_str keccakprog) false false ]
    (PublicKey_of_str keccakprog)
    keccak_data.

Definition sol_instr_05 (self : NeonEvmClient) (ethereum_transaction : EthereumTransaction)
    (data : bytes) : result TransactionInstruction :=
  rbind (require_key (_solana_ether_caller ethereum_transaction)) (fun caller =>
  Ok (MkTransactionInstruction
    [ (* System instructions account: *)
      MkAccountMeta (PublicKey_of_str sysinstruct) false false;
      (* Operator address: *)
      MkAccountMeta (public_key (solana_wallet self)) true true;
      (* Collateral pool address: *)
      MkAccountMeta (collateral_pool_address self) false true;
      (* Operator ETH address: *)
      MkAccountMeta (get_associated_token_address env (public_key (solana_wallet self))
                       ETH_TOKEN_MINT_ID) false true;
      (* User ETH address: *)
      MkAccountMeta (get_associated_token_address env caller ETH_TOKEN_MINT_ID) false true;
      (* System program account: *)
      MkAccountMeta (PublicKey_of_str system) false false;

      MkAccountMeta (contract_account ethereum_transaction) false true;
      MkAccountMeta (get_associated_token_address env
                       (contract_account ethereum_transaction) ETH_TOKEN_MINT_ID) false true;
      MkAccountMeta (contract_code_account ethereum_transaction) false true;
      MkAccountMeta caller false true;
      MkAccountMeta (get_associated_token_address env caller ETH_TOKEN_MINT_ID) false true;

      MkAccountMeta (PublicKey_of_str (loader_id (evm_loader self))) false false;
      MkAccountMeta ETH_TOKEN_MINT_ID false false;
      MkAccountMeta (TOKEN_PROGRAM_ID env) false false;
      MkAccountMeta (public_key (solana_wallet self)) false false ]
    (PublicKey_of_str (loader_id (evm_loader self)))
    ([x05] ++ collateral_pool_index_buf self ++ data))).

Definition sol_instr_09_partial_call (self : NeonEvmClient)
    (ethereum_transaction : EthereumTransaction) (step_count : Z) (data : bytes)
  : result TransactionInstruction :=
  rbind (to_bytes step_count 8) (fun steps =>
  rbind (require_key (_solana_ether_caller ethereum_transaction)) (fun caller =>
  Ok (MkTransactionInstruction
    [ AccountMeta_with (_storage ethereum_transaction) false true;

      (* System instructions account: *)
      MkAccountMeta (PublicKey_of_str sysinstruct) false false;
      (* Operator address: *)
      MkAccountMeta (public_key (solana_wallet self)) true true;
      (* Collateral pool address: *)
      MkAccountMeta (collateral_pool_address self) false true;
      (* System program account: *)
      MkAccountMeta (PublicKey_of_str system) false false;

      MkAccountMeta (contract_account ethereum_transaction) false true;
      MkAccountMeta (get_associated_token_address env
                       (contract_account ethereum_transaction) ETH_TOKEN_MINT_ID) false true;
      MkAccountMeta (contract_code_account ethereum_transaction) false true;
      MkAccountMeta caller false true;
      MkAccountMeta (get_associated_token_address env caller ETH_TOKEN_MINT_ID) false true;

      MkAccountMeta (PublicKey_of_str sysinstruct) false false;
      MkAccountMeta (PublicKey_of_str (loader_id (evm_loader self))) false false;
      MkAccountMeta ETH_TOKEN_MINT_ID false false;
      MkAccountMeta (TOKEN_PROGRAM_ID env) false false;
      MkAccountMeta (public_key (solana_wallet self)) false false ]
    (PublicKey_of_str (loader_id (evm_loader self)))
    ([x09] ++ collateral_pool_index_buf self ++ steps ++ data)))).

Definition sol_instr_10_continue (self : NeonEvmClient)
    (ethereum_transaction : EthereumTransaction) (step_count : Z)
  : result TransactionInstruction :=
  rbind (to_bytes step_count 8) (fun steps =>
  rbind (require_key (_solana_ether_caller ethereum_transaction)) (fun caller =>
  Ok (MkTransactionInstruction
    [ AccountMeta_with (_storage ethereum_transaction) false true;

      (* Operator address: *)
      MkAccountMeta (public_key (solana_wallet self)) true true;
      (* User ETH address: *)
      MkAccountMeta (get_associated_token_address env (public_key (solana_wallet self))
                       ETH_TOKEN_MINT_ID) false true;
      (* User ETH address: *)
      MkAccountMeta (get_associated_token_address env caller ETH_TOKEN_MINT_ID) false true;
      (* System program account: *)
      MkAccountMeta (PublicKey_of_str system) false false;

      MkAccountMeta (contract_account ethereum_transaction) false true;
      MkAccountMeta (get_associated_token_address env
                       (contract_account ethereum_transaction) ETH_TOKEN_MINT_ID) false true;
      MkAccountMeta (contract_code_account ethereum_transaction) false true;
      MkAccountMeta caller false true;
      MkAccountMeta (get_associated_token_address env caller ETH_TOKEN_MINT_ID) false true;

      MkAccountMeta (PublicKey_of_str sysinstruct) false false;
      MkAccountMeta (PublicKey_of_str (loader_id (evm_loader self))) false false;
      MkAccountMeta ETH_TOKEN_MINT_ID false false;
      MkAccountMeta (TOKEN_PROGRAM_ID env) false false;
      MkAccountMeta (public_key (solana_wallet self)) false false ]
    (PublicKey_of_str (loader_id (evm_loader self)))
    ([x0a] ++ steps)))).

(** [trx.instructions[-1].keys.extend(metas)]. *)
Fixpoint extend_last_keys (instrs : list TransactionInstruction) (metas : list AccountMeta)
  : result (list TransactionInstruction) :=
  match instrs with
  | [] => Raise IndexError
  | [i] => Ok [MkTransactionInstruction (keys i ++ metas) (program_id i) (data i)]
  | i :: rest => rbind (extend_last_keys rest metas) (fun rest' => Ok (i :: rest'))
  end.

Definition send_neon_transaction (self : NeonEvmClient) (trx : Transaction)
  : M World RPCResponse :=
  ethereum_transaction <- get_etx ;;
  trx <- match trx_account_metas ethereum_transaction with
         | Some metas =>
             lift (rbind (extend_last_keys (instructions trx) metas)
                         (fun l => Ok (MkTransaction l)))
         | None => ret trx
         end ;;
  send_transaction trx (solana_wallet self).

Definition send_ethereum_trx_single (self : NeonEvmClient) : M World RPCResponse :=
  '(from_address, sign, msg) <- create_instruction_data_from_tx self ;;
  let data := from_address ++ sign ++ msg in
  let keccak_data := make_keccak_instruction_data env 1 (Z.of_nat (List.length msg)) 5 in
  ethereum_transaction <- get_etx ;;
  instr_05 <- lift (sol_instr_05 self ethereum_transaction data) ;;
  let solana_trx := add (add Transaction_new (sol_instr_keccak keccak_data)) instr_05 in
  send_neon_transaction self solana_trx.

(** What the loop does with the result of a continue batch: the test on
    [result['result']['meta']['innerInstructions']] and on the first group's
    instruction list, then [data[0] == 6] on the decoded data of that
    group's last instruction.  [Ok true] leaves the loop with a return,
    [Ok false] goes round again, and indexing empty data raises. *)
Definition finalized (response : RPCResponse) : result bool :=
  match innerInstructions response with
  | Some (group :: _) =>
      match inner_instructions group with
      | [] => Ok false
      | first :: others =>
          let data := b58decode env (inner_data (last others first)) in
          match data with
          | [] => Raise IndexError
          | b :: _ => Ok (byte_to_Z b =? 6)
          end
      end
  | _ => Ok false
  end.

(** One turn of the [while True] loop; [Some result] is the [return]. *)
Definition continue_step (self : NeonEvmClient) : M World (option RPCResponse) :=
  ethereum_transaction <- get_etx ;;
  instr_10 <- lift (sol_instr_10_continue self ethereum_transaction
                      (iterative_steps ethereum_transaction)) ;;
  let solana_trx := add Transaction_new instr_10 in
  result <- send_neon_transaction self solana_trx ;;
  done <- lift (finalized result) ;;
  if (done : bool) then
    ethereum_transaction <- get_etx ;;
    put_etx (set_NeonEvmClient__storage None ethereum_transaction) ;;;
    ret (Some result)
  else ret None.

(** The loop itself, unrolled at most [fuel] times. *)
Fixpoint continue_loop (self : NeonEvmClient) (fuel : nat) : M World RPCResponse :=
  match fuel with
  | O => fun st => (OutOfFuel, st)
  | S fuel' =>
      r <- continue_step self ;;
      match r with
      | Some result => ret result
      | None => continue_loop self fuel'
      end
  end.

(** Lines 153-155 of [send_ethereum_trx_iterative]: the signed payload and
    the storage account. *)
Definition iterative_prepare (self : NeonEvmClient) : M World (bytes * bytes * bytes) :=
  '(from_address, sign, msg) <- create_instruction_data_from_tx self ;;
  ethereum_transaction <- get_etx ;;
  match _storage ethereum_transaction with
  | None =>
      storage <- create_storage_account self (hex (firstn 8 sign)) ;;
      ethereum_transaction <- get_etx ;;
      put_etx (set_storage (Some storage) ethereum_transaction)
  | Some _ => ret tt
  end ;;;
  ret (from_address, sign, msg).

(** Lines 157-166: the keccak and partial-call batch. *)
Definition iterative_first_batch (self : NeonEvmClient) (prepared : bytes * bytes * bytes)
  : M World RPCResponse :=
  let '(from_address, sign, msg) := prepared in
  let data := from_address ++ sign ++ msg in
  let keccak_data := make_keccak_instruction_data env 1 (Z.of_nat (List.length msg)) 13 in
  ethereum_transaction <- get_etx ;;
  instr_09 <- lift (sol_instr_09_partial_call self ethereum_transaction
                      (iterative_steps ethereum_transaction) data) ;;
  let solana_trx := add (add Transaction_new (sol_instr_keccak keccak_data)) instr_09 in
  send_neon_transaction self solana_trx.

Definition send_ethereum_trx_iterative (self : NeonEvmClient) (fuel : nat)
  : M World RPCResponse :=
  prepared <- iterative_prepare self ;;
  iterative_first_batch self prepared ;;;
  continue_loop self fuel.


(** *** Other instruction builders of the module *)

(** [EvmLoader.createEtherAccountTrx]: the transaction of
    [createEtherAccount], built and handed back without being sent.  The
    value of [seed = b58encode(bytes.fromhex(ether))] is not used; what
    remains of that line is that [fromhex] may raise. *)
Definition createEtherAccountTrx (loader : EvmLoader) (ether : ether_t)
    (code_acc : option PublicKey) : M World (Transaction * PublicKey) :=
  let ether := ether_hex ether in
  '(sol, nonce) <- ether2program loader (EtherStr ether) ;;
  let token := get_associated_token_address env sol ETH_TOKEN_MINT_ID in
  seed <- lift (fromhex ether) ;;
  let base := public_key (get_acc (loader_acc loader)) in
  ether_bytes <- lift (fromhex ether) ;;
  layout <- lift (build CREATE_ACCOUNT_LAYOUT (10 ^ 9, (0, (ether_bytes, (nonce, tt))))) ;;
  let data := [x02; x00; x00; x00] ++ layout in
  let trx := Transaction_new in
  let trx :=
    match code_acc with
    | None =>
        add trx
          (MkTransactionInstruction
             [ MkAccountMeta base true true;
               MkAccountMeta sol false true;
               MkAccountMeta token false true;
               MkAccountMeta (PublicKey_of_str system) false false;
               MkAccountMeta ETH_TOKEN_MINT_ID false false;
               MkAccountMeta (TOKEN_PROGRAM_ID env) false false;
               MkAccountMeta (ASSOCIATED_TOKEN_PROGRAM_ID env) false false;
               MkAccountMeta (PublicKey_of_str rentid) false false ]
             (PublicKey_of_str (loader_id loader))
             data)
    | Some code =>
        add trx
          (MkTransactionInstruction
             [ MkAccountMeta base true true;
               MkAccountMeta sol false true;
               MkAccountMeta token false true;
               MkAccountMeta code false true;
               MkAccountMeta (PublicKey_of_str system) false false;
               MkAccountMeta ETH_TOKEN_MINT_ID false false;
               MkAccountMeta (TOKEN_PROGRAM_ID env) false false;
               MkAccountMeta (ASSOCIATED_TOKEN_PROGRAM_ID env) false false;
               MkAccountMeta (PublicKey_of_str rentid) false false ]
             (PublicKey_of_str (loader_id loader))
             data)
    end in
  ret (trx, sol).

(** [create_with_seed_loader_instruction]. *)
Definition create_with_seed_loader_instruction (evm_loader_id : string)
    (funding created base : PublicKey) (seed : string) (lamports space : Z)
    (owner : PublicKey) : result TransactionInstruction :=
  rbind (to_bytes (len_str seed) 8) (fun seed_length =>
  rbind (to_bytes lamports 8) (fun lamports_bytes =>
  rbind (to_bytes space 8) (fun space_bytes =>
  Ok (MkTransactionInstruction
    [ MkAccountMeta funding true false;
      MkAccountMeta created false true;
      MkAccountMeta base false true;
      MkAccountMeta created false true;
      MkAccountMeta (PublicKey_of_str evm_loader_id) false true;
      MkAccountMeta ETH_TOKEN_MINT_ID false true;
      MkAccountMeta (PublicKey_of_str tokenkeg) false true;
      MkAccountMeta (PublicKey_of_str rentid) false true;
      MkAccountMeta (PublicKey_of_str system) false true ]
    (PublicKey_of_str evm_loader_id)
    ([x04; x00; x00; x00]
     ++ bytes_of_key base
     ++ seed_length
     ++ utf8 seed
     ++ lamports_bytes
     ++ space_bytes
     ++ bytes_of_key owner
     ++ bytes_of_key created))))).

End Client.

(** ** The statements of the specification *)

(** A construct round-trips on the values [valid] accepts: building gives
    [sizeof] bytes, and parsing them back, whatever follows, gives the value
    and leaves what follows. *)
Definition roundtrips {A} (c : Construct A) (valid : A -> Prop) : Prop :=
  forall v rest, valid v ->
    exists bs, c_build c v = Ok bs
            /\ List.length bs = c_sizeof c
            /\ c_parse c (bs ++ rest) = Ok (v, rest).

(** Clients as the module makes them: [NeonEvmClient(...)], then any number
    of [set_execute_mode] calls. *)
Inductive constructed {World} (env : Collaborators World) : NeonEvmClient -> Prop :=
| constructed_init wallet loader c :
    NeonEvmClient_init env wallet loader = Ok c -> constructed env c
| constructed_mode c v c' :
    constructed env c -> set_execute_mode c v = Ok c' -> constructed env c'.

(** The wire contract of section 6 of the specification: for each
    instruction kind the accounts by role, in order, each with its signer
    and writable flags.  A role written without a flag has the flag off. *)
Inductive account_role : Type :=
| system_instructions_sysvar
| operator
| collateral_pool
| operator_token_account
| caller_token_account
| system_program
| contract_account_role
| contract_token_account
| contract_code_account_role
| caller_account
| program_id_role
| token_mint
| token_program
| storage_account.

Definition key_spec : Type := account_role * bool * bool.

Definition readonly (r : account_role) : key_spec := (r, false, false).
Definition writable (r : account_role) : key_spec := (r, false, true).
Definition signer_writable (r : account_role) : key_spec := (r, true, true).

Definition call_from_raw_tx_keys : list key_spec :=
  [ readonly system_instructions_sysvar;
    signer_writable operator;
    writable collateral_pool;
    writable operator_token_account;
    writable caller_token_account;
    readonly system_program;
    writable contract_account_role;
    writable contract_token_account;
    writable contract_code_account_role;
    writable caller_account;
    writable caller_token_account;
    readonly program_id_role;
    readonly token_mint;
    readonly token_program;
    readonly operator ].

Definition partial_call_keys : list key_spec :=
  [ writable storage_account;
    readonly system_instructions_sysvar;
    signer_writable operator;
    writable collateral_pool;
    readonly system_program;
    writable contract_account_role;
    writable contract_token_account;
    writable contract_code_account_role;
    writable caller_account;
    writable caller_token_account;
    readonly system_instructions_sysvar;
    readonly program_id_role;
    readonly token_mint;
    readonly token_program;
    readonly operator ].

Definition continue_keys : list key_spec :=
  [ writable storage_account;
    signer_writable operator;
    writable operator_token_account;
    writable caller_token_account;
    readonly system_program;
    writable contract_account_role;
    writable contract_token_account;
    writable contract_code_account_role;
    writable caller_account;
    writable caller_token_account;
    readonly system_instructions_sysvar;
    readonly program_id_role;
    readonly token_mint;
    readonly token_program;
    readonly operator ].

(** The key that plays a role for a client, a transaction and its resolved
    caller account.  The storage account is the one the transaction holds;
    every other role has a key. *)
Definition address_of {World} (env : Collaborators World) (self : NeonEvmClient)
    (tx : EthereumTransaction) (caller : PublicKey) (r : account_role) : option PublicKey :=
  match r with
  | system_instructions_sysvar => Some (PublicKey_of_str env sysinstruct)
  | operator => Some (public_key (solana_wallet self))
  | collateral_pool => Some (collateral_pool_address self)
  | operator_token_account =>
      Some (get_associated_token_address env (public_key (solana_wallet self))
              (ETH_TOKEN_MINT_ID env))
  | caller_token_account =>
      Some (get_associated_token_address env caller (ETH_TOKEN_MINT_ID env))
  | system_program => Some (PublicKey_of_str env system)
  | contract_account_role => Some (contract_account tx)
  | contract_token_account =>
      Some (get_associated_token_address env (contract_account tx) (ETH_TOKEN_MINT_ID env))
  | contract_code_account_role => Some (contract_code_account tx)
  | caller_account => Some caller
  | program_id_role => Some (PublicKey_of_str env (loader_id (evm_loader self)))
  | token_mint => Some (ETH_TOKEN_MINT_ID env)
  | token_program => Some (TOKEN_PROGRAM_ID env)
  | storage_account => _storage tx
  end.

Definition account_meta_of {World} (env : Collaborators World) (self : NeonEvmClient)
    (tx : EthereumTransaction) (caller : PublicKey) (k : key_spec) : AccountMeta :=
  let '(r, signer, writable) := k in
  AccountMeta_with (address_of env self tx caller r) signer writable.

(** What a run may change: [tx'] is [tx] up to the cached caller account. *)
Definition same_request (tx tx' : EthereumTransaction) : Prop :=
  tx' = set_solana_ether_caller (_solana_ether_caller tx') tx.

(** The trace only grows, by transactions that satisfy [P]. *)
Definition extends {World} (P : Transaction -> Prop) (st st' : state World) : Prop :=
  exists l, sent st' = sent st ++ l /\ Forall (fun t => P (fst t)) l.

(** Transactions that create an account: the caller's, one instruction with
    eight account keys sent by [createEtherAccount], and the storage
    account's, the single create-account-with-seed instruction. *)
Definition creates_caller_account (t : Transaction) : Prop :=
  exists i, instructions t = [i] /\ List.length (keys i) = 8%nat.

Definition creates_storage_account {World} (env : Collaborators World) (t : Transaction)
  : Prop :=
  exists funding base seed lamports space program,
    instructions t = [createAccountWithSeed env funding base seed lamports space program].

(** The storage address of a run, as the specification derives it: the hash
    of the wallet key, the seed as UTF-8 and the program id of the loader. *)
Definition storage_address {World} (env : Collaborators World) (self : NeonEvmClient)
    (seed : string) : PublicKey :=
  sha256 env (public_key (solana_wallet self)
              ++ list_byte_of_string seed
              ++ b58decode env (loader_id (evm_loader self))).

(** The transaction that creates the storage account: create-account-with-seed
    from the wallet, funded with 10^9 lamports, 128 KiB large. *)
Definition storage_creation {World} (env : Collaborators World) (self : NeonEvmClient)
    (seed : string) : Transaction :=
  MkTransaction
    [ createAccountWithSeed env (public_key (solana_wallet self))
        (public_key (solana_wallet self)) seed 1000000000 131072
        (PublicKey_of_str env EVM_LOADER) ].

(** An instruction with the transaction's extra account metas, if any,
    appended after its own keys. *)
Definition with_extra (metas : option (list AccountMeta)) (i : TransactionInstruction)
  : TransactionInstruction :=
  match metas with
  | Some extra => MkTransactionInstruction (keys i ++ extra) (program_id i) (data i)
  | None => i
  end.

(** The completion marker of the specification is read off the decoded data
    of the last inner instruction the response lists for the submitted
    instruction, that is, for the first and, for a continue batch, only
    group; there is no such data when the response has no inner
    instructions. *)
Definition last_inner_data {World} (env : Collaborators World) (response : RPCResponse)
  : option bytes :=
  match innerInstructions response with
  | Some (group :: _) =>
      match rev (inner_instructions group) with
      | i :: _ => Some (b58decode env (inner_data i))
      | [] => None
      end
  | _ => None
  end.

(** The first byte is the finalize marker 6. *)
Definition has_marker (d : option bytes) : Prop :=
  exists rest, d = Some (x06 :: rest).

(** Inner instructions are absent, or the first byte is not the marker. *)
Definition lacks_marker (d : option bytes) : Prop :=
  d = None \/ exists b rest, d = Some (b :: rest) /\ b <> x06.

(** A batch of the iterative protocol that works on storage account [s]: its
    last instruction is a partial call or a continue, opcode 0x09 or 0x0A,
    whose first account is [s], writable and not a signer. *)
Definition references_storage (s : PublicKey) (t : Transaction) : Prop :=
  exists before i,
    instructions t = before ++ [i]
    /\ (hd_error (data i) = Some x09 \/ hd_error (data i) = Some x0a)
    /\ hd_error (keys i) = Some (MkAccountMeta s false true).

(** The two batches of an iterative run, for the payload parts [prepared]
    that [make_instruction_data_from_tx] returned. *)
Definition first_batch {World} (env : Collaborators World) (tx : EthereumTransaction)
    (prepared : bytes * bytes * bytes) (i9 : TransactionInstruction) : Transaction :=
  MkTransaction
    [ sol_instr_keccak env
        (make_keccak_instruction_data env 1 (Z.of_nat (List.length (snd prepared))) 13);
      with_extra (trx_account_metas tx) i9 ].

Definition continue_batch (tx : EthereumTransaction) (i10 : TransactionInstruction)
  : Transaction :=
  MkTransaction [with_extra (trx_account_metas tx) i10].

Definition payload (prepared : bytes * bytes * bytes) : bytes :=
  fst (fst prepared) ++ snd (fst prepared) ++ snd prepared.

(** The batch of the single-shot path. *)
Definition single_batch {World} (env : Collaborators World) (tx : EthereumTransaction)
    (prepared : bytes * bytes * bytes) (i5 : TransactionInstruction) : Transaction :=
  MkTransaction
    [ sol_instr_keccak env
        (make_keccak_instruction_data env 1 (Z.of_nat (List.length (snd prepared))) 5);
      with_extra (trx_account_metas tx) i5 ].

(** A construct of fixed size: parsing fails with [StreamError] exactly on
    input shorter than [sizeof], and otherwise reads the value [f] off the
    input and leaves what follows the first [sizeof] bytes. *)
Definition fixed_size {A} (c : Construct A) (f : bytes -> A) : Prop :=
  forall bs,
    c_parse c bs
    = if (List.length bs <? c_sizeof c)%nat then Raise StreamError
      else Ok (f bs, skipn (c_sizeof c) bs).

(** The gateway, asked to submit [batch] for [a] again and again from world
    [w], confirms each time, with the responses [rs] in this order, and is
    left in world [w']. *)
Inductive replies {World} (env : Collaborators World) (batch : Transaction) (a : Account)
  : World -> list RPCResponse -> World -> Prop :=
| replies_nil w : replies env batch a w [] w
| replies_cons w r w1 rs w' :
    rpc_send_transaction env w batch a = (Ok r, w1) ->
    replies env batch a w1 rs w' ->
    replies env batch a w (r :: rs) w'.

(** The receiving program is stuck on [batch]: submitted for [a] again and
    again from world [w], the batch is confirmed however often it is
    submitted, and none of the responses carries the marker. *)
Definition confirmed_without_marker {World} (env : Collaborators World)
    (batch : Transaction) (a : Account) (w : World) : Prop :=
  forall n : nat,
    exists rs w',
      replies env batch a w rs w'
      /\ List.length rs = n
      /\ Forall (fun r => lacks_marker (last_inner_data env r)) rs.

(** Reading the payload of [create_with_seed_loader_instruction] back:
    the opcode, then base (32 bytes), the seed length (8 bytes,
    little-endian), that many seed bytes, lamports and space (8 bytes each),
    owner and created address (32 bytes each), and nothing more. *)
Definition take (n : nat) (bs : bytes) : option (bytes * bytes) :=
  if (List.length bs <? n)%nat then None else Some (firstn n bs, skipn n bs).

Definition decode_create_with_seed (d : bytes)
  : option (bytes * bytes * Z * Z * bytes * bytes) :=
  match take 4 d with
  | Some (opcode, d1) =>
      if list_eq_dec Byte.byte_eq_dec opcode [x04; x00; x00; x00] then
        match take 32 d1 with
        | Some (base, d2) =>
            match take 8 d2 with
            | Some (n, d3) =>
                match take (Z.to_nat (from_bytes n)) d3 with
                | Some (seed, d4) =>
                    match take 8 d4 with
                    | Some (lamports, d5) =>
                        match take 8 d5 with
                        | Some (space, d6) =>
                            match take 32 d6 with
                            | Some (owner, d7) =>
                                match take 32 d7 with
                                | Some (created, []) =>
                                    Some (base, seed, from_bytes lamports,
                                          from_bytes space, owner, created)
                                | _ => None
                                end
                            | None => None
                            end
                        | None => None
                        end
                    | None => None
                    end
                | None => None
                end
            | None => None
            end
        | None => None
        end
      else None
  | None => None
  end.

(** The eight accounts of the create-account instruction, the funder
    writable or not. *)
Definition create_keys {World} (env : Collaborators World) (loader : EvmLoader)
    (sol : PublicKey) (funder_writable : bool) : list AccountMeta :=
  [ MkAccountMeta (public_key (get_acc (loader_acc loader))) true funder_writable;
    MkAccountMeta sol false true;
    MkAccountMeta (get_associated_token_address env sol (ETH_TOKEN_MINT_ID env)) false true;
    MkAccountMeta (PublicKey_of_str env system) false false;
    MkAccountMeta (ETH_TOKEN_MINT_ID env) false false;
    MkAccountMeta (TOKEN_PROGRAM_ID env) false false;
    MkAccountMeta (ASSOCIATED_TOKEN_PROGRAM_ID env) false false;
    MkAccountMeta (PublicKey_of_str env rentid) false false ].

(** ** A scripted gateway

    A concrete outside world to run the module against: the gateway answers
    each submission with the next entry of a script and, once the script is
    used up, with a confirmed transaction without inner instructions; every
    balance is [balance]; base58 and the hashes are the identity on bytes. *)
Module Scripted.

Definition World : Type := list (result RPCResponse).

Definition idle : RPCResponse := MkRPCResponse 0 None.

(** A response whose only inner instruction carries [d] as its data. *)
Definition response (id : Z) (d : string) : RPCResponse :=
  MkRPCResponse id (Some [MkInnerInstructionGroup 0 [MkInnerInstruction d]]).

Definition six : string := String (ascii_of_nat 6) EmptyString.
Definition seven : string := String (ascii_of_nat 7) EmptyString.

Definition account_data : string := string_of_list_byte (repeat x00 127).

Definition make {W : Type}
    (gateway : W -> Transaction -> Account -> result RPCResponse * W) (balance : Z)
  : Collaborators W :=
  MkCollaborators W
    list_byte_of_string
    list_byte_of_string
    (fun b => b)
    (fun b => b)
    (list_byte_of_string tokenkeg)
    (list_byte_of_string "ATokenGPvbdGVxr1b2hvZbsiqW5xWH25efTNsLJA8knL")
    (fun owner mint => owner ++ mint)
    (fun _ _ _ => [])
    (fun raw key => Ok (raw_to raw, key, raw_data raw))
    (fun args => cas_base args ++ list_byte_of_string (cas_seed_chars args))
    gateway
    (fun w _ => (Ok balance, w))
    (fun w _ => (Ok (Some account_data), w))
    (fun w _ ether => (Ok (list_byte_of_string ether, 255), w))
    (fun w _ _ _ => (Ok tt, w)).

Definition script_gateway (w : World) (_ : Transaction) (_ : Account)
  : result RPCResponse * World :=
  match w with
  | [] => (Ok idle, [])
  | r :: w' => (r, w')
  end.

Definition env (balance : Z) : Collaborators World := make script_gateway balance.

Definition wallet : Account := MkAccount [x01; x02] [x03; x04; x05; x06; x07; x08; x09; x0a; x0b].

Definition loader : EvmLoader := MkEvmLoader EVM_LOADER (MkRandomAccount "wallet.json" wallet).

Definition client {W : Type} (e : Collaborators W) (m : ExecuteMode) : NeonEvmClient :=
  MkNeonEvmClient m wallet loader (create_collateral_pool_address e 2) [x02; x00; x00; x00].

Definition request (metas : option (list AccountMeta)) : EthereumTransaction :=
  EthereumTransaction_init (EtherBytes (repeat xab 20)) [xc0] [xc1] [xda; x7a]
    metas default_steps.

(** The request once its caller and storage accounts are known. *)
Definition ready (metas : option (list AccountMeta)) : EthereumTransaction :=
  set_storage (Some [x55]) (set_solana_ether_caller (Some [x44]) (request metas)).

Definition start {W : Type} (metas : option (list AccountMeta)) (w : W) : state W :=
  MkState w (request metas) [].

Definition extra : list AccountMeta := [MkAccountMeta [xee] true false].

(** The continue instruction of [ready], read off the builder. *)
Definition continue_instruction : TransactionInstruction :=
  match sol_instr_10_continue (env 1) (client (env 1) ITERATIVE) (ready None) default_steps with
  | Ok i => i
  | Raise _ => MkTransactionInstruction [] [] []
  end.

End Scripted.

(** * Properties *)

(** ** Little-endian integers *)

Lemma byte_to_Z_range (b : byte) : 0 <= byte_to_Z b < 256.
Proof.
  unfold byte_to_Z. pose proof (Byte.to_N_bounded b). lia.
Qed.

Lemma byte_to_Z_of_Z (z : Z) : byte_to_Z (byte_of_Z z) = z mod 256.
Proof.
  unfold byte_to_Z, byte_of_Z.
  pose proof (Z.mod_pos_bound z 256 ltac:(lia)) as Hm.
  destruct (Byte.of_N (Z.to_N (z mod 256))) as [b|] eqn:E.
  - apply Byte.to_of_N in E. rewrite E. apply Z2N.id. lia.
  - apply Byte.of_N_None_iff in E. lia.
Qed.

Lemma byte_of_Z_to_Z (b : byte) : byte_of_Z (byte_to_Z b) = b.
Proof.
  unfold byte_of_Z. rewrite Z.mod_small by apply byte_to_Z_range.
  unfold byte_to_Z. rewrite N2Z.id, Byte.of_to_N. reflexivity.
Qed.

Lemma le_digits_length (len : nat) (z : Z) : List.length (le_digits len z) = len.
Proof.
  revert z. induction len as [|n IH]; intros z; simpl; [reflexivity | now rewrite IH].
Qed.

(** Digit [i] of the serialization is digit [i] of the number in base 256:
    the least significant byte comes first. *)
Lemma le_digits_nth (len : nat) (z : Z) (i : nat) :
  (i < len)%nat ->
  byte_to_Z (nth i (le_digits len z) x00) = (z / 256 ^ Z.of_nat i) mod 256.
Proof.
  revert z i. induction len as [|n IH]; intros z i Hi; [lia|].
  destruct i as [|j]; cbn [le_digits nth].
  - rewrite byte_to_Z_of_Z. simpl. now rewrite Z.div_1_r.
  - rewrite IH by lia. rewrite Nat2Z.inj_succ, Z.pow_succ_r by lia.
    rewrite Z.div_div by lia. reflexivity.
Qed.

Lemma from_bytes_le_digits (len : nat) (z : Z) :
  0 <= z < 256 ^ Z.of_nat len -> from_bytes (le_digits len z) = z.
Proof.
  revert z. induction len as [|n IH]; intros z Hz.
  - simpl in *. lia.
  - cbn [le_digits from_bytes]. rewrite byte_to_Z_of_Z.
    rewrite Nat2Z.inj_succ, Z.pow_succ_r in Hz by lia.
    rewrite IH.
    + pose proof (Z.div_mod z 256 ltac:(lia)). lia.
    + split; [apply Z.div_pos; lia | apply Z.div_lt_upper_bound; lia].
Qed.

(** Hex digits are one byte each, so a hex string has as many characters
    as bytes. *)
Lemma hex_digits_plain (b : byte) :
  (Z.land (byte_to_Z (byte_of_ascii (hex_digit (byte_to_Z b / 16)))) 192 =? 128) = false
  /\ (Z.land (byte_to_Z (byte_of_ascii (hex_digit (byte_to_Z b mod 16)))) 192 =? 128)
     = false.
Proof. destruct b; split; vm_compute; reflexivity. Qed.

Lemma len_str_hex (bs : bytes) : len_str (hex bs) = Z.of_nat (String.length (hex bs)).
Proof.
  unfold len_str. f_equal.
  induction bs as [|b bs IH]; [reflexivity|].
  destruct (hex_digits_plain b) as [H1 H2].
  cbn [hex String.length].
  change (list_byte_of_string
            (String (hex_digit (byte_to_Z b / 16))
               (String (hex_digit (byte_to_Z b mod 16)) (hex bs))))
    with (byte_of_ascii (hex_digit (byte_to_Z b / 16))
          :: byte_of_ascii (hex_digit (byte_to_Z b mod 16))
          :: list_byte_of_string (hex bs)).
  cbn [filter]. rewrite H1, H2. cbn [negb List.length]. now rewrite IH.
Qed.

Lemma to_bytes_ok (z : Z) (len : nat) :
  0 <= z < 256 ^ Z.of_nat len -> to_bytes z len = Ok (le_digits len z).
Proof.
  intros [H0 H1]. unfold to_bytes.
  apply Z.leb_le in H0. apply Z.ltb_lt in H1. now rewrite H0, H1.
Qed.

(** ** Layout round trips *)

Lemma firstn_exact {A} (l rest : list A) : firstn (List.length l) (l ++ rest) = l.
Proof.
  rewrite firstn_app, Nat.sub_diag, firstn_all. simpl. apply app_nil_r.
Qed.

Lemma skipn_exact {A} (l rest : list A) : skipn (List.length l) (l ++ rest) = rest.
Proof.
  rewrite skipn_app, Nat.sub_diag, skipn_all. reflexivity.
Qed.

Lemma ltb_app_length {A} (l rest : list A) :
  (List.length (l ++ rest) <? List.length l)%nat = false.
Proof.
  apply Nat.ltb_ge. rewrite length_app. lia.
Qed.

Lemma FormatField_roundtrips (len : nat) :
  roundtrips (FormatField len) (fun z => 0 <= z < 256 ^ Z.of_nat len).
Proof.
  intros z rest Hz. exists (le_digits len z). simpl.
  rewrite (to_bytes_ok z len Hz). split; [reflexivity|].
  pose proof (from_bytes_le_digits len z Hz) as Hf.
  pose proof (le_digits_length len z) as Hl.
  revert Hf Hl. generalize (le_digits len z). intros d Hf Hl. clear Hz. subst len.
  split; [reflexivity|].
  now rewrite ltb_app_length, firstn_exact, skipn_exact, Hf.
Qed.

Lemma Bytes_roundtrips (n : nat) :
  roundtrips (Bytes n) (fun b => List.length b = n).
Proof.
  intros b rest Hb. exists b. simpl. subst n.
  rewrite Nat.eqb_refl. split; [reflexivity|]. split; [reflexivity|].
  now rewrite ltb_app_length, firstn_exact, skipn_exact.
Qed.

Lemma StructEnd_roundtrips : roundtrips StructEnd (fun _ => True).
Proof.
  intros [] rest _. exists []. simpl. repeat split.
Qed.

Lemma StructField_roundtrips {A B} (f : Construct A) (rest : Construct B)
    (vf : A -> Prop) (vr : B -> Prop) :
  roundtrips f vf -> roundtrips rest vr ->
  roundtrips (StructField f rest) (fun v => vf (fst v) /\ vr (snd v)).
Proof.
  intros Hf Hr [a b] tail [Ha Hb]. simpl in Ha, Hb.
  destruct (Hr b tail Hb) as (y & By & Ly & Py).
  destruct (Hf a (y ++ tail) Ha) as (x & Bx & Lx & Px).
  exists (x ++ y). simpl. rewrite Bx, By. simpl.
  split; [reflexivity|]. split; [rewrite length_app; lia|].
  rewrite <- app_assoc, Px. simpl. rewrite Py. reflexivity.
Qed.

Lemma CREATE_ACCOUNT_LAYOUT_roundtrips :
  roundtrips CREATE_ACCOUNT_LAYOUT
    (fun v => 0 <= fst v < 2 ^ 64
           /\ 0 <= fst (snd v) < 2 ^ 64
           /\ List.length (fst (snd (snd v))) = 20%nat
           /\ 0 <= fst (snd (snd (snd v))) < 256
           /\ True).
Proof.
  pose proof
    (StructField_roundtrips _ _ _ _ (FormatField_roundtrips 8)
       (StructField_roundtrips _ _ _ _ (FormatField_roundtrips 8)
          (StructField_roundtrips _ _ _ _ (Bytes_roundtrips 20)
             (StructField_roundtrips _ _ _ _ (FormatField_roundtrips 1)
                StructEnd_roundtrips)))) as H.
  intros v rest (Hl & Hs & He & Hn & _).
  apply H. change (256 ^ Z.of_nat 8) with (2 ^ 64). change (256 ^ Z.of_nat 1) with 256.
  repeat split; (assumption || lia).
Qed.

(** C8.  For every (lamports: u64, space: u64, ether: 20 bytes, nonce: u8)
    the create-account layout builds a serialization, that serialization is
    lamports, space, ether, nonce in this order, the integers as 8, 8 and 1
    little-endian bytes (byte [i] is digit [i] in base 256), and parsing the
    serialization gives the tuple back. *)
Theorem create_account_layout_roundtrip
    (lamports space : Z) (ether : bytes) (nonce : Z) :
  0 <= lamports < 2 ^ 64 ->
  0 <= space < 2 ^ 64 ->
  List.length ether = 20%nat ->
  0 <= nonce < 256 ->
  let x := (lamports, (space, (ether, (nonce, tt)))) in
  exists l s n : bytes,
    build CREATE_ACCOUNT_LAYOUT x = Ok (l ++ s ++ ether ++ n)
    /\ parse CREATE_ACCOUNT_LAYOUT (l ++ s ++ ether ++ n) = Ok x
    /\ List.length l = 8%nat /\ List.length s = 8%nat /\ List.length n = 1%nat
    /\ (forall i, (i < 8)%nat ->
          byte_to_Z (nth i l x00) = (lamports / 256 ^ Z.of_nat i) mod 256)
    /\ (forall i, (i < 8)%nat ->
          byte_to_Z (nth i s x00) = (space / 256 ^ Z.of_nat i) mod 256)
    /\ byte_to_Z (nth 0 n x00) = nonce.
Proof.
  intros Hl Hs He Hn x.
  exists (le_digits 8 lamports), (le_digits 8 space), (le_digits 1 nonce).
  assert (Hb : build CREATE_ACCOUNT_LAYOUT x
               = Ok (le_digits 8 lamports ++ le_digits 8 space ++ ether ++ le_digits 1 nonce)).
  { subst x.
    unfold build, CREATE_ACCOUNT_LAYOUT, Renamed, Int64ul, Int8ul, StructField, StructEnd,
      FormatField, Bytes.
    cbn [c_build fst snd].
    rewrite (to_bytes_ok lamports 8), (to_bytes_ok space 8), (to_bytes_ok nonce 1)
      by (split; [lia | first [change (256 ^ Z.of_nat 8) with (2 ^ 64)
                              | change (256 ^ Z.of_nat 1) with 256]; lia]).
    cbn [rbind]. rewrite He, Nat.eqb_refl. cbn [rbind].
    now rewrite app_nil_r. }
  destruct (CREATE_ACCOUNT_LAYOUT_roundtrips x []) as (bs & Hb' & _ & Hp).
  { subst x. simpl. repeat split; try lia; assumption. }
  unfold build in Hb. rewrite Hb in Hb'. injection Hb' as <-.
  rewrite app_nil_r in Hp.
  split; [exact Hb|].
  split.
  { apply (f_equal (fun r => rbind r (fun r => Ok (fst r)))) in Hp. exact Hp. }
  repeat split; try apply le_digits_length.
  - intros i Hi. now apply le_digits_nth.
  - intros i Hi. now apply le_digits_nth.
  - simpl. rewrite byte_to_Z_of_Z. apply Z.mod_small. lia.
Qed.

Lemma create_account_layout_roundtrip_witness :
  exists l s n : bytes,
    build CREATE_ACCOUNT_LAYOUT (10 ^ 9, (0, (repeat xab 20, (255, tt))))
      = Ok (l ++ s ++ repeat xab 20 ++ n)
    /\ parse CREATE_ACCOUNT_LAYOUT (l ++ s ++ repeat xab 20 ++ n)
      = Ok (10 ^ 9, (0, (repeat xab 20, (255, tt))))
    /\ List.length l = 8%nat /\ List.length s = 8%nat /\ List.length n = 1%nat
    /\ (forall i, (i < 8)%nat ->
          byte_to_Z (nth i l x00) = (10 ^ 9 / 256 ^ Z.of_nat i) mod 256)
    /\ (forall i, (i < 8)%nat ->
          byte_to_Z (nth i s x00) = (0 / 256 ^ Z.of_nat i) mod 256)
    /\ byte_to_Z (nth 0 n x00) = 255.
Proof.
  apply (create_account_layout_roundtrip (10 ^ 9) 0 (repeat xab 20) 255);
    [lia | lia | reflexivity | lia].
Defined.

(** ** Clients and instruction builders *)

Section Builders.

Context {World : Type} (env : Collaborators World).

Lemma NeonEvmClient_init_ok (wallet : Account) (loader : EvmLoader) :
  NeonEvmClient_init env wallet loader
  = Ok (MkNeonEvmClient SINGLE wallet loader (create_collateral_pool_address env 2)
          (le_digits 4 2)).
Proof. reflexivity. Qed.

Lemma constructed_index_buf (c : NeonEvmClient) :
  constructed env c -> collateral_pool_index_buf c = le_digits 4 2.
Proof.
  induction 1 as [wallet loader c H | c v c' _ IH H].
  - rewrite NeonEvmClient_init_ok in H. injection H as <-. reflexivity.
  - unfold set_execute_mode in H.
    destruct (ExecuteMode_of_value v); simpl in H; try discriminate.
    injection H as <-. exact IH.
Qed.

End Builders.

(** C7.  On a client as the module constructs it, for every transaction
    whose caller account is resolved (with or without a storage account)
    and a step count that fits 64 bits, the partial-call payload is the
    byte 0x09, then the collateral pool index 2 as 4 little-endian bytes,
    then the step count as 8 little-endian bytes, then the payload; the
    continue payload is the byte 0x0A, then the step count as 8
    little-endian bytes. *)
Theorem instruction_payloads {World} (env : Collaborators World)
    (c : NeonEvmClient) (tx : EthereumTransaction) (steps : Z) (payload : bytes)
    (caller : PublicKey) :
  constructed env c ->
  _solana_ether_caller tx = Some caller ->
  0 <= steps < 2 ^ 64 ->
  exists i9 i10 index count,
    sol_instr_09_partial_call env c tx steps payload = Ok i9
    /\ sol_instr_10_continue env c tx steps = Ok i10
    /\ data i9 = [x09] ++ index ++ count ++ payload
    /\ data i10 = [x0a] ++ count
    /\ List.length index = 4%nat
    /\ (forall i, (i < 4)%nat ->
          byte_to_Z (nth i index x00) = (2 / 256 ^ Z.of_nat i) mod 256)
    /\ List.length count = 8%nat
    /\ (forall i, (i < 8)%nat ->
          byte_to_Z (nth i count x00) = (steps / 256 ^ Z.of_nat i) mod 256).
Proof.
  intros Hc Hcaller Hsteps.
  unfold sol_instr_09_partial_call, sol_instr_10_continue.
  rewrite (to_bytes_ok steps 8) by (change (256 ^ Z.of_nat 8) with (2 ^ 64); lia).
  rewrite Hcaller, (constructed_index_buf env c Hc).
  cbn [rbind require_key].
  do 2 eexists. exists (le_digits 4 2), (le_digits 8 steps).
  split; [reflexivity|]. split; [reflexivity|].
  cbn [data]. split; [reflexivity|]. split; [reflexivity|].
  split; [apply le_digits_length|].
  split; [intros i Hi; now apply le_digits_nth|].
  split; [apply le_digits_length|].
  intros i Hi; now apply le_digits_nth.
Qed.

Lemma instruction_payloads_witness :
  exists i9 i10 index count,
    sol_instr_09_partial_call (Scripted.env 1) (Scripted.client (Scripted.env 1) ITERATIVE)
      (Scripted.ready None)
      500 [xfe] = Ok i9
    /\ sol_instr_10_continue (Scripted.env 1) (Scripted.client (Scripted.env 1) ITERATIVE)
      (Scripted.ready None)
      500 = Ok i10
    /\ data i9 = [x09] ++ index ++ count ++ [xfe]
    /\ data i10 = [x0a] ++ count
    /\ List.length index = 4%nat
    /\ (forall i, (i < 4)%nat ->
          byte_to_Z (nth i index x00) = (2 / 256 ^ Z.of_nat i) mod 256)
    /\ List.length count = 8%nat
    /\ (forall i, (i < 8)%nat ->
          byte_to_Z (nth i count x00) = (500 / 256 ^ Z.of_nat i) mod 256).
Proof.
  apply (instruction_payloads (Scripted.env 1) (Scripted.client (Scripted.env 1) ITERATIVE)
           (Scripted.ready None)
           500 [xfe] [x44]).
  - apply (constructed_mode _ (Scripted.client (Scripted.env 1) SINGLE) 1).
    + apply (constructed_init _ Scripted.wallet Scripted.loader). reflexivity.
    + reflexivity.
  - reflexivity.
  - lia.
Defined.

(** C3.  For every transaction, what each of the three builders emits is,
    key by key and flag by flag, the sequence section 6 of the specification
    lists for that kind, the storage account being whatever the transaction
    holds as [_storage].  The call-from-raw-tx list is emitted whenever the
    caller account is resolved, whatever the storage attribute: the list
    names no storage account.  The partial-call and the continue list are
    emitted whenever the caller account is resolved and the step count fits
    8 bytes, whether or not a storage account is set.  In every other case
    the builder raises and emits no list: [TypeError] from
    [PublicKey(None)] without a caller account, [OverflowError] from
    [to_bytes] for a step count out of range. *)
Theorem account_ordering {World} (env : Collaborators World) (c : NeonEvmClient) :
  (forall (tx : EthereumTransaction) (payload : bytes) (caller : PublicKey),
     _solana_ether_caller tx = Some caller ->
     exists i5,
       sol_instr_05 env c tx payload = Ok i5
       /\ keys i5 = map (account_meta_of env c tx caller) call_from_raw_tx_keys)
  /\ (forall (tx : EthereumTransaction) (steps : Z) (payload : bytes) (caller : PublicKey),
        _solana_ether_caller tx = Some caller ->
        0 <= steps < 2 ^ 64 ->
        exists i9 i10,
          sol_instr_09_partial_call env c tx steps payload = Ok i9
          /\ sol_instr_10_continue env c tx steps = Ok i10
          /\ keys i9 = map (account_meta_of env c tx caller) partial_call_keys
          /\ keys i10 = map (account_meta_of env c tx caller) continue_keys)
  /\ (forall (tx : EthereumTransaction) (steps : Z) (payload : bytes),
        (_solana_ether_caller tx = None ->
         sol_instr_05 env c tx payload = Raise (ExternalError "TypeError"))
        /\ (~ 0 <= steps < 2 ^ 64 ->
            sol_instr_09_partial_call env c tx steps payload = Raise OverflowError
            /\ sol_instr_10_continue env c tx steps = Raise OverflowError)
        /\ (0 <= steps < 2 ^ 64 ->
            _solana_ether_caller tx = None ->
            sol_instr_09_partial_call env c tx steps payload
            = Raise (ExternalError "TypeError")
            /\ sol_instr_10_continue env c tx steps = Raise (ExternalError "TypeError"))).
Proof.
  split; [|split].
  - intros tx payload caller Hcaller.
    unfold sol_instr_05. rewrite Hcaller. cbn [rbind require_key].
    eexists. split; reflexivity.
  - intros tx steps payload caller Hcaller Hsteps.
    unfold sol_instr_09_partial_call, sol_instr_10_continue.
    rewrite (to_bytes_ok steps 8) by (change (256 ^ Z.of_nat 8) with (2 ^ 64); lia).
    rewrite Hcaller. cbn [rbind require_key].
    do 2 eexists. repeat split; reflexivity.
  - intros tx steps payload. split; [|split].
    + intros Hcaller. unfold sol_instr_05. now rewrite Hcaller.
    + intros Hsteps. unfold sol_instr_09_partial_call, sol_instr_10_continue, to_bytes.
      change (256 ^ Z.of_nat 8) with (2 ^ 64).
      destruct ((0 <=? steps) && (steps <? 2 ^ 64)) eqn:E; [|now split].
      apply andb_true_iff in E. destruct E as [E0 E1].
      apply Z.leb_le in E0. apply Z.ltb_lt in E1. lia.
    + intros Hsteps Hcaller. unfold sol_instr_09_partial_call, sol_instr_10_continue.
      rewrite (to_bytes_ok steps 8) by (change (256 ^ Z.of_nat 8) with (2 ^ 64); lia).
      rewrite Hcaller. now split.
Qed.

Lemma account_ordering_witness :
  (exists i5,
     sol_instr_05 (Scripted.env 1) (Scripted.client (Scripted.env 1) SINGLE)
       (set_solana_ether_caller (Some [x44]) (Scripted.request None)) [xfe] = Ok i5
     /\ keys i5 = map (account_meta_of (Scripted.env 1)
                         (Scripted.client (Scripted.env 1) SINGLE)
                         (set_solana_ether_caller (Some [x44]) (Scripted.request None))
                         [x44]) call_from_raw_tx_keys)
  /\ _storage (set_solana_ether_caller (Some [x44]) (Scripted.request None)) = None
  /\ (exists i9 i10,
        sol_instr_09_partial_call (Scripted.env 1) (Scripted.client (Scripted.env 1) ITERATIVE)
          (Scripted.ready None) 500 [xfe] = Ok i9
        /\ sol_instr_10_continue (Scripted.env 1) (Scripted.client (Scripted.env 1) ITERATIVE)
             (Scripted.ready None) 500 = Ok i10
        /\ keys i9 = map (account_meta_of (Scripted.env 1)
                            (Scripted.client (Scripted.env 1) ITERATIVE)
                            (Scripted.ready None) [x44]) partial_call_keys
        /\ keys i10 = map (account_meta_of (Scripted.env 1)
                             (Scripted.client (Scripted.env 1) ITERATIVE)
                             (Scripted.ready None) [x44]) continue_keys)
  /\ (exists i9 i10,
        sol_instr_09_partial_call (Scripted.env 1) (Scripted.client (Scripted.env 1) ITERATIVE)
          (set_solana_ether_caller (Some [x44]) (Scripted.request None)) 500 [xfe] = Ok i9
        /\ sol_instr_10_continue (Scripted.env 1) (Scripted.client (Scripted.env 1) ITERATIVE)
             (set_solana_ether_caller (Some [x44]) (Scripted.request None)) 500 = Ok i10
        /\ keys i9 = map (account_meta_of (Scripted.env 1)
                            (Scripted.client (Scripted.env 1) ITERATIVE)
                            (set_solana_ether_caller (Some [x44]) (Scripted.request None))
                            [x44]) partial_call_keys
        /\ keys i10 = map (account_meta_of (Scripted.env 1)
                             (Scripted.client (Scripted.env 1) ITERATIVE)
                             (set_solana_ether_caller (Some [x44]) (Scripted.request None))
                             [x44]) continue_keys)
  /\ sol_instr_05 (Scripted.env 1) (Scripted.client (Scripted.env 1) SINGLE)
       (Scripted.request None) [xfe]
     = Raise (ExternalError "TypeError")
  /\ (sol_instr_09_partial_call (Scripted.env 1) (Scripted.client (Scripted.env 1) ITERATIVE)
        (Scripted.ready None) (2 ^ 64) [xfe] = Raise OverflowError
      /\ sol_instr_10_continue (Scripted.env 1) (Scripted.client (Scripted.env 1) ITERATIVE)
           (Scripted.ready None) (2 ^ 64) = Raise OverflowError)
  /\ (sol_instr_09_partial_call (Scripted.env 1) (Scripted.client (Scripted.env 1) ITERATIVE)
        (Scripted.request None) 500 [xfe] = Raise (ExternalError "TypeError")
      /\ sol_instr_10_continue (Scripted.env 1) (Scripted.client (Scripted.env 1) ITERATIVE)
           (Scripted.request None) 500 = Raise (ExternalError "TypeError")).
Proof.
  split; [|split; [|split; [|split; [|split; [|split]]]]].
  - apply (proj1 (account_ordering (Scripted.env 1)
                    (Scripted.client (Scripted.env 1) SINGLE))
             (set_solana_ether_caller (Some [x44]) (Scripted.request None)) [xfe] [x44]).
    reflexivity.
  - reflexivity.
  - apply (proj1 (proj2 (account_ordering (Scripted.env 1)
                           (Scripted.client (Scripted.env 1) ITERATIVE)))
             (Scripted.ready None) 500 [xfe] [x44]);
      [reflexivity | lia].
  - apply (proj1 (proj2 (account_ordering (Scripted.env 1)
                           (Scripted.client (Scripted.env 1) ITERATIVE)))
             (set_solana_ether_caller (Some [x44]) (Scripted.request None)) 500 [xfe] [x44]);
      [reflexivity | lia].
  - apply (proj1 (proj2 (proj2 (account_ordering (Scripted.env 1)
                                  (Scripted.client (Scripted.env 1) SINGLE)))
                    (Scripted.request None) 500 [xfe])).
    reflexivity.
  - apply (proj1 (proj2 (proj2 (proj2 (account_ordering (Scripted.env 1)
                                         (Scripted.client (Scripted.env 1) ITERATIVE)))
                           (Scripted.ready None) (2 ^ 64) [xfe]))).
    lia.
  - apply (proj2 (proj2 (proj2 (proj2 (account_ordering (Scripted.env 1)
                                         (Scripted.client (Scripted.env 1) ITERATIVE)))
                           (Scripted.request None) 500 [xfe])));
      [lia | reflexivity].
Defined.

(** ** Running code in the state monad *)

Section Run.

Context {World : Type} (env : Collaborators World).

Implicit Types (st : state World) (tx : EthereumTransaction) (c : NeonEvmClient).

Lemma bind_Ok {A B} (m : M World A) (k : A -> M World B) st a st1 :
  m st = (Finished (Ok a), st1) -> bind m k st = k a st1.
Proof. unfold bind. now intros ->. Qed.

Lemma bind_Raise {A B} (m : M World A) (k : A -> M World B) st e st1 :
  m st = (Finished (Raise e), st1) -> bind m k st = (Finished (Raise e), st1).
Proof. unfold bind. now intros ->. Qed.

Lemma bind_OutOfFuel {A B} (m : M World A) (k : A -> M World B) st st1 :
  m st = (OutOfFuel, st1) -> bind m k st = (OutOfFuel, st1).
Proof. unfold bind. now intros ->. Qed.

(** Case analysis on the first computation of a [bind] in the goal. *)
Ltac bind_cases m st a e st1 E :=
  destruct (m st) as [[[a|e]|] st1] eqn:E;
  [ rewrite (bind_Ok _ _ _ _ _ E)
  | rewrite (bind_Raise _ _ _ _ _ E)
  | rewrite (bind_OutOfFuel _ _ _ _ E) ].

(** *** What a run may change *)

Lemma same_request_refl tx : same_request tx tx.
Proof. now destruct tx. Qed.

Lemma same_request_set tx v : same_request tx (set_solana_ether_caller v tx).
Proof. now destruct tx. Qed.

Lemma same_request_trans tx1 tx2 tx3 :
  same_request tx1 tx2 -> same_request tx2 tx3 -> same_request tx1 tx3.
Proof.
  unfold same_request. intros H12 H23. rewrite H23, H12. now destruct tx1.
Qed.

Lemma same_request_storage tx tx' : same_request tx tx' -> _storage tx' = _storage tx.
Proof. intros ->. reflexivity. Qed.

Lemma same_request_metas tx tx' :
  same_request tx tx' -> trx_account_metas tx' = trx_account_metas tx.
Proof. intros ->. reflexivity. Qed.

Lemma same_request_mangled tx tx' :
  same_request tx tx' -> _NeonEvmClient__storage tx' = _NeonEvmClient__storage tx.
Proof. intros ->. reflexivity. Qed.

Lemma extends_refl P st : extends P st st.
Proof. exists []. split; [now rewrite app_nil_r | constructor]. Qed.

Lemma extends_trans P st1 st2 st3 :
  extends P st1 st2 -> extends P st2 st3 -> extends P st1 st3.
Proof.
  intros (l1 & E1 & F1) (l2 & E2 & F2). exists (l1 ++ l2).
  split; [now rewrite E2, E1, app_assoc | now apply Forall_app].
Qed.

Lemma extends_same_sent P st st' : sent st' = sent st -> extends P st st'.
Proof. intros E. exists []. split; [now rewrite app_nil_r | constructor]. Qed.

Lemma extends_one P st st' trx a :
  sent st' = sent st ++ [(trx, a)] -> P trx -> extends P st st'.
Proof. intros E H. exists [(trx, a)]. split; [exact E | now repeat constructor]. Qed.

Lemma extends_weaken (P Q : Transaction -> Prop) st st' :
  (forall t, P t -> Q t) -> extends P st st' -> extends Q st st'.
Proof.
  intros H (l & E & F). exists l. split; [exact E|].
  eapply Forall_impl; [|exact F]. intros t. apply H.
Qed.

(** *** Collaborator calls *)

Lemma call_spec {A} (f : World -> result A * World) st :
  exists r w, f (world st) = (r, w)
           /\ call f st = (Finished r, MkState w (etx st) (sent st)).
Proof.
  unfold call. destruct (f (world st)) as [r w]. now exists r, w.
Qed.

Lemma call_frame {A} (f : World -> result A * World) st o st' :
  call f st = (o, st') -> etx st' = etx st /\ sent st' = sent st.
Proof.
  destruct (call_spec f st) as (r & w & _ & E). rewrite E.
  intros [= <- <-]. now split.
Qed.

Lemma send_transaction_spec trx a st :
  exists r w, rpc_send_transaction env (world st) trx a = (r, w)
           /\ send_transaction env trx a st
              = (Finished r, MkState w (etx st) (sent st ++ [(trx, a)])).
Proof.
  unfold send_transaction.
  destruct (rpc_send_transaction env (world st) trx a) as [r w]. now exists r, w.
Qed.

Lemma send_transaction_frame trx a st o st' :
  send_transaction env trx a st = (o, st') ->
  etx st' = etx st /\ sent st' = sent st ++ [(trx, a)].
Proof.
  destruct (send_transaction_spec trx a st) as (r & w & _ & E). rewrite E.
  intros [= <- <-]. now split.
Qed.

Lemma getBalance_frame key st o st' :
  getBalance env key st = (o, st') -> etx st' = etx st /\ sent st' = sent st.
Proof. apply call_frame. Qed.

Lemma getAccountData_frame key n st o st' :
  getAccountData env key n st = (o, st') -> etx st' = etx st /\ sent st' = sent st.
Proof.
  unfold getAccountData.
  bind_cases (call (fun w => rpc_get_account_info env w key)) st info e st1 E;
    try (intros [= <- <-]; now apply call_frame in E).
  apply call_frame in E. destruct E as [E1 E2].
  destruct info as [d|]; [destruct (_ <? _)%nat|];
    intros [= <- <-]; now split.
Qed.

Lemma getTransactionCount_frame key st o st' :
  getTransactionCount env key st = (o, st') -> etx st' = etx st /\ sent st' = sent st.
Proof.
  unfold getTransactionCount.
  bind_cases (getAccountData env key (sizeof ACCOUNT_INFO_LAYOUT)) st info e st1 E;
    try (intros [= <- <-]; now apply getAccountData_frame in E).
  apply getAccountData_frame in E.
  unfold bind, lift, ret. destruct (AccountInfo_frombytes info);
    intros [= <- <-]; exact E.
Qed.

(** *** Resolving the caller account *)

Lemma bind_get_etx {B} (k : EthereumTransaction -> M World B) st :
  bind get_etx k st = k (etx st) st.
Proof. reflexivity. Qed.

Lemma bind_put_etx {B} tx (k : unit -> M World B) st :
  bind (put_etx tx) k st = k tt (MkState (world st) tx (sent st)).
Proof. reflexivity. Qed.

Lemma bind_ret {A B} (a : A) (k : A -> M World B) st : bind (ret a) k st = k a st.
Proof. reflexivity. Qed.

Lemma bind_lift {A B} (r : result A) (k : A -> M World B) st :
  bind (lift r) k st
  = match r with
    | Ok a => k a st
    | Raise e => (Finished (Raise e), st)
    end.
Proof. unfold bind, lift. now destruct r. Qed.

Lemma ether2program_frame loader ether st o st' :
  ether2program env loader ether st = (o, st') ->
  etx st' = etx st /\ sent st' = sent st.
Proof. apply call_frame. Qed.

Lemma createEtherAccount_frame loader ether st o st' :
  createEtherAccount env loader ether st = (o, st') ->
  etx st' = etx st /\ extends creates_caller_account st st'.
Proof.
  unfold createEtherAccount.
  bind_cases (ether2program env loader (EtherStr (ether_hex ether))) st p e st1 E;
    apply ether2program_frame in E; destruct E as [E1 E2];
    try (intros [= <- <-]; split; [exact E1 | now apply extends_same_sent]).
  destruct p as [sol nonce]. rewrite bind_lift.
  destruct (fromhex (ether_hex ether)) as [eb|e];
    try (intros [= <- <-]; split; [exact E1 | now apply extends_same_sent]).
  rewrite bind_lift.
  destruct (build CREATE_ACCOUNT_LAYOUT _) as [layout|e];
    try (intros [= <- <-]; split; [exact E1 | now apply extends_same_sent]).
  match goal with
  | |- context [send_transaction env ?t ?a] =>
      bind_cases (send_transaction env t a) st1 r e st2 E;
        apply send_transaction_frame in E; destruct E as [E3 E4];
        intros [= <- <-];
        (split;
         [ congruence
         | apply (extends_one _ _ _ t a);
           [ congruence | eexists; split; reflexivity ] ])
  end.
Qed.

Lemma create_solana_ether_caller_frame c st o st' :
  create_solana_ether_caller env c st = (o, st') ->
  same_request (etx st) (etx st')
  /\ extends creates_caller_account st st'
  /\ (o = Finished (Ok tt) -> exists k, _solana_ether_caller (etx st') = Some k).
Proof.
  unfold create_solana_ether_caller. rewrite bind_get_etx.
  bind_cases (ether2program env (evm_loader c) (ether_caller (etx st))) st p e st1 E;
    apply ether2program_frame in E; destruct E as [E1 E2];
    try (intros [= <- <-]; rewrite E1;
         split; [apply same_request_refl|];
         split; [now apply extends_same_sent | discriminate]).
  destruct p as [caller nonce].
  set (cond := match _solana_ether_caller (etx st) with
               | None => true
               | Some current => negb (key_eqb current caller)
               end).
  set (st2 := if cond
              then MkState (world st1) (set_solana_ether_caller (Some caller) (etx st)) (sent st1)
              else st1).
  assert (H2 : same_request (etx st) (etx st2) /\ sent st2 = sent st).
  { subst st2. destruct cond; cbn; split; try congruence.
    - apply same_request_set.
    - rewrite E1. apply same_request_refl. }
  destruct H2 as [S2 T2].
  assert (Hstep : forall B (k : unit -> M World B),
             bind (if cond
                   then put_etx (set_solana_ether_caller (Some caller) (etx st))
                   else ret tt) k st1 = k tt st2).
  { intros B k. subst st2. now destruct cond. }
  rewrite Hstep. clearbody st2. clear Hstep. rewrite bind_get_etx, bind_lift.
  destruct (_solana_ether_caller (etx st2)) as [current|] eqn:Hcur; cbn [require_key];
    [| intros [= <- <-]; split; [exact S2|];
       split; [now apply extends_same_sent | discriminate] ].
  bind_cases (getBalance env current) st2 balance e st3 E;
    apply getBalance_frame in E; destruct E as [E3 E4];
    try (intros [= <- <-]; rewrite E3;
         split; [exact S2|]; split; [apply extends_same_sent; congruence | discriminate]).
  destruct (balance =? 0).
  - bind_cases (createEtherAccount env (evm_loader c) (ether_caller (etx st2)))
      st3 created e st4 E;
      apply createEtherAccount_frame in E; destruct E as [E5 E6];
      assert (E6' : extends creates_caller_account st st4)
        by (destruct E6 as (l & E6 & F6); exists l; split; [congruence | exact F6]);
      try (intros [= <- <-]; rewrite E5, E3;
           split; [exact S2|]; split; [exact E6' | discriminate]).
    rewrite bind_get_etx, bind_put_etx.
    intros H. match type of H with call ?f ?s = _ => pose proof (call_frame f s _ _ H) as [E7 E8] end.
    cbn in E7, E8. rewrite E7.
    split.
    + eapply same_request_trans; [exact S2|]. rewrite E5, E3. apply same_request_set.
    + split.
      * destruct E6' as (l & E6' & F6). exists l. split; [congruence | exact F6].
      * intros _. now exists created.
  - intros [= <- <-]. rewrite E3. split; [exact S2|].
    split; [apply extends_same_sent; congruence|].
    intros _. now exists current.
Qed.

Lemma create_instruction_data_from_tx_frame c st o st' :
  create_instruction_data_from_tx env c st = (o, st') ->
  same_request (etx st) (etx st') /\ extends creates_caller_account st st'.
Proof.
  unfold create_instruction_data_from_tx.
  bind_cases (create_solana_ether_caller env c) st u e st1 E;
    apply create_solana_ether_caller_frame in E; destruct E as (S1 & T1 & _);
    try (intros [= <- <-]; now split).
  rewrite bind_get_etx, bind_lift.
  destruct (require_key (_solana_ether_caller (etx st1))) as [caller|e];
    try (intros [= <- <-]; now split).
  bind_cases (getTransactionCount env caller) st1 n e st2 E;
    apply getTransactionCount_frame in E; destruct E as [E1 E2];
    assert (T2 : extends creates_caller_account st st2)
      by (destruct T1 as (l & T1 & F1); exists l; split; [congruence | exact F1]);
    unfold lift; intros [= <- <-]; rewrite E1; now split.
Qed.

(** *** The storage account *)

Lemma create_storage_account_spec c seed st :
  exists b w,
    rpc_get_balance env (world st) (storage_address env c seed) = (b, w)
    /\ match b with
       | Ok balance =>
           if balance =? 0 then
             exists r w',
               rpc_send_transaction env w (storage_creation env c seed) (solana_wallet c)
               = (r, w')
               /\ create_storage_account env c seed st
                  = (Finished (rbind r (fun _ => Ok (storage_address env c seed))),
                     MkState w' (etx st)
                       (sent st ++ [(storage_creation env c seed, solana_wallet c)]))
           else
             create_storage_account env c seed st
             = (Finished (Ok (storage_address env c seed)), MkState w (etx st) (sent st))
       | Raise e =>
           create_storage_account env c seed st
           = (Finished (Raise e), MkState w (etx st) (sent st))
       end.
Proof.
  unfold create_storage_account, getBalance, storage_address.
  change (PublicKey_of_bytes ?x) with x. change (bytes_of_key ?x) with x.
  change (utf8 seed) with (list_byte_of_string seed).
  change (PublicKey_of_str env ?x) with (b58decode env x).
  set (storage := sha256 env _).
  destruct (call_spec (fun w => rpc_get_balance env w storage) st) as (b & w & Eb & Ec).
  exists b, w. split; [exact Eb|].
  destruct b as [balance|e].
  - rewrite (bind_Ok _ _ _ _ _ Ec). destruct (balance =? 0); [|reflexivity].
    match goal with
    | |- context [send_transaction env ?t ?a] =>
        destruct (send_transaction_spec t a (MkState w (etx st) (sent st)))
          as (r & w' & Er & Es)
    end.
    exists r, w'. split; [exact Er|].
    destruct r as [resp|e].
    + now rewrite (bind_Ok _ _ _ _ _ Es).
    + now rewrite (bind_Raise _ _ _ _ _ Es).
  - now rewrite (bind_Raise _ _ _ _ _ Ec).
Qed.

Lemma storage_creation_creates c seed : creates_storage_account env (storage_creation env c seed).
Proof. unfold creates_storage_account, storage_creation. now repeat eexists. Qed.

Lemma create_storage_account_frame c seed st o st' :
  create_storage_account env c seed st = (o, st') ->
  etx st' = etx st
  /\ extends (creates_storage_account env) st st'
  /\ (forall k, o = Finished (Ok k) -> k = storage_address env c seed).
Proof.
  destruct (create_storage_account_spec c seed st) as (b & w & _ & H).
  destruct b as [balance|e].
  - destruct (balance =? 0).
    + destruct H as (r & w' & _ & ->). intros [= <- <-]. cbn.
      split; [reflexivity|]. split.
      * eapply extends_one; [reflexivity | apply storage_creation_creates].
      * destruct r; cbn; congruence.
    + rewrite H. intros [= <- <-]. cbn. split; [reflexivity|].
      split; [now apply extends_same_sent | congruence].
  - rewrite H. intros [= <- <-]. cbn. split; [reflexivity|].
    split; [now apply extends_same_sent | congruence].
Qed.

(** *** Submitting a batch *)

Lemma extend_last_keys_snoc (before : list TransactionInstruction) i extra :
  extend_last_keys (before ++ [i]) extra
  = Ok (before ++ [MkTransactionInstruction (keys i ++ extra) (program_id i) (data i)]).
Proof.
  induction before as [|a b IH]; [reflexivity|].
  cbn [app extend_last_keys]. rewrite IH.
  destruct b; reflexivity.
Qed.

Lemma send_neon_transaction_spec c before i st :
  let batch := MkTransaction (before ++ [with_extra (trx_account_metas (etx st)) i]) in
  exists r w,
    rpc_send_transaction env (world st) batch (solana_wallet c) = (r, w)
    /\ send_neon_transaction env c (MkTransaction (before ++ [i])) st
       = (Finished r, MkState w (etx st) (sent st ++ [(batch, solana_wallet c)])).
Proof.
  intros batch. unfold send_neon_transaction. rewrite bind_get_etx.
  assert (H : forall B (k : Transaction -> M World B),
             bind match trx_account_metas (etx st) with
                  | Some metas =>
                      lift (rbind (extend_last_keys (instructions (MkTransaction (before ++ [i])))
                                     metas)
                              (fun l => Ok (MkTransaction l)))
                  | None => ret (MkTransaction (before ++ [i]))
                  end k st = k batch st).
  { intros B k. subst batch. destruct (trx_account_metas (etx st)) as [metas|]; cbn [with_extra].
    - cbn [instructions]. rewrite extend_last_keys_snoc. reflexivity.
    - reflexivity. }
  rewrite H. apply send_transaction_spec.
Qed.

(** *** One turn of the loop *)

Lemma byte_to_Z_6 (b : byte) : (byte_to_Z b =? 6) = true <-> b = x06.
Proof.
  rewrite Z.eqb_eq. split.
  - intros H. rewrite <- (byte_of_Z_to_Z b), H. reflexivity.
  - intros ->. reflexivity.
Qed.

Lemma last_cons_default {A} (l : list A) (a d : A) : last (a :: l) d = last l a.
Proof.
  revert a d. induction l as [|b l IH]; intros a d; [reflexivity|].
  change (last (a :: b :: l) d) with (last (b :: l) d).
  now rewrite (IH b d), (IH b a).
Qed.

Lemma last_rev_head {A} (l : list A) (a d : A) : hd d (rev (a :: l)) = last l a.
Proof.
  destruct (rev (a :: l)) as [|i l2] eqn:E.
  { apply (f_equal (@List.length _)) in E. rewrite length_rev in E. discriminate. }
  apply (f_equal (@rev _)) in E. rewrite rev_involutive in E. cbn [rev] in E.
  rewrite <- (last_cons_default l a d), E. cbn [hd]. symmetry. apply last_last.
Qed.

(** The test the loop makes agrees with the marker of the specification. *)
Lemma finalized_spec (response : RPCResponse) :
  match last_inner_data env response with
  | None => finalized env response = Ok false
  | Some [] => finalized env response = Raise IndexError
  | Some (b :: _) =>
      (b = x06 -> finalized env response = Ok true)
      /\ (b <> x06 -> finalized env response = Ok false)
  end.
Proof.
  unfold last_inner_data, finalized.
  destruct (innerInstructions response) as [[|group groups]|]; try reflexivity.
  destruct (inner_instructions group) as [|first others]; [reflexivity|].
  rewrite <- (last_rev_head others first first).
  destruct (rev (first :: others)) as [|i l] eqn:E.
  { apply (f_equal (@List.length _)) in E. rewrite length_rev in E. discriminate. }
  cbn [hd]. destruct (b58decode env (inner_data i)) as [|b rest]; [reflexivity|].
  split.
  - intros ->. reflexivity.
  - intros Hb. destruct (byte_to_Z b =? 6) eqn:E6; [|reflexivity].
    apply byte_to_Z_6 in E6. contradiction.
Qed.

Lemma finalized_marker response :
  has_marker (last_inner_data env response) <-> finalized env response = Ok true.
Proof.
  pose proof (finalized_spec response) as H. unfold has_marker.
  destruct (last_inner_data env response) as [[|b rest]|].
  - rewrite H. split; [intros (r & [=]) | discriminate].
  - destruct H as [H6 Hn]. split.
    + intros (r & [= -> _]). now apply H6.
    + intros Ht. destruct (Byte.byte_eq_dec b x06) as [->|Hb]; [now exists rest|].
      rewrite (Hn Hb) in Ht. discriminate.
  - rewrite H. split; [intros (r & [=]) | discriminate].
Qed.

Lemma finalized_lacks response :
  lacks_marker (last_inner_data env response) <-> finalized env response = Ok false.
Proof.
  pose proof (finalized_spec response) as H. unfold lacks_marker.
  destruct (last_inner_data env response) as [[|b rest]|].
  - rewrite H. split; [|discriminate].
    intros [[=] | (b & r & [=] & _)].
  - destruct H as [H6 Hn]. split.
    + intros [[=] | (b' & r & [= <- _] & Hb)]. now apply Hn.
    + intros Hf. right. exists b, rest. split; [reflexivity|].
      intros ->. rewrite (H6 eq_refl) in Hf. discriminate.
  - rewrite H. split; [intros _; reflexivity | intros _; now left].
Qed.

Lemma continue_step_spec c i st :
  sol_instr_10_continue env c (etx st) (iterative_steps (etx st)) = Ok i ->
  let batch := MkTransaction [with_extra (trx_account_metas (etx st)) i] in
  let logged := sent st ++ [(batch, solana_wallet c)] in
  exists r w,
    rpc_send_transaction env (world st) batch (solana_wallet c) = (r, w)
    /\ continue_step env c st
       = match r with
         | Ok response =>
             match finalized env response with
             | Ok true =>
                 (Finished (Ok (Some response)),
                  MkState w (set_NeonEvmClient__storage None (etx st)) logged)
             | Ok false => (Finished (Ok None), MkState w (etx st) logged)
             | Raise e => (Finished (Raise e), MkState w (etx st) logged)
             end
         | Raise e => (Finished (Raise e), MkState w (etx st) logged)
         end.
Proof.
  intros Hi batch logged. unfold continue_step.
  rewrite bind_get_etx, bind_lift, Hi.
  destruct (send_neon_transaction_spec c [] i st) as (r & w & Er & Es).
  exists r, w. split; [exact Er|].
  change (add Transaction_new i) with (MkTransaction ([] ++ [i])).
  destruct r as [response|e].
  - rewrite (bind_Ok _ _ _ _ _ Es), bind_lift.
    destruct (finalized env response) as [[|]|e]; reflexivity.
  - now rewrite (bind_Raise _ _ _ _ _ Es).
Qed.

(** *** Before the loop *)

Lemma bind_assoc {A B C} (m : M World A) (f : A -> M World B) (g : B -> M World C) st :
  bind (bind m f) g st = bind m (fun x => bind (f x) g) st.
Proof.
  unfold bind. destruct (m st) as [[[a|e]|] st1]; reflexivity.
Qed.

Lemma iterative_prepare_frame c st o st' :
  iterative_prepare env c st = (o, st') ->
  trx_account_metas (etx st') = trx_account_metas (etx st)
  /\ (forall s, _storage (etx st) = Some s -> _storage (etx st') = Some s)
  /\ (forall x, o = Finished (Ok x) -> exists s, _storage (etx st') = Some s)
  /\ extends (fun t => creates_caller_account t \/ creates_storage_account env t) st st'.
Proof.
  unfold iterative_prepare.
  bind_cases (create_instruction_data_from_tx env c) st x e st1 E;
    apply create_instruction_data_from_tx_frame in E; destruct E as [S1 T1];
    pose proof (same_request_metas _ _ S1) as M1;
    pose proof (same_request_storage _ _ S1) as G1;
    apply (extends_weaken _ (fun t => creates_caller_account t
                                       \/ creates_storage_account env t)) in T1;
    try (intros t Ht; now left);
    try (intros [= <- <-]; split; [exact M1|]; split; [congruence|];
         split; [discriminate | exact T1]).
  destruct x as [[from_address sign] msg]. rewrite bind_get_etx.
  destruct (_storage (etx st1)) as [s1|] eqn:Hs1.
  - rewrite bind_ret. intros [= <- <-].
    split; [exact M1|]. split; [congruence|]. split; [|exact T1].
    intros _ _. now exists s1.
  - rewrite bind_assoc.
    bind_cases (create_storage_account env c (hex (firstn 8 sign))) st1 storage e st2 E;
      apply create_storage_account_frame in E; destruct E as (E1 & T2 & _);
      apply (extends_weaken _ (fun t => creates_caller_account t
                                         \/ creates_storage_account env t)) in T2;
      try (intros t Ht; now right);
      pose proof (extends_trans _ _ _ _ T1 T2) as T12.
    + rewrite bind_assoc, bind_get_etx, bind_put_etx. intros [= <- <-]. cbn [etx].
      split; [rewrite E1; exact M1|]. split; [congruence|].
      split; [intros _ _; now eexists|].
      destruct T12 as (l & El & Fl). exists l. now split.
    + intros [= <- <-]. split; [congruence|]. split; [congruence|].
      split; [discriminate | exact T12].
    + intros [= <- <-]. split; [congruence|]. split; [congruence|].
      split; [discriminate | exact T12].
Qed.

(** The two iterative instructions can be built under the same conditions,
    and both put first what the transaction holds as its storage account. *)
Lemma sol_instr_09_inv c tx steps d i9 :
  sol_instr_09_partial_call env c tx steps d = Ok i9 ->
  exists i10,
    sol_instr_10_continue env c tx steps = Ok i10
    /\ hd_error (keys i9) = Some (AccountMeta_with (_storage tx) false true)
    /\ hd_error (data i9) = Some x09
    /\ hd_error (keys i10) = Some (AccountMeta_with (_storage tx) false true)
    /\ hd_error (data i10) = Some x0a.
Proof.
  unfold sol_instr_09_partial_call, sol_instr_10_continue.
  destruct (to_bytes steps 8) as [count|e]; [|discriminate].
  destruct (_solana_ether_caller tx) as [caller|]; [|discriminate].
  cbn [rbind require_key]. intros [= <-]. eexists.
  repeat split; reflexivity.
Qed.

Lemma sol_instr_10_inv c tx steps i10 :
  sol_instr_10_continue env c tx steps = Ok i10 ->
  hd_error (keys i10) = Some (AccountMeta_with (_storage tx) false true)
  /\ hd_error (data i10) = Some x0a.
Proof.
  unfold sol_instr_10_continue.
  destruct (to_bytes steps 8) as [count|e]; [|discriminate].
  destruct (_solana_ether_caller tx) as [caller|]; [|discriminate].
  cbn [rbind require_key]. intros [= <-]. repeat split; reflexivity.
Qed.

Lemma with_extra_heads metas i k :
  hd_error (keys i) = Some k ->
  hd_error (keys (with_extra metas i)) = Some k
  /\ data (with_extra metas i) = data i.
Proof.
  destruct metas as [extra|]; cbn; [|now split].
  destruct (keys i); [discriminate|]. now split.
Qed.

Lemma iterative_first_batch_spec c prepared st :
  match sol_instr_09_partial_call env c (etx st) (iterative_steps (etx st))
          (payload prepared) with
  | Ok i9 =>
      exists r w,
        rpc_send_transaction env (world st) (first_batch env (etx st) prepared i9)
          (solana_wallet c) = (r, w)
        /\ iterative_first_batch env c prepared st
           = (Finished r,
              MkState w (etx st)
                (sent st ++ [(first_batch env (etx st) prepared i9, solana_wallet c)]))
  | Raise e => iterative_first_batch env c prepared st = (Finished (Raise e), st)
  end.
Proof.
  destruct prepared as [[from_address sign] msg].
  unfold iterative_first_batch, payload, first_batch. cbn [fst snd].
  rewrite bind_get_etx, bind_lift.
  destruct (sol_instr_09_partial_call env c (etx st) _ _) as [i9|e]; [|reflexivity].
  match goal with
  | |- context [sol_instr_keccak env ?d] =>
      apply (send_neon_transaction_spec c [sol_instr_keccak env d] i9 st)
  end.
Qed.

Lemma continue_loop_unbuildable c e fuel st :
  sol_instr_10_continue env c (etx st) (iterative_steps (etx st)) = Raise e ->
  exists o, continue_loop env c fuel st = (o, st) /\ forall r, o <> Finished (Ok r).
Proof.
  intros H. destruct fuel as [|fuel].
  - exists OutOfFuel. split; [reflexivity | discriminate].
  - exists (Finished (Raise e)). split; [|discriminate].
    cbn [continue_loop]. unfold continue_step.
    rewrite bind_assoc, bind_get_etx, bind_assoc, bind_lift, H. reflexivity.
Qed.

(** *** The loop *)

(** While the loop runs the transaction object does not change, so every
    turn submits the same batch; the trace grows by one copy per turn. *)
Lemma continue_loop_trace c i fuel :
  forall st,
    sol_instr_10_continue env c (etx st) (iterative_steps (etx st)) = Ok i ->
    forall o st',
      continue_loop env c fuel st = (o, st') ->
      exists n,
        sent st' = sent st
                   ++ repeat (MkTransaction [with_extra (trx_account_metas (etx st)) i],
                              solana_wallet c) n
        /\ (n <= fuel)%nat
        /\ match o with
           | OutOfFuel => n = fuel /\ etx st' = etx st
           | Finished (Ok response) =>
               (1 <= n)%nat
               /\ etx st' = set_NeonEvmClient__storage None (etx st)
               /\ finalized env response = Ok true
           | Finished (Raise e) => (1 <= n)%nat /\ etx st' = etx st
           end.
Proof.
  induction fuel as [|fuel IH]; intros st Hi o st' Hrun.
  - cbn in Hrun. injection Hrun as <- <-. exists 0%nat. cbn.
    rewrite app_nil_r. repeat split; lia.
  - cbn [continue_loop] in Hrun.
    destruct (continue_step_spec c i st Hi) as (r & w & _ & Es).
    destruct r as [response|e].
    + destruct (finalized env response) as [[|]|e] eqn:F.
      * rewrite (bind_Ok _ _ _ _ _ Es) in Hrun. injection Hrun as <- <-.
        exists 1%nat. cbn. repeat split; try lia. exact F.
      * rewrite (bind_Ok _ _ _ _ _ Es) in Hrun.
        apply IH in Hrun; [|exact Hi].
        destruct Hrun as (n & Hs & Hn & Ho). cbn [sent etx] in Hs, Ho.
        exists (S n). cbn [repeat]. rewrite Hs, <- app_assoc.
        split; [reflexivity|]. split; [lia|].
        destruct o as [[response'|e]|]; intuition lia.
      * rewrite (bind_Raise _ _ _ _ _ Es) in Hrun. injection Hrun as <- <-.
        exists 1%nat. cbn. repeat split; lia.
    + rewrite (bind_Raise _ _ _ _ _ Es) in Hrun. injection Hrun as <- <-.
      exists 1%nat. cbn. repeat split; lia.
Qed.

(** As long as the gateway confirms without the marker the loop goes on:
    after one turn per response it is still running. *)
Lemma continue_loop_replies c i rs :
  forall st w',
    sol_instr_10_continue env c (etx st) (iterative_steps (etx st)) = Ok i ->
    replies env (continue_batch (etx st) i) (solana_wallet c) (world st) rs w' ->
    Forall (fun r => lacks_marker (last_inner_data env r)) rs ->
    continue_loop env c (List.length rs) st
    = (OutOfFuel,
       MkState w' (etx st)
         (sent st ++ repeat (continue_batch (etx st) i, solana_wallet c) (List.length rs))).
Proof.
  induction rs as [|a rs IH]; intros st w' Hi Hr Hl.
  - inversion Hr; subst. cbn. rewrite app_nil_r. now destruct st.
  - inversion Hr as [|w0 r0 w1 rs0 w2 Hs Hrest]; subst.
    inversion Hl as [|x l Hla Hlrs]; subst.
    destruct (continue_step_spec c i st Hi) as (g & w & Eg & Es).
    unfold continue_batch in Hs. rewrite Hs in Eg. injection Eg as <- <-.
    apply finalized_lacks in Hla. rewrite Hla in Es.
    cbn [List.length continue_loop]. rewrite (bind_Ok _ _ _ _ _ Es).
    rewrite (IH _ w'); try assumption.
    cbn [etx sent repeat]. now rewrite <- app_assoc.
Qed.

(** An exception of the gateway leaves the loop at once, whatever came
    before. *)
Lemma continue_loop_gateway_error c i rs :
  forall st w1 e w2 fuel,
    sol_instr_10_continue env c (etx st) (iterative_steps (etx st)) = Ok i ->
    replies env (continue_batch (etx st) i) (solana_wallet c) (world st) rs w1 ->
    Forall (fun r => lacks_marker (last_inner_data env r)) rs ->
    rpc_send_transaction env w1 (continue_batch (etx st) i) (solana_wallet c)
    = (Raise e, w2) ->
    (List.length rs < fuel)%nat ->
    continue_loop env c fuel st
    = (Finished (Raise e),
       MkState w2 (etx st)
         (sent st ++ repeat (continue_batch (etx st) i, solana_wallet c)
                       (S (List.length rs)))).
Proof.
  induction rs as [|a rs IH]; intros st w1 e w2 fuel Hi Hr Hl He Hf.
  - inversion Hr; subst.
    destruct fuel as [|fuel]; [cbn in Hf; lia|].
    destruct (continue_step_spec c i st Hi) as (g & w & Eg & Es).
    unfold continue_batch in He. rewrite He in Eg. injection Eg as <- <-.
    cbn [continue_loop]. now rewrite (bind_Raise _ _ _ _ _ Es).
  - inversion Hr as [|w0 r0 w3 rs0 w4 Hs Hrest]; subst.
    inversion Hl as [|x l Hla Hlrs]; subst.
    destruct fuel as [|fuel]; [cbn in Hf; lia|].
    destruct (continue_step_spec c i st Hi) as (g & w & Eg & Es).
    unfold continue_batch in Hs. rewrite Hs in Eg. injection Eg as <- <-.
    apply finalized_lacks in Hla. rewrite Hla in Es.
    cbn [continue_loop]. rewrite (bind_Ok _ _ _ _ _ Es).
    rewrite (IH _ w1 e w2 fuel); try assumption; [| cbn [List.length] in Hf; lia].
    cbn [etx sent List.length repeat]. now rewrite <- app_assoc.
Qed.

(** Everything an iterative run submits once the storage account is set. *)
Lemma batches_after_prepare c fuel prepared st1 o st' :
  bind (iterative_first_batch env c prepared) (fun _ => continue_loop env c fuel) st1
  = (o, st') ->
  exists batches,
    sent st' = sent st1 ++ batches
    /\ (forall r, o = Finished (Ok r) ->
          etx st' = set_NeonEvmClient__storage None (etx st1)
          /\ finalized env r = Ok true)
    /\ ((forall r, o <> Finished (Ok r)) -> etx st' = etx st1)
    /\ (batches = []
        \/ exists i9 i10 n,
             sol_instr_09_partial_call env c (etx st1) (iterative_steps (etx st1))
               (payload prepared) = Ok i9
             /\ sol_instr_10_continue env c (etx st1) (iterative_steps (etx st1)) = Ok i10
             /\ batches = (first_batch env (etx st1) prepared i9, solana_wallet c)
                          :: repeat (continue_batch (etx st1) i10, solana_wallet c) n
             /\ (n <= fuel)%nat
             /\ (o = OutOfFuel -> n = fuel)).
Proof.
  pose proof (iterative_first_batch_spec c prepared st1) as Hfb.
  destruct (sol_instr_09_partial_call env c (etx st1) (iterative_steps (etx st1))
              (payload prepared)) as [i9|e] eqn:E9.
  - destruct Hfb as (r & w & _ & Hfb).
    destruct (sol_instr_09_inv _ _ _ _ _ E9) as (i10 & E10 & _).
    destruct r as [response|e].
    + rewrite (bind_Ok _ _ _ _ _ Hfb). intros Hloop.
      apply (continue_loop_trace c i10) in Hloop; [|exact E10].
      destruct Hloop as (n & Hs & Hn & Ho). cbn [sent etx] in Hs, Ho.
      exists ((first_batch env (etx st1) prepared i9, solana_wallet c)
              :: repeat (continue_batch (etx st1) i10, solana_wallet c) n).
      split; [rewrite Hs, <- app_assoc; reflexivity|].
      split; [intros r ->; tauto|].
      split.
      * intros Hno. destruct o as [[r|e]|]; [now destruct (Hno r) | tauto | tauto].
      * right. exists i9, i10, n. repeat split; try assumption.
        intros ->. tauto.
    + rewrite (bind_Raise _ _ _ _ _ Hfb). intros [= <- <-]. cbn [sent etx].
      exists [(first_batch env (etx st1) prepared i9, solana_wallet c)].
      split; [reflexivity|]. split; [discriminate|]. split; [reflexivity|].
      right. exists i9, i10, 0%nat. repeat split; try assumption; try lia. discriminate.
  - rewrite (bind_Raise _ _ _ _ _ Hfb). intros [= <- <-].
    exists []. rewrite app_nil_r. split; [reflexivity|]. split; [discriminate|].
    split; [reflexivity | now left].
Qed.

Lemma send_ethereum_trx_single_spec c st prepared st1 i5 :
  create_instruction_data_from_tx env c st = (Finished (Ok prepared), st1) ->
  sol_instr_05 env c (etx st1) (payload prepared) = Ok i5 ->
  exists r w,
    rpc_send_transaction env (world st1) (single_batch env (etx st1) prepared i5)
      (solana_wallet c) = (r, w)
    /\ send_ethereum_trx_single env c st
       = (Finished r,
          MkState w (etx st1)
            (sent st1 ++ [(single_batch env (etx st1) prepared i5, solana_wallet c)])).
Proof.
  intros Hp H5. unfold send_ethereum_trx_single. rewrite (bind_Ok _ _ _ _ _ Hp).
  destruct prepared as [[from_address sign] msg].
  unfold payload in H5. cbn [fst snd] in H5.
  rewrite bind_get_etx, bind_lift, H5.
  unfold single_batch. cbn [fst snd].
  match goal with
  | |- context [sol_instr_keccak env ?d] =>
      apply (send_neon_transaction_spec c [sol_instr_keccak env d] i5 st1)
  end.
Qed.


(** C1.  After a continue batch is submitted and its result has come back,
    the loop returns that result exactly when the first byte of the decoded
    data of the last inner instruction is 6; when there are no inner
    instructions or that byte differs, the turn ends without a return, the
    loop goes on from the state the submission left, and the next thing it
    does is to submit the continue batch again. *)
Theorem completion_detection c i st response w :
  sol_instr_10_continue env c (etx st) (iterative_steps (etx st)) = Ok i ->
  let batch := MkTransaction [with_extra (trx_account_metas (etx st)) i] in
  let logged := sent st ++ [(batch, solana_wallet c)] in
  let d := last_inner_data env response in
  rpc_send_transaction env (world st) batch (solana_wallet c) = (Ok response, w) ->
  ((exists st', continue_step env c st = (Finished (Ok (Some response)), st'))
   <-> has_marker d)
  /\ (has_marker d ->
      forall fuel,
        continue_loop env c (S fuel) st
        = (Finished (Ok response),
           MkState w (set_NeonEvmClient__storage None (etx st)) logged))
  /\ (lacks_marker d ->
      continue_step env c st = (Finished (Ok None), MkState w (etx st) logged)
      /\ forall fuel,
           continue_loop env c (S fuel) st
           = continue_loop env c fuel (MkState w (etx st) logged)
           /\ exists o st' more,
                continue_loop env c (S fuel) (MkState w (etx st) logged) = (o, st')
                /\ sent st' = logged ++ (batch, solana_wallet c) :: more).
Proof.
  intros Hi batch logged d Hsend.
  destruct (continue_step_spec c i st Hi) as (r & w' & Er & Es).
  fold batch in Er. rewrite Hsend in Er. injection Er as <- <-.
  fold batch logged in Es. cbn beta iota in Es.
  split; [|split].
  - split.
    + intros (st' & E). rewrite Es in E. apply finalized_marker.
      destruct (finalized env response) as [[|]|e]; congruence.
    + intros Hm. apply finalized_marker in Hm. rewrite Hm in Es. eexists. exact Es.
  - intros Hm fuel. apply finalized_marker in Hm. rewrite Hm in Es.
    cbn [continue_loop]. now rewrite (bind_Ok _ _ _ _ _ Es).
  - intros Hl. apply finalized_lacks in Hl. rewrite Hl in Es.
    split; [exact Es|]. intros fuel. split.
    + cbn [continue_loop]. now rewrite (bind_Ok _ _ _ _ _ Es).
    + destruct (continue_loop env c (S fuel) (MkState w (etx st) logged)) as [o st'] eqn:E.
      destruct (continue_loop_trace c i (S fuel) (MkState w (etx st) logged) Hi o st' E)
        as (n & Hs & _ & Ho).
      cbn [sent etx] in Hs. fold batch in Hs.
      assert (Hn : (1 <= n)%nat) by (destruct o as [[?|?]|]; intuition lia).
      destruct n as [|n]; [lia|].
      exists o, st', (repeat (batch, solana_wallet c) n). split; [reflexivity | exact Hs].
Qed.

(** *** Whole runs *)

Lemma send_ethereum_trx_iterative_unfold c fuel st prepared st1 :
  iterative_prepare env c st = (Finished (Ok prepared), st1) ->
  send_ethereum_trx_iterative env c fuel st
  = bind (iterative_first_batch env c prepared) (fun _ => continue_loop env c fuel) st1.
Proof.
  intros H. unfold send_ethereum_trx_iterative. now rewrite (bind_Ok _ _ _ _ _ H).
Qed.

(** A run that returns leaves the storage account on the transaction: the
    loop's [__storage = None] lands in the mangled attribute. *)
Lemma iterative_return_keeps_storage c fuel st r st' :
  send_ethereum_trx_iterative env c fuel st = (Finished (Ok r), st') ->
  (exists s, _storage (etx st') = Some s)
  /\ _NeonEvmClient__storage (etx st') = Some None.
Proof.
  unfold send_ethereum_trx_iterative.
  bind_cases (iterative_prepare env c) st prepared e st1 E; try discriminate.
  apply iterative_prepare_frame in E. destruct E as (_ & _ & Hs & _).
  destruct (Hs prepared eq_refl) as (s & Hs1).
  intros Hrun. apply batches_after_prepare in Hrun.
  destruct Hrun as (batches & _ & Hok & _).
  destruct (Hok r eq_refl) as [-> _]. cbn. split; [now exists s | reflexivity].
Qed.

(** C4.  In an iterative run whose transaction has no storage account yet,
    once the signed payload is made, the storage address is
    sha256(wallet key || hex of the first 8 signature bytes, as UTF-8 ||
    loader program id); the create-account-with-seed transaction, funding
    10^9 lamports for 128*1024 bytes, is submitted if the balance of that
    address is zero and nothing is submitted otherwise; and when the step
    succeeds the address is what [_storage] holds. *)
Theorem storage_account_creation c st from_address sign msg st1 balance w :
  create_instruction_data_from_tx env c st = (Finished (Ok (from_address, sign, msg)), st1) ->
  _storage (etx st) = None ->
  rpc_get_balance env (world st1) (storage_address env c (hex (firstn 8 sign)))
  = (Ok balance, w) ->
  exists o st2,
    iterative_prepare env c st = (o, st2)
    /\ (balance = 0 ->
        sent st2 = sent st1 ++ [(storage_creation env c (hex (firstn 8 sign)),
                                 solana_wallet c)])
    /\ (balance <> 0 ->
        sent st2 = sent st1 /\ o = Finished (Ok (from_address, sign, msg)))
    /\ (forall x, o = Finished (Ok x) ->
          x = (from_address, sign, msg)
          /\ _storage (etx st2) = Some (storage_address env c (hex (firstn 8 sign))))
    /\ map data (instructions (storage_creation env c (hex (firstn 8 sign))))
       = [ SYSTEM_INSTRUCTIONS_LAYOUT_build env
             (MkCreateAccountWithSeedArgs (public_key (solana_wallet c))
                (Z.of_nat (String.length (hex (firstn 8 sign))))
                (hex (firstn 8 sign)) (10 ^ 9) (128 * 1024)
                (b58decode env EVM_LOADER)) ].
Proof.
  intros Hp Hnone Hbal.
  assert (Hdata :
            map data (instructions (storage_creation env c (hex (firstn 8 sign))))
            = [ SYSTEM_INSTRUCTIONS_LAYOUT_build env
                  (MkCreateAccountWithSeedArgs (public_key (solana_wallet c))
                     (Z.of_nat (String.length (hex (firstn 8 sign))))
                     (hex (firstn 8 sign)) (10 ^ 9) (128 * 1024)
                     (b58decode env EVM_LOADER)) ]).
  { rewrite <- len_str_hex. reflexivity. }
  pose proof (create_instruction_data_from_tx_frame _ _ _ _ Hp) as [S1 _].
  pose proof (same_request_storage _ _ S1) as G1. rewrite Hnone in G1.
  unfold iterative_prepare. rewrite (bind_Ok _ _ _ _ _ Hp), bind_get_etx, G1, bind_assoc.
  destruct (create_storage_account_spec c (hex (firstn 8 sign)) st1) as (b & w0 & Eb & Hc).
  rewrite Hbal in Eb. injection Eb as <- <-.
  destruct (balance =? 0) eqn:Hz.
  - destruct Hc as (r & w' & _ & Hc). apply Z.eqb_eq in Hz.
    destruct r as [response|e]; cbn [rbind] in Hc.
    + rewrite (bind_Ok _ _ _ _ _ Hc), bind_assoc, bind_get_etx, bind_put_etx.
      do 2 eexists. split; [reflexivity|]. cbn [sent etx].
      split; [reflexivity|]. split; [intros; contradiction|].
      split; [|exact Hdata]. intros x [= <-]. now split.
    + rewrite (bind_Raise _ _ _ _ _ Hc).
      do 2 eexists. split; [reflexivity|]. cbn [sent etx].
      split; [reflexivity|]. split; [intros; contradiction|].
      split; [discriminate | exact Hdata].
  - apply Z.eqb_neq in Hz.
    rewrite (bind_Ok _ _ _ _ _ Hc), bind_assoc, bind_get_etx, bind_put_etx.
    do 2 eexists. split; [reflexivity|]. cbn [sent etx].
    split; [intros; contradiction|]. split; [now split|].
    split; [|exact Hdata]. intros x [= <-]. now split.
Qed.




(** C6.  From the state in which the preparation of an iterative run has
    left storage account [s] on the transaction, every transaction the run
    submits ends in a partial-call or continue instruction whose first
    account is [s], and [_storage] still holds [s] when the run ends,
    however it ends. *)
Theorem storage_reference c fuel st prepared st1 s o st' :
  iterative_prepare env c st = (Finished (Ok prepared), st1) ->
  _storage (etx st1) = Some s ->
  send_ethereum_trx_iterative env c fuel st = (o, st') ->
  _storage (etx st') = Some s
  /\ extends (references_storage s) st1 st'.
Proof.
  intros Hp Hs Hrun.
  rewrite (send_ethereum_trx_iterative_unfold _ _ _ _ _ Hp) in Hrun.
  apply batches_after_prepare in Hrun.
  destruct Hrun as (batches & Hsent & Hok & Hno & Hb).
  split.
  - destruct o as [[r|e]|].
    + destruct (Hok r eq_refl) as [-> _]. exact Hs.
    + rewrite Hno by discriminate. exact Hs.
    + rewrite Hno by discriminate. exact Hs.
  - exists batches. split; [exact Hsent|].
    destruct Hb as [-> | (i9 & i10 & n & E9 & E10 & -> & _)]; [constructor|].
    destruct (sol_instr_09_inv _ _ _ _ _ E9) as (i10' & E10' & K9 & D9 & K10 & D10).
    rewrite Hs in K9, K10.
    rewrite E10 in E10'. injection E10' as <-.
    constructor.
    + cbn [fst]. unfold first_batch.
      destruct (with_extra_heads (trx_account_metas (etx st1)) i9 _ K9) as [K D].
      eexists [_], _. split; [reflexivity|]. rewrite D. split; [now left | exact K].
    + apply Forall_forall. intros t Ht. apply repeat_spec in Ht. subst t.
      cbn [fst]. unfold continue_batch.
      destruct (with_extra_heads (trx_account_metas (etx st1)) i10 _ K10) as [K D].
      exists [], (with_extra (trx_account_metas (etx st1)) i10).
      split; [reflexivity|]. rewrite D. split; [now right | exact K].
Qed.

(** C9, as amended.  Take an iterative run whose preparation has succeeded
    and whose first batch has been built and confirmed.  Its continue
    instruction is then built, the same at every turn.  If the gateway
    confirms the continue batch however often the run submits it, and no
    response carries the marker (inner instructions absent, or data whose
    first byte is not 6), the run never returns: whatever the number of
    turns allowed, the loop uses them all, one continue batch per turn, and
    is still running.  If instead, after any number of such confirmations,
    the gateway raises, the run ends with that exception, right after the
    submission that raised. *)
Theorem unbounded_continuation c st prepared st1 response st2 :
  iterative_prepare env c st = (Finished (Ok prepared), st1) ->
  iterative_first_batch env c prepared st1 = (Finished (Ok response), st2) ->
  exists i10,
    sol_instr_10_continue env c (etx st2) (iterative_steps (etx st2)) = Ok i10
    /\ (confirmed_without_marker env (continue_batch (etx st2) i10) (solana_wallet c)
          (world st2) ->
        forall fuel,
          exists st',
            send_ethereum_trx_iterative env c fuel st = (OutOfFuel, st')
            /\ sent st'
               = sent st2 ++ repeat (continue_batch (etx st2) i10, solana_wallet c) fuel)
    /\ (forall rs w1 e w2 fuel,
          replies env (continue_batch (etx st2) i10) (solana_wallet c) (world st2) rs w1 ->
          Forall (fun r => lacks_marker (last_inner_data env r)) rs ->
          rpc_send_transaction env w1 (continue_batch (etx st2) i10) (solana_wallet c)
          = (Raise e, w2) ->
          (List.length rs < fuel)%nat ->
          send_ethereum_trx_iterative env c fuel st
          = (Finished (Raise e),
             MkState w2 (etx st2)
               (sent st2 ++ repeat (continue_batch (etx st2) i10, solana_wallet c)
                              (S (List.length rs))))).
Proof.
  intros Hp Hfb.
  pose proof (iterative_first_batch_spec c prepared st1) as Hspec.
  destruct (sol_instr_09_partial_call env c (etx st1) (iterative_steps (etx st1))
              (payload prepared)) as [i9|e9] eqn:E9.
  - destruct Hspec as (r & w & _ & Hspec).
    pose proof Hfb as Hst2. rewrite Hspec in Hst2.
    destruct r as [r|e0]; cbn [rbind] in Hst2; [|discriminate].
    injection Hst2 as _ Hst2.
    destruct (sol_instr_09_inv _ _ _ _ _ E9) as (i10 & E10 & _).
    assert (Ei : sol_instr_10_continue env c (etx st2) (iterative_steps (etx st2)) = Ok i10)
      by (now rewrite <- Hst2).
    exists i10. split; [exact Ei|]. split.
    + intros Hstuck fuel. destruct (Hstuck fuel) as (rs & w' & Hr & Hn & Hl).
      rewrite (send_ethereum_trx_iterative_unfold _ _ _ _ _ Hp), (bind_Ok _ _ _ _ _ Hfb).
      rewrite <- Hn, (continue_loop_replies c i10 rs st2 w' Ei Hr Hl).
      eexists. split; reflexivity.
    + intros rs w1 e w2 fuel Hr Hl He Hf.
      rewrite (send_ethereum_trx_iterative_unfold _ _ _ _ _ Hp), (bind_Ok _ _ _ _ _ Hfb).
      exact (continue_loop_gateway_error c i10 rs st2 w1 e w2 fuel Ei Hr Hl He Hf).
  - rewrite Hspec in Hfb. discriminate.
Qed.

(** C10.  When the transaction carries extra account metas, they follow the
    fixed keys of the last instruction of each batch: of the single-shot
    batch, of the keccak and partial-call batch, and of every continue
    batch the loop submits, one per turn. *)
Theorem extra_account_metas c extra :
  (forall st prepared st1 i5,
     trx_account_metas (etx st) = Some extra ->
     create_instruction_data_from_tx env c st = (Finished (Ok prepared), st1) ->
     sol_instr_05 env c (etx st1) (payload prepared) = Ok i5 ->
     exists r st',
       send_ethereum_trx_single env c st = (Finished r, st')
       /\ sent st'
          = sent st1
            ++ [(MkTransaction
                   [ sol_instr_keccak env
                       (make_keccak_instruction_data env 1
                          (Z.of_nat (List.length (snd prepared))) 5);
                     MkTransactionInstruction (keys i5 ++ extra) (program_id i5) (data i5) ],
                 solana_wallet c)])
  /\ (forall st prepared st1 i9,
        trx_account_metas (etx st) = Some extra ->
        iterative_prepare env c st = (Finished (Ok prepared), st1) ->
        sol_instr_09_partial_call env c (etx st1) (iterative_steps (etx st1))
          (payload prepared) = Ok i9 ->
        exists r st2,
          iterative_first_batch env c prepared st1 = (Finished r, st2)
          /\ sent st2
             = sent st1
               ++ [(MkTransaction
                      [ sol_instr_keccak env
                          (make_keccak_instruction_data env 1
                             (Z.of_nat (List.length (snd prepared))) 13);
                        MkTransactionInstruction (keys i9 ++ extra) (program_id i9) (data i9) ],
                    solana_wallet c)])
  /\ (forall st i10 fuel o st',
        trx_account_metas (etx st) = Some extra ->
        sol_instr_10_continue env c (etx st) (iterative_steps (etx st)) = Ok i10 ->
        continue_loop env c fuel st = (o, st') ->
        exists n,
          sent st'
          = sent st
            ++ repeat (MkTransaction
                         [MkTransactionInstruction (keys i10 ++ extra) (program_id i10)
                            (data i10)],
                       solana_wallet c) n
          /\ (n <= fuel)%nat
          /\ ((1 <= fuel)%nat -> (1 <= n)%nat)
          /\ (o = OutOfFuel -> n = fuel)).
Proof.
  split; [|split].
  - intros st prepared st1 i5 Hm Hp H5.
    pose proof (create_instruction_data_from_tx_frame _ _ _ _ Hp) as [S1 _].
    pose proof (same_request_metas _ _ S1) as M1. rewrite Hm in M1.
    destruct (send_ethereum_trx_single_spec c st prepared st1 i5 Hp H5) as (r & w & _ & Es).
    exists r. eexists. split; [exact Es|]. cbn [sent]. unfold single_batch.
    now rewrite M1.
  - intros st prepared st1 i9 Hm Hp H9.
    pose proof (iterative_prepare_frame _ _ _ _ Hp) as (M1 & _). rewrite Hm in M1.
    pose proof (iterative_first_batch_spec c prepared st1) as Hspec. rewrite H9 in Hspec.
    destruct Hspec as (r & w & _ & Es).
    exists r. eexists. split; [exact Es|]. cbn [sent]. unfold first_batch.
    now rewrite M1.
  - intros st i10 fuel o st' Hm H10 Hrun.
    destruct (continue_loop_trace c i10 fuel st H10 o st' Hrun) as (n & Hs & Hn & Ho).
    rewrite Hm in Hs. cbn [with_extra] in Hs.
    exists n. split; [exact Hs|]. split; [exact Hn|]. split.
    + destruct o as [[r|e]|]; intuition lia.
    + intros ->. tauto.
Qed.

End Run.

(** ** The properties on the scripted gateway *)

Lemma completion_detection_witness :
  ((exists st',
      continue_step (Scripted.env 1) (Scripted.client (Scripted.env 1) ITERATIVE)
        (MkState [Ok (Scripted.response 2 Scripted.six)] (Scripted.ready None) [])
      = (Finished (Ok (Some (Scripted.response 2 Scripted.six))), st'))
   <-> has_marker (last_inner_data (Scripted.env 1) (Scripted.response 2 Scripted.six)))
  /\ (has_marker (last_inner_data (Scripted.env 1) (Scripted.response 2 Scripted.six)) ->
      forall fuel,
        continue_loop (Scripted.env 1) (Scripted.client (Scripted.env 1) ITERATIVE) (S fuel)
          (MkState [Ok (Scripted.response 2 Scripted.six)] (Scripted.ready None) [])
        = (Finished (Ok (Scripted.response 2 Scripted.six)),
           MkState [] (set_NeonEvmClient__storage None (Scripted.ready None))
             [(continue_batch (Scripted.ready None) Scripted.continue_instruction,
               Scripted.wallet)]))
  /\ (lacks_marker (last_inner_data (Scripted.env 1) (Scripted.response 2 Scripted.six)) ->
      continue_step (Scripted.env 1) (Scripted.client (Scripted.env 1) ITERATIVE)
        (MkState [Ok (Scripted.response 2 Scripted.six)] (Scripted.ready None) [])
      = (Finished (Ok None),
         MkState [] (Scripted.ready None)
           [(continue_batch (Scripted.ready None) Scripted.continue_instruction,
             Scripted.wallet)])
      /\ forall fuel,
           continue_loop (Scripted.env 1) (Scripted.client (Scripted.env 1) ITERATIVE) (S fuel)
             (MkState [Ok (Scripted.response 2 Scripted.six)] (Scripted.ready None) [])
           = continue_loop (Scripted.env 1) (Scripted.client (Scripted.env 1) ITERATIVE) fuel
               (MkState [] (Scripted.ready None)
                  [(continue_batch (Scripted.ready None) Scripted.continue_instruction,
                    Scripted.wallet)])
           /\ exists o st' more,
                continue_loop (Scripted.env 1) (Scripted.client (Scripted.env 1) ITERATIVE)
                  (S fuel)
                  (MkState [] (Scripted.ready None)
                     [(continue_batch (Scripted.ready None) Scripted.continue_instruction,
                       Scripted.wallet)])
                = (o, st')
                /\ sent st'
                   = [(continue_batch (Scripted.ready None) Scripted.continue_instruction,
                       Scripted.wallet)]
                     ++ (continue_batch (Scripted.ready None) Scripted.continue_instruction,
                         Scripted.wallet) :: more).
Proof.
  exact (completion_detection (Scripted.env 1) (Scripted.client (Scripted.env 1) ITERATIVE)
           Scripted.continue_instruction
           (MkState [Ok (Scripted.response 2 Scripted.six)] (Scripted.ready None) [])
           (Scripted.response 2 Scripted.six) [] eq_refl eq_refl).
Defined.

(** C2 names a behaviour the code misses.  On a run that completes (the
    second continue batch comes back with the marker) the call returns that
    result, and afterwards [_storage] still holds the storage address, not
    [None]; what the loop set to [None] is the attribute
    [_NeonEvmClient__storage]. *)
Theorem storage_kept_after_completion :
  fst (send_ethereum_trx_iterative (Scripted.env 1)
         (Scripted.client (Scripted.env 1) ITERATIVE) 3
         (Scripted.start None
            [Ok Scripted.idle; Ok (Scripted.response 1 Scripted.seven);
             Ok (Scripted.response 2 Scripted.six)]))
  = Finished (Ok (Scripted.response 2 Scripted.six))
  /\ _storage (etx (snd (send_ethereum_trx_iterative (Scripted.env 1)
                           (Scripted.client (Scripted.env 1) ITERATIVE) 3
                           (Scripted.start None
                              [Ok Scripted.idle; Ok (Scripted.response 1 Scripted.seven);
                               Ok (Scripted.response 2 Scripted.six)]))))
     = Some (storage_address (Scripted.env 1) (Scripted.client (Scripted.env 1) ITERATIVE)
               "030405060708090a")
  /\ _storage (etx (snd (send_ethereum_trx_iterative (Scripted.env 1)
                           (Scripted.client (Scripted.env 1) ITERATIVE) 3
                           (Scripted.start None
                              [Ok Scripted.idle; Ok (Scripted.response 1 Scripted.seven);
                               Ok (Scripted.response 2 Scripted.six)]))))
     <> None
  /\ _NeonEvmClient__storage
       (etx (snd (send_ethereum_trx_iterative (Scripted.env 1)
                    (Scripted.client (Scripted.env 1) ITERATIVE) 3
                    (Scripted.start None
                       [Ok Scripted.idle; Ok (Scripted.response 1 Scripted.seven);
                        Ok (Scripted.response 2 Scripted.six)]))))
     = Some None.
Proof.
  vm_compute. repeat split. discriminate.
Qed.

Lemma storage_account_creation_witness :
  exists o st2,
    iterative_prepare (Scripted.env 0) (Scripted.client (Scripted.env 0) ITERATIVE)
      (Scripted.start None []) = (o, st2)
    /\ (0 = 0 ->
        sent st2
        = sent (snd (create_instruction_data_from_tx (Scripted.env 0)
                       (Scripted.client (Scripted.env 0) ITERATIVE) (Scripted.start None [])))
          ++ [(storage_creation (Scripted.env 0) (Scripted.client (Scripted.env 0) ITERATIVE)
                 (hex (firstn 8 (secret_key Scripted.wallet))),
               Scripted.wallet)])
    /\ (0 <> 0 ->
        sent st2
        = sent (snd (create_instruction_data_from_tx (Scripted.env 0)
                       (Scripted.client (Scripted.env 0) ITERATIVE) (Scripted.start None [])))
        /\ o = Finished (Ok ([xc0], secret_key Scripted.wallet, [xda; x7a])))
    /\ (forall x, o = Finished (Ok x) ->
          x = ([xc0], secret_key Scripted.wallet, [xda; x7a])
          /\ _storage (etx st2)
             = Some (storage_address (Scripted.env 0)
                       (Scripted.client (Scripted.env 0) ITERATIVE)
                       (hex (firstn 8 (secret_key Scripted.wallet)))))
    /\ map data (instructions
                   (storage_creation (Scripted.env 0)
                      (Scripted.client (Scripted.env 0) ITERATIVE)
                      (hex (firstn 8 (secret_key Scripted.wallet)))))
       = [ SYSTEM_INSTRUCTIONS_LAYOUT_build (Scripted.env 0)
             (MkCreateAccountWithSeedArgs (public_key Scripted.wallet)
                (Z.of_nat (String.length (hex (firstn 8 (secret_key Scripted.wallet)))))
                (hex (firstn 8 (secret_key Scripted.wallet))) (10 ^ 9) (128 * 1024)
                (b58decode (Scripted.env 0) EVM_LOADER)) ].
Proof.
  exact (storage_account_creation (Scripted.env 0)
           (Scripted.client (Scripted.env 0) ITERATIVE) (Scripted.start None [])
           [xc0] (secret_key Scripted.wallet) [xda; x7a]
           (snd (create_instruction_data_from_tx (Scripted.env 0)
                   (Scripted.client (Scripted.env 0) ITERATIVE) (Scripted.start None [])))
           0 [] eq_refl eq_refl eq_refl).
Defined.


Lemma storage_reference_witness :
  _storage (etx (snd (send_ethereum_trx_iterative (Scripted.env 0)
                        (Scripted.client (Scripted.env 0) ITERATIVE) 5
                        (Scripted.start None
                           [Ok Scripted.idle; Ok Scripted.idle; Ok Scripted.idle;
                            Ok (Scripted.response 1 Scripted.seven);
                            Ok (Scripted.response 2 Scripted.six)]))))
  = Some (storage_address (Scripted.env 0) (Scripted.client (Scripted.env 0) ITERATIVE)
            "030405060708090a")
  /\ extends
       (references_storage
          (storage_address (Scripted.env 0) (Scripted.client (Scripted.env 0) ITERATIVE)
             "030405060708090a"))
       (snd (iterative_prepare (Scripted.env 0)
               (Scripted.client (Scripted.env 0) ITERATIVE)
               (Scripted.start None
                  [Ok Scripted.idle; Ok Scripted.idle; Ok Scripted.idle;
                   Ok (Scripted.response 1 Scripted.seven);
                   Ok (Scripted.response 2 Scripted.six)])))
       (snd (send_ethereum_trx_iterative (Scripted.env 0)
               (Scripted.client (Scripted.env 0) ITERATIVE) 5
               (Scripted.start None
                  [Ok Scripted.idle; Ok Scripted.idle; Ok Scripted.idle;
                   Ok (Scripted.response 1 Scripted.seven);
                   Ok (Scripted.response 2 Scripted.six)]))).
Proof.
  apply (storage_reference (Scripted.env 0) (Scripted.client (Scripted.env 0) ITERATIVE) 5
           (Scripted.start None
              [Ok Scripted.idle; Ok Scripted.idle; Ok Scripted.idle;
               Ok (Scripted.response 1 Scripted.seven);
               Ok (Scripted.response 2 Scripted.six)])
           ([xc0], secret_key Scripted.wallet, [xda; x7a])
           (snd (iterative_prepare (Scripted.env 0)
                   (Scripted.client (Scripted.env 0) ITERATIVE)
                   (Scripted.start None
                      [Ok Scripted.idle; Ok Scripted.idle; Ok Scripted.idle;
                       Ok (Scripted.response 1 Scripted.seven);
                       Ok (Scripted.response 2 Scripted.six)])))
           (storage_address (Scripted.env 0) (Scripted.client (Scripted.env 0) ITERATIVE)
              "030405060708090a")
           (fst (send_ethereum_trx_iterative (Scripted.env 0)
                   (Scripted.client (Scripted.env 0) ITERATIVE) 5
                   (Scripted.start None
                      [Ok Scripted.idle; Ok Scripted.idle; Ok Scripted.idle;
                       Ok (Scripted.response 1 Scripted.seven);
                       Ok (Scripted.response 2 Scripted.six)])))).
  - reflexivity.
  - reflexivity.
  - apply surjective_pairing.
Defined.

(** C9 as the specification states it fails: a run in which no response ever
    carries the marker can still end.  The gateway confirms the first batch
    and rejects the first continue batch; the exception leaves
    [send_ethereum_trx_iterative] after two submissions, with turns to
    spare. *)
Lemma continuation_ends_on_gateway_error :
  Forall (fun r => match r with
                   | Ok response =>
                       lacks_marker (last_inner_data (Scripted.env 1) response)
                   | Raise _ => True
                   end)
    [Ok Scripted.idle; Raise (ExternalError "RuntimeError")]
  /\ lacks_marker (last_inner_data (Scripted.env 1) Scripted.idle)
  /\ fst (send_ethereum_trx_iterative (Scripted.env 1)
            (Scripted.client (Scripted.env 1) ITERATIVE) 5
            (Scripted.start None [Ok Scripted.idle; Raise (ExternalError "RuntimeError")]))
     = Finished (Raise (ExternalError "RuntimeError"))
  /\ fst (send_ethereum_trx_iterative (Scripted.env 1)
            (Scripted.client (Scripted.env 1) ITERATIVE) 5
            (Scripted.start None [Ok Scripted.idle; Raise (ExternalError "RuntimeError")]))
     <> OutOfFuel
  /\ List.length
       (sent (snd (send_ethereum_trx_iterative (Scripted.env 1)
                     (Scripted.client (Scripted.env 1) ITERATIVE) 5
                     (Scripted.start None
                        [Ok Scripted.idle; Raise (ExternalError "RuntimeError")]))))
     = 2%nat.
Proof.
  split; [repeat constructor; now left|].
  split; [now left|].
  split; [vm_compute; reflexivity|].
  split; [vm_compute; discriminate|].
  vm_compute; reflexivity.
Qed.

(** Left alone, the scripted gateway confirms for ever without a marker. *)
Lemma idle_gateway_replies balance batch a n :
  replies (Scripted.env balance) batch a [] (repeat Scripted.idle n) [].
Proof.
  induction n as [|n IH]; cbn [repeat]; [constructor|].
  now apply (replies_cons _ _ _ [] Scripted.idle [] _ []).
Qed.

Lemma idle_gateway_confirmed_without_marker balance batch a :
  confirmed_without_marker (Scripted.env balance) batch a [].
Proof.
  intros n. exists (repeat Scripted.idle n), []. split; [apply idle_gateway_replies|].
  split; [apply repeat_length|].
  apply Forall_forall. intros r Hr. apply repeat_spec in Hr. subst r. now left.
Qed.

Lemma unbounded_continuation_witness :
  (exists i10,
     sol_instr_10_continue (Scripted.env 1) (Scripted.client (Scripted.env 1) ITERATIVE)
       (etx (snd (iterative_first_batch (Scripted.env 1)
                  (Scripted.client (Scripted.env 1) ITERATIVE)
                  ([xc0], secret_key Scripted.wallet, [xda; x7a])
                  (snd (iterative_prepare (Scripted.env 1)
                          (Scripted.client (Scripted.env 1) ITERATIVE)
                          (Scripted.start None [])))))) (iterative_steps (etx (snd (iterative_first_batch (Scripted.env 1)
                  (Scripted.client (Scripted.env 1) ITERATIVE)
                  ([xc0], secret_key Scripted.wallet, [xda; x7a])
                  (snd (iterative_prepare (Scripted.env 1)
                          (Scripted.client (Scripted.env 1) ITERATIVE)
                          (Scripted.start None []))))))) = Ok i10
     /\ exists st',
          send_ethereum_trx_iterative (Scripted.env 1)
            (Scripted.client (Scripted.env 1) ITERATIVE) 7 (Scripted.start None [])
          = (OutOfFuel, st')
          /\ sent st'
             = sent (snd (iterative_first_batch (Scripted.env 1)
                  (Scripted.client (Scripted.env 1) ITERATIVE)
                  ([xc0], secret_key Scripted.wallet, [xda; x7a])
                  (snd (iterative_prepare (Scripted.env 1)
                          (Scripted.client (Scripted.env 1) ITERATIVE)
                          (Scripted.start None []))))) ++ repeat (continue_batch (etx (snd (iterative_first_batch (Scripted.env 1)
                  (Scripted.client (Scripted.env 1) ITERATIVE)
                  ([xc0], secret_key Scripted.wallet, [xda; x7a])
                  (snd (iterative_prepare (Scripted.env 1)
                          (Scripted.client (Scripted.env 1) ITERATIVE)
                          (Scripted.start None [])))))) i10, Scripted.wallet) 7)
  /\ (exists i10,
        sol_instr_10_continue (Scripted.env 1) (Scripted.client (Scripted.env 1) ITERATIVE)
          (etx (snd (iterative_first_batch (Scripted.env 1)
                  (Scripted.client (Scripted.env 1) ITERATIVE)
                  ([xc0], secret_key Scripted.wallet, [xda; x7a])
                  (snd (iterative_prepare (Scripted.env 1)
                          (Scripted.client (Scripted.env 1) ITERATIVE)
                          (Scripted.start None 
                             [Ok Scripted.idle; Ok Scripted.idle; Raise (ExternalError "RuntimeError")])))))) (iterative_steps (etx (snd (iterative_first_batch (Scripted.env 1)
                  (Scripted.client (Scripted.env 1) ITERATIVE)
                  ([xc0], secret_key Scripted.wallet, [xda; x7a])
                  (snd (iterative_prepare (Scripted.env 1)
                          (Scripted.client (Scripted.env 1) ITERATIVE)
                          (Scripted.start None 
                             [Ok Scripted.idle; Ok Scripted.idle; Raise (ExternalError "RuntimeError")]))))))) = Ok i10
        /\ send_ethereum_trx_iterative (Scripted.env 1)
             (Scripted.client (Scripted.env 1) ITERATIVE) 5
             (Scripted.start None 
               [Ok Scripted.idle; Ok Scripted.idle; Raise (ExternalError "RuntimeError")])
           = (Finished (Raise (ExternalError "RuntimeError")),
              MkState [] (etx (snd (iterative_first_batch (Scripted.env 1)
                  (Scripted.client (Scripted.env 1) ITERATIVE)
                  ([xc0], secret_key Scripted.wallet, [xda; x7a])
                  (snd (iterative_prepare (Scripted.env 1)
                          (Scripted.client (Scripted.env 1) ITERATIVE)
                          (Scripted.start None 
                             [Ok Scripted.idle; Ok Scripted.idle; Raise (ExternalError "RuntimeError")]))))))
                (sent (snd (iterative_first_batch (Scripted.env 1)
                  (Scripted.client (Scripted.env 1) ITERATIVE)
                  ([xc0], secret_key Scripted.wallet, [xda; x7a])
                  (snd (iterative_prepare (Scripted.env 1)
                          (Scripted.client (Scripted.env 1) ITERATIVE)
                          (Scripted.start None 
                             [Ok Scripted.idle; Ok Scripted.idle; Raise (ExternalError "RuntimeError")]))))) ++ repeat (continue_batch (etx (snd (iterative_first_batch (Scripted.env 1)
                  (Scripted.client (Scripted.env 1) ITERATIVE)
                  ([xc0], secret_key Scripted.wallet, [xda; x7a])
                  (snd (iterative_prepare (Scripted.env 1)
                          (Scripted.client (Scripted.env 1) ITERATIVE)
                          (Scripted.start None 
                             [Ok Scripted.idle; Ok Scripted.idle; Raise (ExternalError "RuntimeError")])))))) i10, Scripted.wallet) 2))).
Proof.
  split.
  - destruct (unbounded_continuation (Scripted.env 1)
                (Scripted.client (Scripted.env 1) ITERATIVE)
                (Scripted.start None [])
                ([xc0], secret_key Scripted.wallet, [xda; x7a])
                (snd (iterative_prepare (Scripted.env 1)
                        (Scripted.client (Scripted.env 1) ITERATIVE)
                        (Scripted.start None [])))
                Scripted.idle
                (snd (iterative_first_batch (Scripted.env 1)
                  (Scripted.client (Scripted.env 1) ITERATIVE)
                  ([xc0], secret_key Scripted.wallet, [xda; x7a])
                  (snd (iterative_prepare (Scripted.env 1)
                          (Scripted.client (Scripted.env 1) ITERATIVE)
                          (Scripted.start None []))))) eq_refl eq_refl) as (i10 & E & Hstuck & _).
    exists i10. split; [exact E|].
    exact (Hstuck (idle_gateway_confirmed_without_marker 1 _ _) 7%nat).
  - destruct (unbounded_continuation (Scripted.env 1)
                (Scripted.client (Scripted.env 1) ITERATIVE)
                (Scripted.start None 
               [Ok Scripted.idle; Ok Scripted.idle; Raise (ExternalError "RuntimeError")])
                ([xc0], secret_key Scripted.wallet, [xda; x7a])
                (snd (iterative_prepare (Scripted.env 1)
                        (Scripted.client (Scripted.env 1) ITERATIVE)
                        (Scripted.start None 
               [Ok Scripted.idle; Ok Scripted.idle; Raise (ExternalError "RuntimeError")])))
                Scripted.idle
                (snd (iterative_first_batch (Scripted.env 1)
                  (Scripted.client (Scripted.env 1) ITERATIVE)
                  ([xc0], secret_key Scripted.wallet, [xda; x7a])
                  (snd (iterative_prepare (Scripted.env 1)
                          (Scripted.client (Scripted.env 1) ITERATIVE)
                          (Scripted.start None 
                             [Ok Scripted.idle; Ok Scripted.idle; Raise (ExternalError "RuntimeError")]))))) eq_refl eq_refl) as (i10 & E & _ & Herr).
    exists i10. split; [exact E|].
    apply (Herr [Scripted.idle] [Raise (ExternalError "RuntimeError")]
             (ExternalError "RuntimeError") [] 5%nat).
    + eapply replies_cons; [reflexivity | constructor].
    + constructor; [now left | constructor].
    + reflexivity.
    + cbn. lia.
Defined.

Lemma extra_account_metas_witness :
  exists n,
    sent (snd (continue_loop (Scripted.env 1) (Scripted.client (Scripted.env 1) ITERATIVE) 2
                 (MkState [] (Scripted.ready (Some Scripted.extra)) [])))
    = sent (MkState ([] : Scripted.World) (Scripted.ready (Some Scripted.extra)) [])
      ++ repeat (MkTransaction
                   [MkTransactionInstruction
                      (keys Scripted.continue_instruction ++ Scripted.extra)
                      (program_id Scripted.continue_instruction)
                      (data Scripted.continue_instruction)],
                 Scripted.wallet) n
    /\ (n <= 2)%nat
    /\ ((1 <= 2)%nat -> (1 <= n)%nat)
    /\ (fst (continue_loop (Scripted.env 1) (Scripted.client (Scripted.env 1) ITERATIVE) 2
               (MkState [] (Scripted.ready (Some Scripted.extra)) []))
        = OutOfFuel -> n = 2%nat).
Proof.
  apply (proj2 (proj2 (extra_account_metas (Scripted.env 1)
                         (Scripted.client (Scripted.env 1) ITERATIVE) Scripted.extra))
           (MkState [] (Scripted.ready (Some Scripted.extra)) [])
           Scripted.continue_instruction 2%nat).
  - reflexivity.
  - reflexivity.
  - apply surjective_pairing.
Defined.

(** * Further properties of the module *)

(** ** Hex strings *)

Lemma hex_byte_fromhex (b : byte) (s : string) :
  fromhex (String (hex_digit (byte_to_Z b / 16))
             (String (hex_digit (byte_to_Z b mod 16)) s))
  = rbind (fromhex s) (fun rest => Ok (b :: rest)).
Proof.
  destruct b; reflexivity.
Qed.

Lemma fromhex_hex (b : bytes) : fromhex (hex b) = Ok b.
Proof.
  induction b as [|a b IH]; [reflexivity|].
  cbn [hex]. rewrite hex_byte_fromhex, IH. reflexivity.
Qed.

Lemma hex_no_prefix (b : bytes) : startswith "0x" (hex b) = false.
Proof.
  destruct b as [|a b]; [reflexivity|]. destruct a; reflexivity.
Qed.

Lemma ether_hex_bytes (b : bytes) : ether_hex (EtherStr (hex b)) = hex b.
Proof.
  unfold ether_hex. now rewrite hex_no_prefix.
Qed.

(** ** Account records *)

Lemma from_bytes_range (bs : bytes) : 0 <= from_bytes bs < 256 ^ Z.of_nat (List.length bs).
Proof.
  induction bs as [|b bs IH].
  - cbn. lia.
  - cbn [from_bytes List.length]. rewrite Nat2Z.inj_succ, Z.pow_succ_r by lia.
    pose proof (byte_to_Z_range b). lia.
Qed.

Lemma FormatField_fixed_size (len : nat) :
  fixed_size (FormatField len) (fun bs => from_bytes (firstn len bs)).
Proof. intros bs. reflexivity. Qed.

Lemma Bytes_fixed_size (n : nat) : fixed_size (Bytes n) (fun bs => firstn n bs).
Proof. intros bs. reflexivity. Qed.

Lemma StructEnd_fixed_size : fixed_size StructEnd (fun _ => tt).
Proof. intros bs. reflexivity. Qed.

Lemma StructField_fixed_size {A B} (c1 : Construct A) (c2 : Construct B) f1 f2 :
  fixed_size c1 f1 -> fixed_size c2 f2 ->
  fixed_size (StructField c1 c2) (fun bs => (f1 bs, f2 (skipn (c_sizeof c1) bs))).
Proof.
  intros H1 H2 bs. cbn [c_parse c_sizeof StructField]. rewrite H1.
  destruct (List.length bs <? c_sizeof c1)%nat eqn:E1.
  - apply Nat.ltb_lt in E1.
    replace (List.length bs <? c_sizeof c1 + c_sizeof c2)%nat with true
      by (symmetry; apply Nat.ltb_lt; lia).
    reflexivity.
  - apply Nat.ltb_ge in E1. cbn [rbind snd fst]. rewrite H2, length_skipn.
    destruct (List.length bs - c_sizeof c1 <? c_sizeof c2)%nat eqn:E2.
    + apply Nat.ltb_lt in E2.
      replace (List.length bs <? c_sizeof c1 + c_sizeof c2)%nat with true
        by (symmetry; apply Nat.ltb_lt; lia).
      reflexivity.
    + apply Nat.ltb_ge in E2.
      replace (List.length bs <? c_sizeof c1 + c_sizeof c2)%nat with false
        by (symmetry; apply Nat.ltb_ge; lia).
      cbn [rbind fst snd]. now rewrite skipn_skipn, Nat.add_comm.
Qed.

Lemma ACCOUNT_INFO_LAYOUT_fixed_size :
  exists f,
    fixed_size ACCOUNT_INFO_LAYOUT f
    /\ forall bs, fst (snd (f bs)) = firstn 20 (skipn 1 bs)
               /\ fst (snd (snd (snd (f bs)))) = firstn 8 (skipn 22 bs).
Proof.
  eexists. split.
  - unfold ACCOUNT_INFO_LAYOUT, Renamed, Int8ul.
    repeat apply StructField_fixed_size;
      first [ apply FormatField_fixed_size | apply Bytes_fixed_size
            | apply StructEnd_fixed_size ].
  - intros bs. cbn [fst snd c_sizeof FormatField Bytes]. split; [reflexivity|].
    now rewrite !skipn_skipn.
Qed.

Lemma AccountInfo_frombytes_long (d : bytes) :
  (127 <= List.length d)%nat ->
  AccountInfo_frombytes d
  = Ok (MkAccountInfo (firstn 20 (skipn 1 d)) (firstn 8 (skipn 22 d))).
Proof.
  intros Hlen.
  destruct ACCOUNT_INFO_LAYOUT_fixed_size as (f & Hf & Hfields).
  unfold AccountInfo_frombytes, parse. rewrite Hf.
  change (c_sizeof ACCOUNT_INFO_LAYOUT) with 127%nat.
  apply Nat.ltb_ge in Hlen. rewrite Hlen. cbn [rbind fst].
  destruct (Hfields d) as [-> ->]. reflexivity.
Qed.

(** X1.  [AccountInfo.frombytes] raises [StreamError] on fewer than 127
    bytes; on 127 bytes or more it succeeds, whatever follows, and reads the
    Ethereum address from bytes 1..20 and the transaction count from bytes
    22..29. *)
Theorem AccountInfo_frombytes_spec (d : bytes) :
  sizeof ACCOUNT_INFO_LAYOUT = 127%nat
  /\ ((List.length d < 127)%nat -> AccountInfo_frombytes d = Raise StreamError)
  /\ ((127 <= List.length d)%nat ->
      AccountInfo_frombytes d
      = Ok (MkAccountInfo (firstn 20 (skipn 1 d)) (firstn 8 (skipn 22 d)))).
Proof.
  split; [reflexivity|].
  split; [|apply AccountInfo_frombytes_long].
  intros Hlen.
  destruct ACCOUNT_INFO_LAYOUT_fixed_size as (f & Hf & _).
  unfold AccountInfo_frombytes, parse. rewrite Hf.
  change (c_sizeof ACCOUNT_INFO_LAYOUT) with 127%nat.
  apply Nat.ltb_lt in Hlen. now rewrite Hlen.
Qed.

(** Case analysis on the first computation of a [bind] in the goal. *)
Ltac outcome_cases m st a e st1 E :=
  destruct (m st) as [[[a|e]|] st1] eqn:E;
  [ rewrite (bind_Ok _ _ _ _ _ E)
  | rewrite (bind_Raise _ _ _ _ _ E)
  | rewrite (bind_OutOfFuel _ _ _ _ E) ].

Section Accounts.

Context {World : Type} (env : Collaborators World).

Implicit Types (st : state World) (tx : EthereumTransaction) (c : NeonEvmClient).

Lemma getTransactionCount_run (account : PublicKey) st :
  exists r w,
    rpc_get_account_info env (world st) account = (r, w)
    /\ getTransactionCount env account st
       = (Finished
            match r with
            | Raise e => Raise e
            | Ok None => Raise (Exception "Can't get information about the account")
            | Ok (Some d) =>
                if (List.length (b64decode env d) <? 127)%nat
                then Raise (Exception "Wrong data length for account data")
                else Ok (from_bytes (firstn 8 (skipn 22 (b64decode env d))))
            end,
          MkState w (etx st) (sent st)).
Proof.
  destruct (call_spec (fun w => rpc_get_account_info env w account) st) as (r & w & Er & Ec).
  exists r, w. split; [exact Er|].
  unfold getTransactionCount, getAccountData. rewrite bind_assoc.
  destruct r as [[d|]|e].
  - rewrite (bind_Ok _ _ _ _ _ Ec).
    change (sizeof ACCOUNT_INFO_LAYOUT) with 127%nat.
    destruct (List.length (b64decode env d) <? 127)%nat eqn:El; [reflexivity|].
    rewrite bind_ret, bind_lift. apply Nat.ltb_ge in El.
    rewrite (AccountInfo_frombytes_long (b64decode env d) El). reflexivity.
  - now rewrite (bind_Ok _ _ _ _ _ Ec).
  - now rewrite (bind_Raise _ _ _ _ _ Ec).
Qed.

Lemma getTransactionCount_bound (account : PublicKey) st n st' :
  getTransactionCount env account st = (Finished (Ok n), st') -> 0 <= n < 2 ^ 64.
Proof.
  destruct (getTransactionCount_run account st) as (r & w & _ & Hrun).
  rewrite Hrun. intros Hn.
  destruct r as [[d|]|e]; try discriminate.
  destruct (List.length (b64decode env d) <? 127)%nat eqn:El; [discriminate|].
  injection Hn as <- _. apply Nat.ltb_ge in El.
  pose proof (from_bytes_range (firstn 8 (skipn 22 (b64decode env d)))) as Hr.
  rewrite length_firstn, length_skipn in Hr.
  replace (Nat.min 8 (List.length (b64decode env d) - 22)) with 8%nat in Hr by lia.
  exact Hr.
Qed.

(** X2.  [getTransactionCount] asks for the account once and submits
    nothing.  It raises what the query raises, an [Exception] when the
    account does not exist or its data has fewer than 127 bytes, and
    otherwise returns bytes 22..29 of the data read as a little-endian
    integer, which fits 64 bits; parsing the record never fails. *)
Theorem getTransactionCount_spec (account : PublicKey) st :
  exists r w,
    rpc_get_account_info env (world st) account = (r, w)
    /\ getTransactionCount env account st
       = (Finished
            match r with
            | Raise e => Raise e
            | Ok None => Raise (Exception "Can't get information about the account")
            | Ok (Some d) =>
                if (List.length (b64decode env d) <? 127)%nat
                then Raise (Exception "Wrong data length for account data")
                else Ok (from_bytes (firstn 8 (skipn 22 (b64decode env d))))
            end,
          MkState w (etx st) (sent st))
    /\ (forall n st', getTransactionCount env account st = (Finished (Ok n), st') ->
          0 <= n < 2 ^ 64).
Proof.
  destruct (getTransactionCount_run account st) as (r & w & Er & Hrun).
  exists r, w. split; [exact Er|]. split; [exact Hrun|].
  intros n st'. apply getTransactionCount_bound.
Qed.

Lemma same_request_fields tx tx' :
  same_request tx tx' ->
  contract_account tx' = contract_account tx
  /\ contract_code_account tx' = contract_code_account tx
  /\ trx_data tx' = trx_data tx
  /\ iterative_steps tx' = iterative_steps tx
  /\ ether_caller tx' = ether_caller tx.
Proof. intros ->. now repeat split. Qed.

(** X3.  What [__create_instruction_data_from_tx] returns is the signer's
    output for this raw Ethereum transaction: destination the last 20 bytes
    of the hash of the contract account, value 0, gas 9999999, gas price
    10^9, chain id 111, the payload of the request as data, and as nonce
    the transaction count of the caller's account: the account that
    [__create_solana_ether_caller] has just put on the transaction, whose
    data the gateway is asked for in the world that call leaves, bytes
    22..29 of it read as a little-endian integer.  The count fits 64 bits,
    and the query is the last thing the function does to the world. *)
Theorem create_instruction_data_from_tx_raw c st prepared st' :
  create_instruction_data_from_tx env c st = (Finished (Ok prepared), st') ->
  exists st1 caller nonce d,
    create_solana_ether_caller env c st = (Finished (Ok tt), st1)
    /\ _solana_ether_caller (etx st1) = Some caller
    /\ getTransactionCount env caller st1 = (Finished (Ok nonce), st')
    /\ rpc_get_account_info env (world st1) caller = (Ok (Some d), world st')
    /\ nonce = from_bytes (firstn 8 (skipn 22 (b64decode env d)))
    /\ 0 <= nonce < 2 ^ 64
    /\ make_instruction_data_from_tx env
         (MkTrxRaw (solana2ether env (contract_account (etx st))) 0 9999999 (10 ^ 9) nonce
            (trx_data (etx st)) 111)
         (secret_key (solana_wallet c))
       = Ok prepared.
Proof.
  unfold create_instruction_data_from_tx.
  outcome_cases (create_solana_ether_caller env c) st u e st1 E; try discriminate.
  destruct u.
  pose proof (create_solana_ether_caller_frame _ _ _ _ _ E) as (S1 & _ & _).
  destruct (same_request_fields _ _ S1) as (Hc & _ & Hd & _).
  rewrite bind_get_etx, bind_lift.
  destruct (_solana_ether_caller (etx st1)) as [caller|] eqn:Ecaller;
    cbn [require_key]; [|discriminate].
  outcome_cases (getTransactionCount env caller) st1 n e st2 En; try discriminate.
  pose proof (getTransactionCount_bound _ _ _ _ En) as Hn.
  destruct (getTransactionCount_run caller st1) as (r & w & Er & Hrun).
  rewrite Hrun in En.
  destruct r as [[d|]|e]; try discriminate.
  destruct (List.length (b64decode env d) <? 127)%nat eqn:El; [discriminate|].
  assert (Hcount : n = from_bytes (firstn 8 (skipn 22 (b64decode env d)))) by congruence.
  assert (Hst2 : st2 = MkState w (etx st1) (sent st1)) by congruence.
  unfold lift. intros [= H Hst']. subst st'.
  exists st1, caller, n, d.
  split; [reflexivity|]. split; [exact Ecaller|].
  split; [rewrite ?Hrun, Hcount, Hst2; reflexivity|].
  split; [rewrite Er, Hst2; reflexivity|].
  split; [exact Hcount|]. split; [exact Hn|].
  rewrite <- Hc, <- Hd. exact H.
Qed.

End Accounts.

Lemma create_instruction_data_from_tx_raw_witness :
  exists st1 caller nonce d,
    create_solana_ether_caller (Scripted.env 1) (Scripted.client (Scripted.env 1) SINGLE)
      (Scripted.start None [])
    = (Finished (Ok tt), st1)
    /\ _solana_ether_caller (etx st1) = Some caller
    /\ getTransactionCount (Scripted.env 1) caller st1
       = (Finished (Ok nonce),
          snd (create_instruction_data_from_tx (Scripted.env 1)
                 (Scripted.client (Scripted.env 1) SINGLE) (Scripted.start None [])))
    /\ rpc_get_account_info (Scripted.env 1) (world st1) caller
       = (Ok (Some d),
          world (snd (create_instruction_data_from_tx (Scripted.env 1)
                        (Scripted.client (Scripted.env 1) SINGLE)
                        (Scripted.start None []))))
    /\ nonce = from_bytes (firstn 8 (skipn 22 (b64decode (Scripted.env 1) d)))
    /\ 0 <= nonce < 2 ^ 64
    /\ make_instruction_data_from_tx (Scripted.env 1)
         (MkTrxRaw (solana2ether (Scripted.env 1)
                      (contract_account (etx (Scripted.start None ([] : Scripted.World)))))
            0 9999999 (10 ^ 9) nonce
            (trx_data (etx (Scripted.start None ([] : Scripted.World)))) 111)
         (secret_key (solana_wallet (Scripted.client (Scripted.env 1) SINGLE)))
       = Ok ([xc0], secret_key Scripted.wallet, [xda; x7a]).
Proof.
  apply (create_instruction_data_from_tx_raw (Scripted.env 1)
           (Scripted.client (Scripted.env 1) SINGLE) (Scripted.start None [])
           ([xc0], secret_key Scripted.wallet, [xda; x7a])
           (snd (create_instruction_data_from_tx (Scripted.env 1)
                   (Scripted.client (Scripted.env 1) SINGLE) (Scripted.start None [])))).
  reflexivity.
Defined.

(** ** Creating the caller's account *)

Lemma build_CREATE_ACCOUNT_LAYOUT_inv (ether : bytes) (nonce : Z) (layout : bytes) :
  build CREATE_ACCOUNT_LAYOUT (10 ^ 9, (0, (ether, (nonce, tt)))) = Ok layout ->
  List.length ether = 20%nat
  /\ 0 <= nonce < 256
  /\ layout = [x00; xca; x9a; x3b; x00; x00; x00; x00]
              ++ [x00; x00; x00; x00; x00; x00; x00; x00]
              ++ ether ++ [byte_of_Z nonce].
Proof.
  unfold build, CREATE_ACCOUNT_LAYOUT, Renamed, Int64ul, Int8ul, StructField, StructEnd,
    FormatField, Bytes.
  cbn [c_build fst snd].
  change (to_bytes (10 ^ 9) 8) with (Ok [x00; xca; x9a; x3b; x00; x00; x00; x00]).
  change (to_bytes 0 8) with (Ok [x00; x00; x00; x00; x00; x00; x00; x00]).
  cbn [rbind].
  destruct (List.length ether =? 20)%nat eqn:El; [|discriminate].
  apply Nat.eqb_eq in El. cbn [rbind].
  unfold to_bytes. destruct ((0 <=? nonce) && (nonce <? 256 ^ Z.of_nat 1)) eqn:En;
    [|discriminate].
  apply andb_true_iff in En. destruct En as [E0 E1].
  apply Z.leb_le in E0. apply Z.ltb_lt in E1. change (256 ^ Z.of_nat 1) with 256 in E1.
  cbn [rbind le_digits]. intros [= <-].
  split; [exact El|]. split; [lia|]. reflexivity.
Qed.

Lemma build_CREATE_ACCOUNT_LAYOUT_ok (ether : bytes) (nonce : Z) :
  List.length ether = 20%nat -> 0 <= nonce < 256 ->
  build CREATE_ACCOUNT_LAYOUT (10 ^ 9, (0, (ether, (nonce, tt))))
  = Ok ([x00; xca; x9a; x3b; x00; x00; x00; x00]
        ++ [x00; x00; x00; x00; x00; x00; x00; x00]
        ++ ether ++ [byte_of_Z nonce]).
Proof.
  intros El Hn.
  unfold build, CREATE_ACCOUNT_LAYOUT, Renamed, Int64ul, Int8ul, StructField, StructEnd,
    FormatField, Bytes.
  cbn [c_build fst snd].
  change (to_bytes (10 ^ 9) 8) with (Ok [x00; xca; x9a; x3b; x00; x00; x00; x00]).
  change (to_bytes 0 8) with (Ok [x00; x00; x00; x00; x00; x00; x00; x00]).
  cbn [rbind]. rewrite El, Nat.eqb_refl. cbn [rbind].
  rewrite (to_bytes_ok nonce 1) by (change (256 ^ Z.of_nat 1) with 256; lia).
  cbn [rbind le_digits]. now rewrite app_nil_r.
Qed.

Section Loader.

Context {World : Type} (env : Collaborators World).

Implicit Types (st : state World) (loader : EvmLoader).

(** X4.  [createEtherAccount] submits at most one transaction.  When it
    submits one, the address oracle, asked in the world the call starts
    from about the loader id and the normalised hex of the address, has
    answered with the account and the nonce the transaction carries; the
    address given was 20 bytes of hex and that nonce is a byte; the
    transaction is signed by the loader's account and is the single
    create-account instruction: opcode 02 00 00 00, 10^9 lamports and space
    0 as 8 little-endian bytes each, the 20 address bytes, the nonce; its
    accounts are the funder (signer, read-only), the account the oracle
    named and its token account (writable), the system program, the token
    mint, the token program, the associated-token program and the rent
    sysvar; the gateway is handed this transaction in the world the oracle
    left, and the call returns the oracle's account if the gateway
    confirms and raises the gateway's exception otherwise.  In every other
    case it raises and submits nothing. *)
Theorem createEtherAccount_submits loader ether st o st' :
  createEtherAccount env loader ether st = (o, st') ->
  etx st' = etx st
  /\ ((sent st' = sent st /\ forall sol, o <> Finished (Ok sol))
      \/ exists address sol nonce w1 r,
           let trx :=
             MkTransaction
               [MkTransactionInstruction (create_keys env loader sol false)
                  (PublicKey_of_str env (loader_id loader))
                  ([x02; x00; x00; x00]
                   ++ [x00; xca; x9a; x3b; x00; x00; x00; x00]
                   ++ [x00; x00; x00; x00; x00; x00; x00; x00]
                   ++ address ++ [byte_of_Z nonce])] in
           neon_cli_create_program_address env (world st) (loader_id loader)
             (ether_hex (EtherStr (ether_hex ether)))
           = (Ok (sol, nonce), w1)
           /\ fromhex (ether_hex ether) = Ok address
           /\ List.length address = 20%nat
           /\ 0 <= nonce < 256
           /\ sent st' = sent st ++ [(trx, get_acc (loader_acc loader))]
           /\ rpc_send_transaction env w1 trx (get_acc (loader_acc loader)) = (r, world st')
           /\ o = Finished (rbind r (fun _ => Ok sol))
           /\ forall v, o = Finished (Ok v) -> v = sol).
Proof.
  unfold createEtherAccount, ether2program.
  destruct (call_spec
              (fun w => neon_cli_create_program_address env w (loader_id loader)
                          (ether_hex (EtherStr (ether_hex ether)))) st)
    as (p & w1 & Ep & Ec).
  destruct p as [[sol nonce]|e];
    [ rewrite (bind_Ok _ _ _ _ _ Ec)
    | rewrite (bind_Raise _ _ _ _ _ Ec); intros [= <- <-]; split; [reflexivity|];
      left; split; [reflexivity | discriminate] ].
  rewrite bind_lift.
  destruct (fromhex (ether_hex ether)) as [address|e];
    [| intros [= <- <-]; split; [reflexivity|]; left; split; [reflexivity | discriminate] ].
  rewrite bind_lift.
  destruct (build CREATE_ACCOUNT_LAYOUT (10 ^ 9, (0, (address, (nonce, tt)))))
    as [layout|e] eqn:Eb;
    [| intros [= <- <-]; split; [reflexivity|]; left; split; [reflexivity | discriminate] ].
  apply build_CREATE_ACCOUNT_LAYOUT_inv in Eb. destruct Eb as (Hl & Hn & ->).
  match goal with
  | |- context [send_transaction env ?t ?a] =>
      destruct (send_transaction_spec env t a (MkState w1 (etx st) (sent st)))
        as (r & w & Er & Es)
  end.
  cbn [world] in Er.
  destruct r as [response|e].
  - rewrite (bind_Ok _ _ _ _ _ Es). intros [= <- <-]. cbn [etx sent world].
    split; [reflexivity|]. right. exists address, sol, nonce, w1, (Ok response).
    split; [exact Ep|]. split; [reflexivity|]. split; [exact Hl|]. split; [exact Hn|].
    split; [reflexivity|]. split; [exact Er|].
    split; [reflexivity | now intros v [= <-]].
  - rewrite (bind_Raise _ _ _ _ _ Es). intros [= <- <-]. cbn [etx sent world].
    split; [reflexivity|]. right. exists address, sol, nonce, w1, (Raise e).
    split; [exact Ep|]. split; [reflexivity|]. split; [exact Hl|]. split; [exact Hn|].
    split; [reflexivity|]. split; [exact Er|].
    split; [reflexivity | discriminate].
Qed.

(** X5.  For an address given as 20 raw bytes, a byte-sized nonce from the
    oracle and whatever the gateway answers: the oracle is asked about the
    hex form of the address, one transaction carrying the address bytes is
    submitted, and the call returns the account the oracle named if the
    gateway confirmed, and raises the gateway's exception otherwise. *)
Theorem createEtherAccount_bytes loader (address : bytes) st sol nonce w1 r w2 :
  List.length address = 20%nat ->
  0 <= nonce < 256 ->
  neon_cli_create_program_address env (world st) (loader_id loader) (hex address)
  = (Ok (sol, nonce), w1) ->
  rpc_send_transaction env w1
    (MkTransaction
       [MkTransactionInstruction (create_keys env loader sol false)
          (PublicKey_of_str env (loader_id loader))
          ([x02; x00; x00; x00]
           ++ [x00; xca; x9a; x3b; x00; x00; x00; x00]
           ++ [x00; x00; x00; x00; x00; x00; x00; x00]
           ++ address ++ [byte_of_Z nonce])])
    (get_acc (loader_acc loader))
  = (r, w2) ->
  createEtherAccount env loader (EtherBytes address) st
  = (Finished (rbind r (fun _ => Ok sol)),
     MkState w2 (etx st)
       (sent st
        ++ [(MkTransaction
               [MkTransactionInstruction (create_keys env loader sol false)
                  (PublicKey_of_str env (loader_id loader))
                  ([x02; x00; x00; x00]
                   ++ [x00; xca; x9a; x3b; x00; x00; x00; x00]
                   ++ [x00; x00; x00; x00; x00; x00; x00; x00]
                   ++ address ++ [byte_of_Z nonce])],
             get_acc (loader_acc loader))])).
Proof.
  intros Hl Hn Ho Hs. unfold createEtherAccount, ether2program.
  change (ether_hex (EtherBytes address)) with (hex address). cbv zeta.
  rewrite ether_hex_bytes.
  destruct (call_spec (fun w => neon_cli_create_program_address env w (loader_id loader)
                                  (hex address)) st) as (p & w & Ep & Ec).
  rewrite Ho in Ep. injection Ep as <- <-.
  rewrite (bind_Ok _ _ _ _ _ Ec), bind_lift, fromhex_hex, bind_lift.
  rewrite (build_CREATE_ACCOUNT_LAYOUT_ok address nonce Hl Hn).
  match goal with
  | |- context [send_transaction env ?t ?a] =>
      destruct (send_transaction_spec env t a (MkState w1 (etx st) (sent st)))
        as (r' & w' & Er & Es)
  end.
  cbn [world] in Er. unfold create_keys in Hs.
  change (add Transaction_new ?i) with (MkTransaction [i]) in Er.
  rewrite Hs in Er. injection Er as <- <-.
  destruct r as [response|e].
  - now rewrite (bind_Ok _ _ _ _ _ Es).
  - now rewrite (bind_Raise _ _ _ _ _ Es).
Qed.

(** X6.  [createEtherAccountTrx] submits nothing and leaves the transaction
    object alone.  With a code account it builds what it builds without
    one, the code account (writable) put in as fourth account; and
    [createEtherAccount], run from the same state, submits that very
    instruction with the funder marked read-only. *)
Theorem createEtherAccountTrx_spec loader ether st o st' :
  createEtherAccountTrx env loader ether None st = (o, st') ->
  etx st' = etx st
  /\ sent st' = sent st
  /\ forall trx sol,
       o = Finished (Ok (trx, sol)) ->
       exists i,
         instructions trx = [i]
         /\ keys i = create_keys env loader sol true
         /\ (forall code,
               createEtherAccountTrx env loader ether (Some code) st
               = (Finished
                    (Ok (MkTransaction
                           [MkTransactionInstruction
                              (firstn 3 (keys i) ++ MkAccountMeta code false true
                                                    :: skipn 3 (keys i))
                              (program_id i) (data i)],
                         sol)),
                  st'))
         /\ exists (r : result RPCResponse) w,
              createEtherAccount env loader ether st
              = (Finished (rbind r (fun _ => Ok sol)),
                 MkState w (etx st)
                   (sent st
                    ++ [(MkTransaction
                           [MkTransactionInstruction (create_keys env loader sol false)
                              (program_id i) (data i)],
                         get_acc (loader_acc loader))])).
Proof.
  unfold createEtherAccountTrx, createEtherAccount.
  outcome_cases (ether2program env loader (EtherStr (ether_hex ether))) st p e st1 E;
    pose proof (ether2program_frame _ _ _ _ _ _ E) as [E1 E2];
    try (intros [= <- <-]; split; [exact E1|]; split; [exact E2 | discriminate]).
  destruct p as [sol nonce]. rewrite !bind_lift.
  destruct (fromhex (ether_hex ether)) as [address|e];
    [| intros [= <- <-]; split; [exact E1|]; split; [exact E2 | discriminate] ].
  rewrite !bind_lift.
  destruct (build CREATE_ACCOUNT_LAYOUT (10 ^ 9, (0, (address, (nonce, tt)))))
    as [layout|e] eqn:Eb;
    [| intros [= <- <-]; split; [exact E1|]; split; [exact E2 | discriminate] ].
  unfold ret. intros [= <- <-]. split; [exact E1|]. split; [exact E2|].
  intros trx sol' [= <- <-]. eexists. split; [reflexivity|]. split; [reflexivity|].
  split; [intros code; rewrite (bind_Ok _ _ _ _ _ E), !bind_lift, Eb; reflexivity|].
  rewrite (bind_Ok _ _ _ _ _ E), !bind_lift, Eb.
  match goal with
  | |- context [send_transaction env ?t ?a] =>
      destruct (send_transaction_spec env t a st1) as (r & w & _ & Es)
  end.
  exists r, w. rewrite <- E1, <- E2.
  destruct r as [response|e].
  - now rewrite (bind_Ok _ _ _ _ _ Es).
  - now rewrite (bind_Raise _ _ _ _ _ Es).
Qed.

End Loader.

Lemma createEtherAccount_submits_witness :
  etx (snd (createEtherAccount (Scripted.env 0) Scripted.loader
              (EtherBytes (repeat xab 20)) (Scripted.start None [])))
  = etx (Scripted.start None ([] : Scripted.World))
  /\ ((sent (snd (createEtherAccount (Scripted.env 0) Scripted.loader
              (EtherBytes (repeat xab 20)) (Scripted.start None [])))
       = sent (Scripted.start None ([] : Scripted.World))
       /\ forall sol, fst (createEtherAccount (Scripted.env 0) Scripted.loader
              (EtherBytes (repeat xab 20)) (Scripted.start None [])) <> Finished (Ok sol))
      \/ exists address sol nonce w1 r,
           let trx :=
             MkTransaction
               [MkTransactionInstruction
                  (create_keys (Scripted.env 0) Scripted.loader sol false)
                  (PublicKey_of_str (Scripted.env 0) (loader_id Scripted.loader))
                  ([x02; x00; x00; x00]
                   ++ [x00; xca; x9a; x3b; x00; x00; x00; x00]
                   ++ [x00; x00; x00; x00; x00; x00; x00; x00]
                   ++ address ++ [byte_of_Z nonce])] in
           neon_cli_create_program_address (Scripted.env 0)
             (world (Scripted.start None ([] : Scripted.World)))
             (loader_id Scripted.loader)
             (ether_hex (EtherStr (ether_hex (EtherBytes (repeat xab 20)))))
           = (Ok (sol, nonce), w1)
           /\ fromhex (ether_hex (EtherBytes (repeat xab 20))) = Ok address
           /\ List.length address = 20%nat
           /\ 0 <= nonce < 256
           /\ sent (snd (createEtherAccount (Scripted.env 0) Scripted.loader
              (EtherBytes (repeat xab 20)) (Scripted.start None [])))
              = sent (Scripted.start None ([] : Scripted.World))
                ++ [(trx, get_acc (loader_acc Scripted.loader))]
           /\ rpc_send_transaction (Scripted.env 0) w1 trx
                (get_acc (loader_acc Scripted.loader))
              = (r, world (snd (createEtherAccount (Scripted.env 0) Scripted.loader
              (EtherBytes (repeat xab 20)) (Scripted.start None []))))
           /\ fst (createEtherAccount (Scripted.env 0) Scripted.loader
              (EtherBytes (repeat xab 20)) (Scripted.start None [])) = Finished (rbind r (fun _ => Ok sol))
           /\ forall v, fst (createEtherAccount (Scripted.env 0) Scripted.loader
              (EtherBytes (repeat xab 20)) (Scripted.start None [])) = Finished (Ok v) -> v = sol).
Proof.
  apply (createEtherAccount_submits (Scripted.env 0) Scripted.loader
           (EtherBytes (repeat xab 20)) (Scripted.start None [])).
  apply surjective_pairing.
Defined.

Lemma createEtherAccount_bytes_witness :
  createEtherAccount (Scripted.env 0) Scripted.loader (EtherBytes (repeat xab 20))
    (Scripted.start None [Raise (ExternalError "RuntimeError")])
  = (Finished (rbind (Raise (ExternalError "RuntimeError") : result RPCResponse)
                 (fun _ => Ok (list_byte_of_string (hex (repeat xab 20))))),
     MkState [] (etx (Scripted.start None ([] : Scripted.World)))
       (sent (Scripted.start None ([] : Scripted.World))
        ++ [(MkTransaction
               [MkTransactionInstruction
                  (create_keys (Scripted.env 0) Scripted.loader
                     (list_byte_of_string (hex (repeat xab 20))) false)
                  (PublicKey_of_str (Scripted.env 0) (loader_id Scripted.loader))
                  ([x02; x00; x00; x00]
                   ++ [x00; xca; x9a; x3b; x00; x00; x00; x00]
                   ++ [x00; x00; x00; x00; x00; x00; x00; x00]
                   ++ repeat xab 20 ++ [byte_of_Z 255])],
             get_acc (loader_acc Scripted.loader))])).
Proof.
  apply (createEtherAccount_bytes (Scripted.env 0) Scripted.loader (repeat xab 20)
           (Scripted.start None [Raise (ExternalError "RuntimeError")])
           (list_byte_of_string (hex (repeat xab 20))) 255
           [Raise (ExternalError "RuntimeError")]
           (Raise (ExternalError "RuntimeError")) []);
    [reflexivity | lia | reflexivity | reflexivity].
Defined.

Lemma createEtherAccountTrx_spec_witness :
  etx (snd (createEtherAccountTrx (Scripted.env 0) Scripted.loader
              (EtherStr "0xabababababababababababababababababababab") None
              (Scripted.start None [])))
  = etx (Scripted.start None ([] : Scripted.World))
  /\ sent (snd (createEtherAccountTrx (Scripted.env 0) Scripted.loader
                  (EtherStr "0xabababababababababababababababababababab") None
                  (Scripted.start None [])))
     = sent (Scripted.start None ([] : Scripted.World))
  /\ forall trx sol,
       fst (createEtherAccountTrx (Scripted.env 0) Scripted.loader
              (EtherStr "0xabababababababababababababababababababab") None
              (Scripted.start None []))
       = Finished (Ok (trx, sol)) ->
       exists i,
         instructions trx = [i]
         /\ keys i = create_keys (Scripted.env 0) Scripted.loader sol true
         /\ (forall code,
               createEtherAccountTrx (Scripted.env 0) Scripted.loader
                 (EtherStr "0xabababababababababababababababababababab") (Some code)
                 (Scripted.start None [])
               = (Finished
                    (Ok (MkTransaction
                           [MkTransactionInstruction
                              (firstn 3 (keys i) ++ MkAccountMeta code false true
                                                    :: skipn 3 (keys i))
                              (program_id i) (data i)],
                         sol)),
                  snd (createEtherAccountTrx (Scripted.env 0) Scripted.loader
                         (EtherStr "0xabababababababababababababababababababab") None
                         (Scripted.start None []))))
         /\ exists (r : result RPCResponse) w,
              createEtherAccount (Scripted.env 0) Scripted.loader
                (EtherStr "0xabababababababababababababababababababab")
                (Scripted.start None [])
              = (Finished (rbind r (fun _ => Ok sol)),
                 MkState w (etx (Scripted.start None ([] : Scripted.World)))
                   (sent (Scripted.start None ([] : Scripted.World))
                    ++ [(MkTransaction
                           [MkTransactionInstruction
                              (create_keys (Scripted.env 0) Scripted.loader sol false)
                              (program_id i) (data i)],
                         get_acc (loader_acc Scripted.loader))])).
Proof.
  apply (createEtherAccountTrx_spec (Scripted.env 0) Scripted.loader
           (EtherStr "0xabababababababababababababababababababab")
           (Scripted.start None [])).
  apply surjective_pairing.
Defined.

(** ** Resolving accounts *)

Lemma key_eqb_eq (a b : PublicKey) : key_eqb a b = true -> a = b.
Proof.
  unfold key_eqb. destruct (list_eq_dec Byte.byte_eq_dec a b); [trivial | discriminate].
Qed.

Lemma set_solana_ether_caller_same (tx : EthereumTransaction) (k : PublicKey) :
  _solana_ether_caller tx = Some k -> set_solana_ether_caller (Some k) tx = tx.
Proof. destruct tx. cbn. now intros ->. Qed.

Section Resolve.

Context {World : Type} (env : Collaborators World).

Implicit Types (st : state World) (c : NeonEvmClient).

(** X7.  When the account the oracle names for the caller holds a balance,
    resolving the caller submits nothing and transfers no tokens: the call
    returns after the oracle and the balance query, with that account cached
    on the transaction, whatever was cached before. *)
Theorem caller_already_funded c st caller nonce w1 balance w2 :
  neon_cli_create_program_address env (world st) (loader_id (evm_loader c))
    (ether_hex (ether_caller (etx st))) = (Ok (caller, nonce), w1) ->
  rpc_get_balance env w1 caller = (Ok balance, w2) ->
  balance <> 0 ->
  create_solana_ether_caller env c st
  = (Finished (Ok tt),
     MkState w2 (set_solana_ether_caller (Some caller) (etx st)) (sent st)).
Proof.
  intros Ho Hb Hz. unfold create_solana_ether_caller. rewrite bind_get_etx.
  unfold ether2program.
  destruct (call_spec (fun w => neon_cli_create_program_address env w
                                  (loader_id (evm_loader c))
                                  (ether_hex (ether_caller (etx st)))) st)
    as (p & w & Ep & Ec).
  rewrite Ho in Ep. injection Ep as <- <-.
  rewrite (bind_Ok _ _ _ _ _ Ec).
  set (st1 := MkState w1 (etx st) (sent st)).
  assert (Hstep : forall B (k : unit -> M World B),
             bind (if match _solana_ether_caller (etx st) with
                      | None => true
                      | Some current => negb (key_eqb current caller)
                      end
                   then put_etx (set_solana_ether_caller (Some caller) (etx st))
                   else ret tt) k st1
             = k tt (MkState w1 (set_solana_ether_caller (Some caller) (etx st)) (sent st))).
  { intros B k. subst st1.
    destruct (_solana_ether_caller (etx st)) as [current|] eqn:Hc; [|reflexivity].
    destruct (key_eqb current caller) eqn:Hk; cbn [negb]; [|reflexivity].
    apply key_eqb_eq in Hk. subst current.
    now rewrite bind_ret, (set_solana_ether_caller_same _ _ Hc). }
  rewrite Hstep, bind_get_etx, bind_lift.
  cbn [etx]. replace (_solana_ether_caller (set_solana_ether_caller (Some caller) (etx st)))
    with (Some caller) by now destruct (etx st).
  cbn [require_key]. unfold getBalance.
  destruct (call_spec (fun w => rpc_get_balance env w caller)
              (MkState w1 (set_solana_ether_caller (Some caller) (etx st)) (sent st)))
    as (b & w & Eb & Eg).
  cbn [world] in Eb. rewrite Hb in Eb. injection Eb as <- <-.
  rewrite (bind_Ok _ _ _ _ _ Eg).
  apply Z.eqb_neq in Hz. rewrite Hz. reflexivity.
Qed.

(** X20.  When the account the oracle names for the caller holds nothing,
    and every step goes through (the address is 20 bytes of hex, the oracle
    answers again, the gateway confirms, spl-token succeeds), resolving the
    caller submits the one create-account transaction, signed by the
    loader's account, then transfers 2000 tokens to the token account of
    the account first named, and caches the account that
    [createEtherAccount] returned. *)
Theorem caller_created c st caller n1 w1 w2 address sol n2 w3 response w4 w5 :
  neon_cli_create_program_address env (world st) (loader_id (evm_loader c))
    (ether_hex (ether_caller (etx st))) = (Ok (caller, n1), w1) ->
  rpc_get_balance env w1 caller = (Ok 0, w2) ->
  neon_cli_create_program_address env w2 (loader_id (evm_loader c))
    (ether_hex (EtherStr (ether_hex (ether_caller (etx st))))) = (Ok (sol, n2), w3) ->
  fromhex (ether_hex (ether_caller (etx st))) = Ok address ->
  List.length address = 20%nat ->
  0 <= n2 < 256 ->
  rpc_send_transaction env w3
    (MkTransaction
       [MkTransactionInstruction (create_keys env (evm_loader c) sol false)
          (PublicKey_of_str env (loader_id (evm_loader c)))
          ([x02; x00; x00; x00]
           ++ [x00; xca; x9a; x3b; x00; x00; x00; x00]
           ++ [x00; x00; x00; x00; x00; x00; x00; x00]
           ++ address ++ [byte_of_Z n2])])
    (get_acc (loader_acc (evm_loader c)))
  = (Ok response, w4) ->
  spl_token_transfer env w4 (ETH_TOKEN_MINT_ID env) 2000
    (get_associated_token_address env caller (ETH_TOKEN_MINT_ID env)) = (Ok tt, w5) ->
  create_solana_ether_caller env c st
  = (Finished (Ok tt),
     MkState w5 (set_solana_ether_caller (Some sol) (etx st))
       (sent st
        ++ [(MkTransaction
               [MkTransactionInstruction (create_keys env (evm_loader c) sol false)
                  (PublicKey_of_str env (loader_id (evm_loader c)))
                  ([x02; x00; x00; x00]
                   ++ [x00; xca; x9a; x3b; x00; x00; x00; x00]
                   ++ [x00; x00; x00; x00; x00; x00; x00; x00]
                   ++ address ++ [byte_of_Z n2])],
             get_acc (loader_acc (evm_loader c)))])).
Proof.
  intros Ho Hb Ho2 Hhex Hlen Hn Hsend Htok.
  unfold create_solana_ether_caller. rewrite bind_get_etx. unfold ether2program at 1.
  destruct (call_spec (fun w => neon_cli_create_program_address env w
                                  (loader_id (evm_loader c))
                                  (ether_hex (ether_caller (etx st)))) st)
    as (p & w & Ep & Ec).
  rewrite Ho in Ep. injection Ep as <- <-.
  rewrite (bind_Ok _ _ _ _ _ Ec).
  set (st1 := MkState w1 (etx st) (sent st)).
  assert (Hstep : forall B (k : unit -> M World B),
             bind (if match _solana_ether_caller (etx st) with
                      | None => true
                      | Some current => negb (key_eqb current caller)
                      end
                   then put_etx (set_solana_ether_caller (Some caller) (etx st))
                   else ret tt) k st1
             = k tt (MkState w1 (set_solana_ether_caller (Some caller) (etx st)) (sent st))).
  { intros B k. subst st1.
    destruct (_solana_ether_caller (etx st)) as [current|] eqn:Hc; [|reflexivity].
    destruct (key_eqb current caller) eqn:Hk; cbn [negb]; [|reflexivity].
    apply key_eqb_eq in Hk. subst current.
    now rewrite bind_ret, (set_solana_ether_caller_same _ _ Hc). }
  rewrite Hstep, bind_get_etx, bind_lift.
  cbn [etx]. replace (_solana_ether_caller (set_solana_ether_caller (Some caller) (etx st)))
    with (Some caller) by now destruct (etx st).
  cbn [require_key]. unfold getBalance.
  destruct (call_spec (fun w => rpc_get_balance env w caller)
              (MkState w1 (set_solana_ether_caller (Some caller) (etx st)) (sent st)))
    as (b & w & Eb & Eg).
  cbn [world] in Eb. rewrite Hb in Eb. injection Eb as <- <-.
  rewrite (bind_Ok _ _ _ _ _ Eg). cbn [Z.eqb etx world sent].
  replace (ether_caller (set_solana_ether_caller (Some caller) (etx st)))
    with (ether_caller (etx st)) by now destruct (etx st).
  assert (Hcreate :
            createEtherAccount env (evm_loader c) (ether_caller (etx st))
              (MkState w2 (set_solana_ether_caller (Some caller) (etx st)) (sent st))
            = (Finished (Ok sol),
               MkState w4 (set_solana_ether_caller (Some caller) (etx st))
                 (sent st
                  ++ [(MkTransaction
                         [MkTransactionInstruction (create_keys env (evm_loader c) sol false)
                            (PublicKey_of_str env (loader_id (evm_loader c)))
                            ([x02; x00; x00; x00]
                             ++ [x00; xca; x9a; x3b; x00; x00; x00; x00]
                             ++ [x00; x00; x00; x00; x00; x00; x00; x00]
                             ++ address ++ [byte_of_Z n2])],
                       get_acc (loader_acc (evm_loader c)))]))).
  { unfold createEtherAccount, ether2program.
    destruct (call_spec (fun w => neon_cli_create_program_address env w
                                    (loader_id (evm_loader c))
                                    (ether_hex (EtherStr (ether_hex (ether_caller (etx st))))))
                (MkState w2 (set_solana_ether_caller (Some caller) (etx st)) (sent st)))
      as (p & w & Ep & Ec2).
    cbn [world] in Ep. rewrite Ho2 in Ep. injection Ep as <- <-.
    rewrite (bind_Ok _ _ _ _ _ Ec2), bind_lift, Hhex, bind_lift.
    rewrite (build_CREATE_ACCOUNT_LAYOUT_ok address n2 Hlen Hn).
    match goal with
    | |- context [send_transaction env ?t ?a] =>
        destruct (send_transaction_spec env t a
                    (MkState w3 (set_solana_ether_caller (Some caller) (etx st)) (sent st)))
          as (r' & w' & Er & Es)
    end.
    cbn [world] in Er. unfold create_keys in Hsend.
    change (add Transaction_new ?i) with (MkTransaction [i]) in Er.
    rewrite Hsend in Er. injection Er as <- <-.
    now rewrite (bind_Ok _ _ _ _ _ Es). }
  rewrite (bind_Ok _ _ _ _ _ Hcreate), bind_get_etx, bind_put_etx.
  cbn [etx world sent]. unfold call. cbn [world]. rewrite Htok. cbn [etx sent].
  now destruct (etx st).
Qed.

Lemma createEtherAccount_trace loader ether st o st' :
  createEtherAccount env loader ether st = (o, st') ->
  etx st' = etx st
  /\ (sent st' = sent st
      \/ exists t, sent st' = sent st ++ [(t, get_acc (loader_acc loader))]
                   /\ creates_caller_account t).
Proof.
  unfold createEtherAccount.
  outcome_cases (ether2program env loader (EtherStr (ether_hex ether))) st p e st1 E;
    apply ether2program_frame in E; destruct E as [E1 E2];
    try (intros [= <- <-]; split; [exact E1 | now left]).
  destruct p as [sol nonce]. rewrite bind_lift.
  destruct (fromhex (ether_hex ether)) as [address|e];
    [| intros [= <- <-]; split; [exact E1 | now left] ].
  rewrite bind_lift.
  destruct (build CREATE_ACCOUNT_LAYOUT _) as [layout|e];
    [| intros [= <- <-]; split; [exact E1 | now left] ].
  match goal with
  | |- context [send_transaction env ?t ?a] =>
      outcome_cases (send_transaction env t a) st1 r e st2 E;
        apply send_transaction_frame in E; destruct E as [E3 E4];
        intros [= <- <-];
        (split; [congruence|]); right; exists t;
        (split; [congruence | eexists; split; reflexivity])
  end.
Qed.

(** X8.  Resolving the caller submits at most one transaction; if it does,
    that is a create-account transaction signed by the loader's own account,
    not by the wallet.  When it succeeds a caller account is cached. *)
Theorem caller_resolution_trace c st o st' :
  create_solana_ether_caller env c st = (o, st') ->
  (sent st' = sent st
   \/ exists t, sent st' = sent st ++ [(t, get_acc (loader_acc (evm_loader c)))]
                /\ creates_caller_account t)
  /\ (o = Finished (Ok tt) -> exists k, _solana_ether_caller (etx st') = Some k).
Proof.
  intros Hrun.
  split; [|now apply (create_solana_ether_caller_frame env c st o st' Hrun)].
  revert Hrun. unfold create_solana_ether_caller. rewrite bind_get_etx.
  outcome_cases (ether2program env (evm_loader c) (ether_caller (etx st))) st p e st1 E;
    apply ether2program_frame in E; destruct E as [E1 E2];
    try (intros [= <- <-]; now left).
  destruct p as [caller nonce].
  match goal with
  | |- context [bind (if ?b then ?x else ?y)] =>
      assert (Hstep : exists st2, sent st2 = sent st
                                  /\ forall B (k : unit -> M World B),
                                       bind (if b then x else y) k st1 = k tt st2)
        by (destruct b; eexists; (split; [|intros; reflexivity]); cbn; congruence)
  end.
  destruct Hstep as (st2 & T2 & ->). rewrite bind_get_etx, bind_lift.
  destruct (require_key (_solana_ether_caller (etx st2))) as [current|e];
    [| intros [= <- <-]; now left ].
  outcome_cases (getBalance env current) st2 balance e st3 E;
    apply getBalance_frame in E; destruct E as [E3 E4];
    try (intros [= <- <-]; left; congruence).
  destruct (balance =? 0); [|intros [= <- <-]; left; congruence].
  outcome_cases (createEtherAccount env (evm_loader c) (ether_caller (etx st2)))
    st3 created e st4 E;
    apply createEtherAccount_trace in E; destruct E as [E5 E6];
    assert (E6' : sent st4 = sent st
                  \/ exists t, sent st4 = sent st ++ [(t, get_acc (loader_acc (evm_loader c)))]
                               /\ creates_caller_account t)
      by (destruct E6 as [E6 | (t & E6 & Ht)];
          [left; congruence | right; exists t; split; [congruence | exact Ht]]);
    try (intros [= <- <-]; exact E6').
  rewrite bind_get_etx, bind_put_etx. intros H.
  match type of H with call ?f ?s = _ => pose proof (call_frame f s _ _ H) as [_ E8] end.
  cbn [sent] in E8. now rewrite E8.
Qed.

(** X9.  A client as the module constructs it always holds the same
    collateral pool: the address is the hash of the pool base key, the seed
    [collateral_seed_2] and the constant [EVM_LOADER], whatever wallet and
    loader the client was made for, and the index buffer is 02 00 00 00;
    [set_execute_mode] changes neither. *)
Theorem collateral_pool_constant c :
  constructed env c ->
  collateral_pool_address c
  = sha256 env (b58decode env collateral_pool_base
                ++ list_byte_of_string "collateral_seed_2"
                ++ b58decode env EVM_LOADER)
  /\ collateral_pool_index_buf c = [x02; x00; x00; x00].
Proof.
  induction 1 as [wallet loader c H | c v c' _ IH H].
  - rewrite NeonEvmClient_init_ok in H. injection H as <-. now split.
  - unfold set_execute_mode in H.
    destruct (ExecuteMode_of_value v); cbn [rbind] in H; [|discriminate].
    injection H as <-. exact IH.
Qed.

(** X10.  [solana2ether] gives the last 20 bytes of the hash of the key,
    when the hash has at least 20 bytes. *)
Theorem solana2ether_suffix (key : PublicKey) :
  (20 <= List.length (keccak env (bytes_of_key key)))%nat ->
  List.length (solana2ether env key) = 20%nat
  /\ exists front, keccak env (bytes_of_key key) = front ++ solana2ether env key.
Proof.
  intros Hl. unfold solana2ether. split.
  - rewrite length_skipn. lia.
  - eexists. symmetry. apply firstn_skipn.
Qed.

(** X11.  For a client whose loader id is the constant [EVM_LOADER], the
    account that the create-with-seed transaction of
    [__create_storage_account] creates is the storage account the call
    returns: when the call returns [k] it has either submitted nothing or
    one transaction, signed by the wallet, whose instruction names the
    wallet as funder and base and [k] as the account to create. *)
Theorem storage_creation_target c seed st k st' :
  loader_id (evm_loader c) = EVM_LOADER ->
  create_storage_account env c seed st = (Finished (Ok k), st') ->
  sent st' = sent st
  \/ exists i,
       sent st' = sent st ++ [(MkTransaction [i], solana_wallet c)]
       /\ keys i = [ MkAccountMeta (public_key (solana_wallet c)) true true;
                     MkAccountMeta k false true;
                     MkAccountMeta (public_key (solana_wallet c)) true false ].
Proof.
  intros Hid Hrun.
  destruct (create_storage_account_spec env c seed st) as (b & w & _ & H).
  assert (Hk : forall k', create_storage_account env c seed st = (Finished (Ok k'), st') ->
                          k' = storage_address env c seed).
  { intros k' Hk'. now apply (create_storage_account_frame env c seed st _ st' Hk'). }
  pose proof (Hk k Hrun) as ->.
  destruct b as [balance|e].
  - destruct (balance =? 0).
    + destruct H as (r & w' & _ & H). rewrite H in Hrun. injection Hrun as _ <-.
      right. eexists. split; [reflexivity|]. cbn [keys createAccountWithSeed].
      unfold accountWithSeed, storage_address. rewrite Hid. reflexivity.
    + rewrite H in Hrun. injection Hrun as <-. now left.
  - rewrite H in Hrun. discriminate.
Qed.

End Resolve.

(** ** More on runs *)

Section Runs.

Context {World : Type} (env : Collaborators World).

Implicit Types (st : state World) (c : NeonEvmClient).

(** X12.  When the gateway confirms the continue batch again and again,
    first with responses that lack the marker and then with one that has
    it, the loop, given enough turns, submits the batch once per response,
    returns the last response, and has nothing left to ask the gateway. *)
Theorem loop_returns_after_replies c i rs :
  forall st r w' fuel,
    sol_instr_10_continue env c (etx st) (iterative_steps (etx st)) = Ok i ->
    replies env (continue_batch (etx st) i) (solana_wallet c) (world st) (rs ++ [r]) w' ->
    Forall (fun x => lacks_marker (last_inner_data env x)) rs ->
    has_marker (last_inner_data env r) ->
    (List.length rs < fuel)%nat ->
    continue_loop env c fuel st
    = (Finished (Ok r),
       MkState w' (set_NeonEvmClient__storage None (etx st))
         (sent st ++ repeat (continue_batch (etx st) i, solana_wallet c)
                       (S (List.length rs)))).
Proof.
  induction rs as [|a rs IH]; intros st r w' fuel Hi Hr Hl Hm Hf.
  - cbn [app] in Hr. inversion Hr as [|w0 r0 w1 rs0 w2 Hs Hrest]; subst.
    inversion Hrest; subst.
    destruct fuel as [|fuel]; [cbn in Hf; lia|].
    destruct (continue_step_spec env c i st Hi) as (g & w & Eg & Es).
    unfold continue_batch in Hs. rewrite Hs in Eg. injection Eg as <- <-.
    apply finalized_marker in Hm. rewrite Hm in Es.
    cbn [continue_loop]. now rewrite (bind_Ok _ _ _ _ _ Es).
  - cbn [app] in Hr. inversion Hr as [|w0 r0 w1 rs0 w2 Hs Hrest]; subst.
    inversion Hl as [|x l Hla Hlrs]; subst.
    destruct fuel as [|fuel]; [cbn in Hf; lia|].
    destruct (continue_step_spec env c i st Hi) as (g & w & Eg & Es).
    unfold continue_batch in Hs. rewrite Hs in Eg. injection Eg as <- <-.
    apply finalized_lacks in Hla. rewrite Hla in Es.
    cbn [continue_loop]. rewrite (bind_Ok _ _ _ _ _ Es).
    rewrite (IH _ r w' fuel); try assumption; [| cbn [List.length] in Hf; lia].
    cbn [etx sent List.length repeat]. now rewrite <- app_assoc.
Qed.

(** X13.  A confirmed continue batch whose last inner instruction decodes
    to no data at all makes the run raise [IndexError], from [data[0]],
    right after that submission. *)
Theorem empty_inner_data_raises c i st response w :
  sol_instr_10_continue env c (etx st) (iterative_steps (etx st)) = Ok i ->
  rpc_send_transaction env (world st) (continue_batch (etx st) i) (solana_wallet c)
  = (Ok response, w) ->
  last_inner_data env response = Some [] ->
  forall fuel,
    continue_loop env c (S fuel) st
    = (Finished (Raise IndexError),
       MkState w (etx st) (sent st ++ [(continue_batch (etx st) i, solana_wallet c)])).
Proof.
  intros Hi Hs Hd fuel.
  destruct (continue_step_spec env c i st Hi) as (g & w0 & Eg & Es).
  unfold continue_batch in Hs. rewrite Hs in Eg. injection Eg as <- <-.
  pose proof (finalized_spec env response) as Hf. rewrite Hd in Hf. rewrite Hf in Es.
  cbn [continue_loop]. now rewrite (bind_Raise _ _ _ _ _ Es).
Qed.

(** X14.  The response to the keccak and partial-call batch is never looked
    at: a run that returns has submitted that batch and at least one
    continue batch after it, and what it returns carries the marker. *)
Theorem returned_run c fuel st r st' :
  send_ethereum_trx_iterative env c fuel st = (Finished (Ok r), st') ->
  has_marker (last_inner_data env r)
  /\ exists prepared st1 i9 i10 n,
       iterative_prepare env c st = (Finished (Ok prepared), st1)
       /\ (S n <= fuel)%nat
       /\ sent st'
          = sent st1
            ++ (first_batch env (etx st1) prepared i9, solana_wallet c)
               :: repeat (continue_batch (etx st1) i10, solana_wallet c) (S n).
Proof.
  unfold send_ethereum_trx_iterative.
  outcome_cases (iterative_prepare env c) st prepared e st1 E; try discriminate.
  pose proof (iterative_first_batch_spec env c prepared st1) as Hfb.
  destruct (sol_instr_09_partial_call env c (etx st1) (iterative_steps (etx st1))
              (payload prepared)) as [i9|e] eqn:E9.
  - destruct Hfb as (r0 & w & _ & Hfb).
    destruct (sol_instr_09_inv _ _ _ _ _ _ E9) as (i10 & E10 & _).
    destruct r0 as [response|e].
    + rewrite (bind_Ok _ _ _ _ _ Hfb). intros Hloop.
      apply (continue_loop_trace env c i10) in Hloop; [|exact E10].
      destruct Hloop as (n & Hs & Hn & H1 & _ & Hfin). cbn [sent etx] in Hs.
      split; [now apply finalized_marker|].
      destruct n as [|n]; [lia|].
      exists prepared, st1, i9, i10, n. split; [reflexivity|]. split; [exact Hn|].
      rewrite Hs, <- app_assoc. reflexivity.
    + rewrite (bind_Raise _ _ _ _ _ Hfb). discriminate.
  - rewrite (bind_Raise _ _ _ _ _ Hfb). discriminate.
Qed.

(** What the preparation of an iterative run does to the transaction
    object: the caller may be cached, and then either nothing more, or the
    storage account, until then [None], is set and the preparation
    succeeds. *)
Lemma iterative_prepare_request c st o st' :
  iterative_prepare env c st = (o, st') ->
  exists st1,
    same_request (etx st) (etx st1)
    /\ extends creates_caller_account st st1
    /\ ((etx st' = etx st1
         /\ extends (creates_storage_account env) st1 st'
         /\ (_storage (etx st1) = None -> forall x, o <> Finished (Ok x))
         /\ (forall s, _storage (etx st1) = Some s -> sent st' = sent st1))
        \/ (_storage (etx st1) = None
            /\ exists s x, etx st' = set_storage (Some s) (etx st1)
                           /\ o = Finished (Ok x))).
Proof.
  unfold iterative_prepare.
  outcome_cases (create_instruction_data_from_tx env c) st x e st1 E;
    apply create_instruction_data_from_tx_frame in E; destruct E as [S1 T1];
    try (intros [= <- <-]; exists st1; split; [exact S1|]; split; [exact T1|]; left;
         split; [reflexivity|]; split; [apply extends_refl|];
         split; [discriminate | reflexivity]).
  intros Hrun. exists st1. split; [exact S1|]. split; [exact T1|]. revert Hrun.
  destruct x as [[from_address sign] msg]. rewrite bind_get_etx.
  destruct (_storage (etx st1)) as [s1|] eqn:Hs1.
  - rewrite bind_ret. intros [= <- <-]. left.
    split; [reflexivity|]. split; [apply extends_refl|].
    split; [discriminate | reflexivity].
  - rewrite bind_assoc.
    outcome_cases (create_storage_account env c (hex (firstn 8 sign))) st1 storage e st2 E;
      apply create_storage_account_frame in E; destruct E as (E1 & T2 & _).
    + rewrite bind_assoc, bind_get_etx, bind_put_etx. intros [= <- <-]. right.
      split; [reflexivity|]. exists storage, (from_address, sign, msg). cbn [etx].
      now rewrite E1.
    + intros [= <- <-]. left. split; [exact E1|]. split; [exact T2|].
      split; [discriminate | discriminate].
    + intros [= <- <-]. left. split; [exact E1|]. split; [exact T2|].
      split; [discriminate | discriminate].
Qed.

(** X15.  A storage account that is already on the transaction object is
    kept: the preparation neither asks for a balance of a derived address
    nor submits a create-with-seed transaction.  Since a completed run
    leaves its storage account on the object, preparing the same object
    again, whatever its signature now is, reuses that account. *)
Theorem storage_reused_by_next_run c fuel st r st1 o st2 :
  send_ethereum_trx_iterative env c fuel st = (Finished (Ok r), st1) ->
  iterative_prepare env c st1 = (o, st2) ->
  exists s,
    _storage (etx st1) = Some s
    /\ _storage (etx st2) = Some s
    /\ extends creates_caller_account st1 st2.
Proof.
  intros Hrun Hprep.
  destruct (iterative_return_keeps_storage env c fuel st r st1 Hrun) as [(s & Hs) _].
  exists s. split; [exact Hs|].
  destruct (iterative_prepare_request c st1 o st2 Hprep) as (st' & S1 & T1 & H).
  pose proof (same_request_storage _ _ S1) as G1. rewrite Hs in G1.
  destruct H as [(He & _ & _ & Hsent) | (Hnone & _)]; [|congruence].
  split; [congruence|].
  destruct T1 as (l & El & Fl). exists l. split; [|exact Fl].
  rewrite (Hsent s G1). exact El.
Qed.

(** X16.  With a step budget that is negative or does not fit 64 bits, an
    iterative run whose preparation went through raises [OverflowError]
    without submitting any batch: the caller account, and the storage
    account, may have been created for nothing. *)
Theorem steps_out_of_range c st prepared st1 :
  iterative_steps (etx st) < 0 \/ 2 ^ 64 <= iterative_steps (etx st) ->
  iterative_prepare env c st = (Finished (Ok prepared), st1) ->
  forall fuel,
    send_ethereum_trx_iterative env c fuel st = (Finished (Raise OverflowError), st1).
Proof.
  intros Hsteps Hp fuel.
  rewrite (send_ethereum_trx_iterative_unfold env c fuel st prepared st1 Hp).
  assert (Hsame : iterative_steps (etx st1) = iterative_steps (etx st)).
  { destruct (iterative_prepare_request c st _ st1 Hp) as (st' & S1 & _ & H).
    destruct (same_request_fields _ _ S1) as (_ & _ & _ & Hst & _).
    destruct H as [(-> & _) | (_ & s & x & -> & _)]; exact Hst. }
  pose proof (iterative_first_batch_spec env c prepared st1) as Hfb.
  assert (H9 : sol_instr_09_partial_call env c (etx st1) (iterative_steps (etx st1))
                 (payload prepared) = Raise OverflowError).
  { unfold sol_instr_09_partial_call, to_bytes. rewrite Hsame.
    replace ((0 <=? iterative_steps (etx st))
             && (iterative_steps (etx st) <? 256 ^ Z.of_nat 8)) with false; [reflexivity|].
    symmetry. apply andb_false_iff. change (256 ^ Z.of_nat 8) with (2 ^ 64).
    destruct Hsteps; [left; apply Z.leb_gt | right; apply Z.ltb_ge]; lia. }
  rewrite H9 in Hfb. now rewrite (bind_Raise _ _ _ _ _ Hfb).
Qed.

(** X17.  A preparation that does not succeed never leaves a storage
    account on a transaction that had none: [_storage] is assigned only
    after the storage account is known to exist, so a gateway error while
    creating it leaves [_storage] at [None]. *)
Theorem failed_preparation_sets_no_storage c st o st' :
  _storage (etx st) = None ->
  iterative_prepare env c st = (o, st') ->
  (forall x, o <> Finished (Ok x)) ->
  _storage (etx st') = None.
Proof.
  intros Hnone Hp Hfail.
  destruct (iterative_prepare_request c st o st' Hp) as (st1 & S1 & _ & H).
  pose proof (same_request_storage _ _ S1) as G1. rewrite Hnone in G1.
  destruct H as [(-> & _) | (_ & s & x & _ & ->)]; [exact G1|].
  now destruct (Hfail x).
Qed.

(** X18.  The single-shot path submits its batch once and hands back what
    the gateway answered: a call that returns [r] has prepared the payload,
    built the call-from-raw-tx instruction, submitted the keccak and call
    batch as the last thing it did, and [r] is the gateway's response to
    that submission. *)
Theorem single_shot_returns c st r st' :
  send_ethereum_trx_single env c st = (Finished (Ok r), st') ->
  exists prepared st1 i5,
    create_instruction_data_from_tx env c st = (Finished (Ok prepared), st1)
    /\ sol_instr_05 env c (etx st1) (payload prepared) = Ok i5
    /\ rpc_send_transaction env (world st1) (single_batch env (etx st1) prepared i5)
         (solana_wallet c) = (Ok r, world st')
    /\ etx st' = etx st1
    /\ sent st' = sent st1 ++ [(single_batch env (etx st1) prepared i5, solana_wallet c)].
Proof.
  intros Hrun.
  destruct (create_instruction_data_from_tx env c st) as [[[prepared|e]|] st1] eqn:E;
    try (unfold send_ethereum_trx_single in Hrun;
         first [ rewrite (bind_Raise _ _ _ _ _ E) in Hrun
               | rewrite (bind_OutOfFuel _ _ _ _ E) in Hrun ];
         discriminate).
  destruct (sol_instr_05 env c (etx st1) (payload prepared)) as [i5|e] eqn:E5.
  - destruct (send_ethereum_trx_single_spec env c st prepared st1 i5 E E5)
      as (g & w & Eg & Es).
    rewrite Es in Hrun. injection Hrun as -> <-. cbn [world etx sent].
    exists prepared, st1, i5. now repeat split.
  - unfold send_ethereum_trx_single in Hrun. rewrite (bind_Ok _ _ _ _ _ E) in Hrun.
    destruct prepared as [[from_address sign] msg].
    unfold payload in E5. cbn [fst snd] in E5.
    rewrite bind_get_etx, bind_lift, E5 in Hrun. discriminate.
Qed.

End Runs.

(** ** The create-with-seed instruction of the loader *)

Lemma take_app (n : nat) (a r : bytes) : List.length a = n -> take n (a ++ r) = Some (a, r).
Proof.
  intros <-. unfold take. now rewrite ltb_app_length, firstn_exact, skipn_exact.
Qed.

Lemma take_all (n : nat) (a : bytes) : List.length a = n -> take n a = Some (a, []).
Proof.
  intros H. rewrite <- (app_nil_r a) at 1. now apply take_app.
Qed.

Lemma len_str_ascii (s : string) :
  Forall (fun b => byte_to_Z b < 128) (list_byte_of_string s) ->
  len_str s = Z.of_nat (List.length (list_byte_of_string s)).
Proof.
  unfold len_str. intros H. f_equal.
  induction H as [|b l Hb _ IH]; [reflexivity|].
  cbn [filter].
  replace (Z.land (byte_to_Z b) 192 =? 128) with false; [cbn; now rewrite IH|].
  destruct b; first [reflexivity | (exfalso; vm_compute in Hb; discriminate)].
Qed.

(** X19.  The payload of [create_with_seed_loader_instruction] can be read
    back field by field: for 32-byte keys, an ASCII seed and amounts that
    fit 64 bits, the instruction is built and its data decodes to the base
    key, the seed bytes, lamports, space, the owner and the created
    address. *)
Theorem create_with_seed_payload {World} (env : Collaborators World)
    (evm_loader_id : string) (funding created base : PublicKey) (seed : string)
    (lamports space : Z) (owner : PublicKey) :
  List.length base = 32%nat ->
  List.length owner = 32%nat ->
  List.length created = 32%nat ->
  Forall (fun b => byte_to_Z b < 128) (list_byte_of_string seed) ->
  Z.of_nat (List.length (list_byte_of_string seed)) < 2 ^ 64 ->
  0 <= lamports < 2 ^ 64 ->
  0 <= space < 2 ^ 64 ->
  exists i,
    create_with_seed_loader_instruction env evm_loader_id funding created base seed
      lamports space owner = Ok i
    /\ decode_create_with_seed (data i)
       = Some (base, list_byte_of_string seed, lamports, space, owner, created).
Proof.
  intros Hb Ho Hc Hascii Hlen Hl Hs.
  unfold create_with_seed_loader_instruction.
  rewrite (len_str_ascii seed Hascii).
  rewrite (to_bytes_ok (Z.of_nat (List.length (list_byte_of_string seed))) 8),
    (to_bytes_ok lamports 8), (to_bytes_ok space 8)
    by (change (256 ^ Z.of_nat 8) with (2 ^ 64); lia).
  cbn [rbind]. eexists. split; [reflexivity|]. cbn [data].
  unfold decode_create_with_seed, bytes_of_key, utf8.
  rewrite (take_app 4 [x04; x00; x00; x00]) by reflexivity.
  destruct (list_eq_dec Byte.byte_eq_dec [x04; x00; x00; x00] [x04; x00; x00; x00])
    as [_|Hne]; [|now destruct Hne].
  rewrite (take_app 32 base) by exact Hb.
  rewrite (take_app 8 (le_digits 8 _)) by apply le_digits_length.
  rewrite from_bytes_le_digits by (change (256 ^ Z.of_nat 8) with (2 ^ 64); lia).
  rewrite Nat2Z.id.
  rewrite (take_app _ (list_byte_of_string seed)) by reflexivity.
  rewrite (take_app 8 (le_digits 8 lamports)) by apply le_digits_length.
  rewrite (take_app 8 (le_digits 8 space)) by apply le_digits_length.
  rewrite (take_app 32 owner) by exact Ho.
  rewrite (take_all 32 created) by exact Hc.
  rewrite !from_bytes_le_digits by (change (256 ^ Z.of_nat 8) with (2 ^ 64); lia).
  reflexivity.
Qed.

Lemma create_with_seed_payload_witness :
  exists i,
    create_with_seed_loader_instruction (Scripted.env 1) EVM_LOADER
      (repeat x01 32) (repeat x02 32) (repeat x03 32) "seed" (10 ^ 9) (128 * 1024)
      (repeat x04 32) = Ok i
    /\ decode_create_with_seed (data i)
       = Some (repeat x03 32, list_byte_of_string "seed", 10 ^ 9, 128 * 1024,
               repeat x04 32, repeat x02 32).
Proof.
  apply (create_with_seed_payload (Scripted.env 1) EVM_LOADER
           (repeat x01 32) (repeat x02 32) (repeat x03 32) "seed" (10 ^ 9) (128 * 1024)
           (repeat x04 32));
    try reflexivity; try lia.
  repeat constructor.
Defined.

(** ** The further properties on the scripted gateway *)

Lemma caller_already_funded_witness :
  create_solana_ether_caller (Scripted.env 1) (Scripted.client (Scripted.env 1) SINGLE)
    (Scripted.start None [])
  = (Finished (Ok tt),
     MkState []
       (set_solana_ether_caller (Some (list_byte_of_string (hex (repeat xab 20))))
          (etx (Scripted.start None ([] : Scripted.World))))
       (sent (Scripted.start None ([] : Scripted.World)))).
Proof.
  apply (caller_already_funded (Scripted.env 1) (Scripted.client (Scripted.env 1) SINGLE)
           (Scripted.start None []) (list_byte_of_string (hex (repeat xab 20))) 255 [] 1 []);
    [reflexivity | reflexivity | discriminate].
Defined.

Lemma caller_resolution_trace_witness :
  (sent (snd (create_solana_ether_caller (Scripted.env 0)
                (Scripted.client (Scripted.env 0) SINGLE) (Scripted.start None [])))
   = sent (Scripted.start None ([] : Scripted.World))
   \/ exists t,
        sent (snd (create_solana_ether_caller (Scripted.env 0)
                     (Scripted.client (Scripted.env 0) SINGLE) (Scripted.start None [])))
        = sent (Scripted.start None ([] : Scripted.World))
          ++ [(t, get_acc (loader_acc (evm_loader (Scripted.client (Scripted.env 0) SINGLE))))]
        /\ creates_caller_account t)
  /\ (fst (create_solana_ether_caller (Scripted.env 0)
             (Scripted.client (Scripted.env 0) SINGLE) (Scripted.start None []))
      = Finished (Ok tt) ->
      exists k,
        _solana_ether_caller
          (etx (snd (create_solana_ether_caller (Scripted.env 0)
                       (Scripted.client (Scripted.env 0) SINGLE) (Scripted.start None []))))
        = Some k).
Proof.
  apply (caller_resolution_trace (Scripted.env 0) (Scripted.client (Scripted.env 0) SINGLE)
           (Scripted.start None [])).
  apply surjective_pairing.
Defined.

Lemma collateral_pool_constant_witness :
  collateral_pool_address (Scripted.client (Scripted.env 1) ITERATIVE)
  = sha256 (Scripted.env 1)
      (b58decode (Scripted.env 1) collateral_pool_base
       ++ list_byte_of_string "collateral_seed_2"
       ++ b58decode (Scripted.env 1) EVM_LOADER)
  /\ collateral_pool_index_buf (Scripted.client (Scripted.env 1) ITERATIVE)
     = [x02; x00; x00; x00].
Proof.
  apply (collateral_pool_constant (Scripted.env 1)).
  apply (constructed_mode _ (Scripted.client (Scripted.env 1) SINGLE) 1).
  - apply (constructed_init _ Scripted.wallet Scripted.loader). reflexivity.
  - reflexivity.
Defined.

Lemma solana2ether_suffix_witness :
  List.length (solana2ether (Scripted.env 1) (repeat x07 32)) = 20%nat
  /\ exists front,
       keccak (Scripted.env 1) (bytes_of_key (repeat x07 32))
       = front ++ solana2ether (Scripted.env 1) (repeat x07 32).
Proof.
  apply (solana2ether_suffix (Scripted.env 1) (repeat x07 32)). cbn. lia.
Defined.

Lemma storage_creation_target_witness :
  sent (snd (create_storage_account (Scripted.env 0)
               (Scripted.client (Scripted.env 0) ITERATIVE) "0304"
               (Scripted.start None [])))
  = sent (Scripted.start None ([] : Scripted.World))
  \/ exists i,
       sent (snd (create_storage_account (Scripted.env 0)
                    (Scripted.client (Scripted.env 0) ITERATIVE) "0304"
                    (Scripted.start None [])))
       = sent (Scripted.start None ([] : Scripted.World))
         ++ [(MkTransaction [i], solana_wallet (Scripted.client (Scripted.env 0) ITERATIVE))]
       /\ keys i
          = [ MkAccountMeta
                (public_key (solana_wallet (Scripted.client (Scripted.env 0) ITERATIVE)))
                true true;
              MkAccountMeta
                (storage_address (Scripted.env 0)
                   (Scripted.client (Scripted.env 0) ITERATIVE) "0304")
                false true;
              MkAccountMeta
                (public_key (solana_wallet (Scripted.client (Scripted.env 0) ITERATIVE)))
                true false ].
Proof.
  apply (storage_creation_target (Scripted.env 0)
           (Scripted.client (Scripted.env 0) ITERATIVE) "0304" (Scripted.start None [])
           (storage_address (Scripted.env 0)
              (Scripted.client (Scripted.env 0) ITERATIVE) "0304"));
    reflexivity.
Defined.

Lemma loop_returns_after_replies_witness :
  continue_loop (Scripted.env 1) (Scripted.client (Scripted.env 1) ITERATIVE) 3
    (MkState [Ok (Scripted.response 1 Scripted.seven); Ok (Scripted.response 2 Scripted.six)]
       (Scripted.ready None) [])
  = (Finished (Ok (Scripted.response 2 Scripted.six)),
     MkState [] (set_NeonEvmClient__storage None (Scripted.ready None))
       ([] ++ repeat (continue_batch (Scripted.ready None) Scripted.continue_instruction,
                      solana_wallet (Scripted.client (Scripted.env 1) ITERATIVE))
                (S (List.length [Scripted.response 1 Scripted.seven])))).
Proof.
  apply (loop_returns_after_replies (Scripted.env 1)
           (Scripted.client (Scripted.env 1) ITERATIVE) Scripted.continue_instruction
           [Scripted.response 1 Scripted.seven]
           (MkState [Ok (Scripted.response 1 Scripted.seven);
                     Ok (Scripted.response 2 Scripted.six)]
              (Scripted.ready None) [])
           (Scripted.response 2 Scripted.six) [] 3%nat).
  - reflexivity.
  - eapply replies_cons; [reflexivity|]. eapply replies_cons; [reflexivity|].
    apply replies_nil.
  - constructor; [|constructor]. right. exists x07, []. split; [reflexivity | discriminate].
  - exists []. reflexivity.
  - cbn. lia.
Defined.

Lemma empty_inner_data_raises_witness :
  continue_loop (Scripted.env 1) (Scripted.client (Scripted.env 1) ITERATIVE) (S 2)
    (MkState [Ok (Scripted.response 3 "")] (Scripted.ready None) [])
  = (Finished (Raise IndexError),
     MkState [] (Scripted.ready None)
       ([] ++ [(continue_batch (Scripted.ready None) Scripted.continue_instruction,
                solana_wallet (Scripted.client (Scripted.env 1) ITERATIVE))])).
Proof.
  apply (empty_inner_data_raises (Scripted.env 1)
           (Scripted.client (Scripted.env 1) ITERATIVE) Scripted.continue_instruction
           (MkState [Ok (Scripted.response 3 "")] (Scripted.ready None) [])
           (Scripted.response 3 "") []); reflexivity.
Defined.

Lemma returned_run_witness :
  has_marker (last_inner_data (Scripted.env 1) (Scripted.response 2 Scripted.six))
  /\ exists prepared st1 i9 i10 n,
       iterative_prepare (Scripted.env 1) (Scripted.client (Scripted.env 1) ITERATIVE)
         (Scripted.start None [Ok (Scripted.response 1 Scripted.six);
                               Ok (Scripted.response 2 Scripted.six)])
       = (Finished (Ok prepared), st1)
       /\ (S n <= 3)%nat
       /\ sent (snd (send_ethereum_trx_iterative (Scripted.env 1)
                       (Scripted.client (Scripted.env 1) ITERATIVE) 3
                       (Scripted.start None [Ok (Scripted.response 1 Scripted.six);
                                             Ok (Scripted.response 2 Scripted.six)])))
          = sent st1
            ++ (first_batch (Scripted.env 1) (etx st1) prepared i9,
                solana_wallet (Scripted.client (Scripted.env 1) ITERATIVE))
               :: repeat (continue_batch (etx st1) i10,
                          solana_wallet (Scripted.client (Scripted.env 1) ITERATIVE)) (S n).
Proof.
  apply (returned_run (Scripted.env 1) (Scripted.client (Scripted.env 1) ITERATIVE) 3
           (Scripted.start None [Ok (Scripted.response 1 Scripted.six);
                                 Ok (Scripted.response 2 Scripted.six)])).
  reflexivity.
Defined.

Lemma storage_reused_by_next_run_witness :
  exists s,
    _storage (etx (snd (send_ethereum_trx_iterative (Scripted.env 1)
                          (Scripted.client (Scripted.env 1) ITERATIVE) 3
                          (Scripted.start None [Ok Scripted.idle;
                                                Ok (Scripted.response 2 Scripted.six)]))))
    = Some s
    /\ _storage
         (etx (snd (iterative_prepare (Scripted.env 1)
                      (Scripted.client (Scripted.env 1) ITERATIVE)
                      (snd (send_ethereum_trx_iterative (Scripted.env 1)
                              (Scripted.client (Scripted.env 1) ITERATIVE) 3
                              (Scripted.start None [Ok Scripted.idle;
                                                    Ok (Scripted.response 2 Scripted.six)]))))))
       = Some s
    /\ extends creates_caller_account
         (snd (send_ethereum_trx_iterative (Scripted.env 1)
                 (Scripted.client (Scripted.env 1) ITERATIVE) 3
                 (Scripted.start None [Ok Scripted.idle;
                                       Ok (Scripted.response 2 Scripted.six)])))
         (snd (iterative_prepare (Scripted.env 1)
                 (Scripted.client (Scripted.env 1) ITERATIVE)
                 (snd (send_ethereum_trx_iterative (Scripted.env 1)
                         (Scripted.client (Scripted.env 1) ITERATIVE) 3
                         (Scripted.start None [Ok Scripted.idle;
                                               Ok (Scripted.response 2 Scripted.six)]))))).
Proof.
  apply (storage_reused_by_next_run (Scripted.env 1)
           (Scripted.client (Scripted.env 1) ITERATIVE) 3
           (Scripted.start None [Ok Scripted.idle; Ok (Scripted.response 2 Scripted.six)])
           (Scripted.response 2 Scripted.six) _
           (fst (iterative_prepare (Scripted.env 1)
                   (Scripted.client (Scripted.env 1) ITERATIVE)
                   (snd (send_ethereum_trx_iterative (Scripted.env 1)
                           (Scripted.client (Scripted.env 1) ITERATIVE) 3
                           (Scripted.start None
                              [Ok Scripted.idle; Ok (Scripted.response 2 Scripted.six)])))))).
  - reflexivity.
  - apply surjective_pairing.
Defined.

Lemma steps_out_of_range_witness :
  send_ethereum_trx_iterative (Scripted.env 1) (Scripted.client (Scripted.env 1) ITERATIVE) 4
    (MkState ([] : Scripted.World)
       (EthereumTransaction_init (EtherBytes (repeat xab 20)) [xc0] [xc1] [xda; x7a]
          None (2 ^ 64)) [])
  = (Finished (Raise OverflowError),
     snd (iterative_prepare (Scripted.env 1) (Scripted.client (Scripted.env 1) ITERATIVE)
            (MkState ([] : Scripted.World)
               (EthereumTransaction_init (EtherBytes (repeat xab 20)) [xc0] [xc1] [xda; x7a]
                  None (2 ^ 64)) []))).
Proof.
  apply (steps_out_of_range (Scripted.env 1) (Scripted.client (Scripted.env 1) ITERATIVE)
           (MkState ([] : Scripted.World)
              (EthereumTransaction_init (EtherBytes (repeat xab 20)) [xc0] [xc1] [xda; x7a]
                 None (2 ^ 64)) [])
           ([xc0], secret_key Scripted.wallet, [xda; x7a])).
  - right. cbn. lia.
  - reflexivity.
Defined.

Lemma failed_preparation_sets_no_storage_witness :
  _storage (etx (snd (iterative_prepare (Scripted.env 0)
                        (Scripted.client (Scripted.env 0) ITERATIVE)
                        (Scripted.start None
                           [Ok Scripted.idle; Raise (ExternalError "RuntimeError")]))))
  = None.
Proof.
  apply (failed_preparation_sets_no_storage (Scripted.env 0)
           (Scripted.client (Scripted.env 0) ITERATIVE)
           (Scripted.start None [Ok Scripted.idle; Raise (ExternalError "RuntimeError")])
           (fst (iterative_prepare (Scripted.env 0)
                   (Scripted.client (Scripted.env 0) ITERATIVE)
                   (Scripted.start None
                      [Ok Scripted.idle; Raise (ExternalError "RuntimeError")])))).
  - reflexivity.
  - apply surjective_pairing.
  - intros x. vm_compute. discriminate.
Defined.

Lemma single_shot_returns_witness :
  exists prepared st1 i5,
    create_instruction_data_from_tx (Scripted.env 1)
      (Scripted.client (Scripted.env 1) SINGLE)
      (Scripted.start None [Ok (Scripted.response 9 Scripted.seven)])
    = (Finished (Ok prepared), st1)
    /\ sol_instr_05 (Scripted.env 1) (Scripted.client (Scripted.env 1) SINGLE)
         (etx st1) (payload prepared) = Ok i5
    /\ rpc_send_transaction (Scripted.env 1) (world st1)
         (single_batch (Scripted.env 1) (etx st1) prepared i5)
         (solana_wallet (Scripted.client (Scripted.env 1) SINGLE))
       = (Ok (Scripted.response 9 Scripted.seven),
          world (snd (send_ethereum_trx_single (Scripted.env 1)
                        (Scripted.client (Scripted.env 1) SINGLE)
                        (Scripted.start None [Ok (Scripted.response 9 Scripted.seven)]))))
    /\ etx (snd (send_ethereum_trx_single (Scripted.env 1)
                   (Scripted.client (Scripted.env 1) SINGLE)
                   (Scripted.start None [Ok (Scripted.response 9 Scripted.seven)])))
       = etx st1
    /\ sent (snd (send_ethereum_trx_single (Scripted.env 1)
                    (Scripted.client (Scripted.env 1) SINGLE)
                    (Scripted.start None [Ok (Scripted.response 9 Scripted.seven)])))
       = sent st1
         ++ [(single_batch (Scripted.env 1) (etx st1) prepared i5,
              solana_wallet (Scripted.client (Scripted.env 1) SINGLE))].
Proof.
  apply (single_shot_returns (Scripted.env 1) (Scripted.client (Scripted.env 1) SINGLE)
           (Scripted.start None [Ok (Scripted.response 9 Scripted.seven)])
           (Scripted.response 9 Scripted.seven)).
  reflexivity.
Defined.

Lemma caller_created_witness :
  create_solana_ether_caller (Scripted.env 0) (Scripted.client (Scripted.env 0) SINGLE)
    (Scripted.start None [Ok Scripted.idle])
  = (Finished (Ok tt),
     MkState []
       (set_solana_ether_caller (Some (list_byte_of_string (hex (repeat xab 20))))
          (etx (Scripted.start None ([] : Scripted.World))))
       (sent (Scripted.start None ([] : Scripted.World))
        ++ [(MkTransaction
               [MkTransactionInstruction
                  (create_keys (Scripted.env 0)
                     (evm_loader (Scripted.client (Scripted.env 0) SINGLE))
                     (list_byte_of_string (hex (repeat xab 20))) false)
                  (PublicKey_of_str (Scripted.env 0)
                     (loader_id (evm_loader (Scripted.client (Scripted.env 0) SINGLE))))
                  ([x02; x00; x00; x00]
                   ++ [x00; xca; x9a; x3b; x00; x00; x00; x00]
                   ++ [x00; x00; x00; x00; x00; x00; x00; x00]
                   ++ repeat xab 20 ++ [byte_of_Z 255])],
             get_acc (loader_acc (evm_loader (Scripted.client (Scripted.env 0) SINGLE))))])).
Proof.
  apply (caller_created (Scripted.env 0) (Scripted.client (Scripted.env 0) SINGLE)
           (Scripted.start None [Ok Scripted.idle])
           (list_byte_of_string (hex (repeat xab 20))) 255
           [Ok Scripted.idle] [Ok Scripted.idle]
           (repeat xab 20) (list_byte_of_string (hex (repeat xab 20))) 255
           [Ok Scripted.idle] Scripted.idle [] []);
    try reflexivity.
  lia.
Defined.
